(** * anime-today-scraper: a shallow embedding of [scrape.py]

  The script is one linear pipeline: list the posts of one account, keep
  those whose title looks like a date and whose link looks like an image,
  look for the account's own annotation comment, and archive image and
  comment under [data/<MM>_<MonthName>/<DD>/].

  Python [str] is embedded as [string], [int] as [Z], [Optional[str]] as
  [option string].  Paths are the strings the script builds; they are
  compared as written (no normalisation, no symbolic links). *)

From Stdlib Require Import ZArith String Ascii List Lia Bool.
From Stdlib Require DecimalString DecimalZ DecimalPos.
From stdpp Require Import base gmap strings list.

Import ListNotations.
Local Open Scope Z_scope.

(** ** Python string operations used by the script *)

Module Str.

(** [c.lower()] on the ASCII letters; the names the title is searched for
    are ASCII, so only these letters decide the search. *)
Definition lower_char (c : ascii) : ascii :=
  let n := nat_of_ascii c in
  if (Nat.leb 65 n && Nat.leb n 90)%bool then ascii_of_nat (n + 32) else c.

Fixpoint lower (s : string) : string :=
  match s with
  | EmptyString => EmptyString
  | String c s' => String (lower_char c) (lower s')
  end.

(** [s.startswith(p)] *)
Definition startswith (s p : string) : bool := String.prefix p s.

(** [p in s] *)
Fixpoint contains (p s : string) : bool :=
  String.prefix p s ||
  match s with
  | EmptyString => false
  | String _ s' => contains p s'
  end.

(** [s.endswith(p)]: some tail of [s] is [p]. *)
Fixpoint endswith (s p : string) : bool :=
  String.eqb s p ||
  match s with
  | EmptyString => false
  | String _ s' => endswith s' p
  end.

(** [s.split(c)] for a one-character separator: never the empty list. *)
Fixpoint split (c : ascii) (s : string) : list string :=
  match s with
  | EmptyString => [EmptyString]
  | String a s' =>
      if Ascii.eqb a c then EmptyString :: split c s'
      else match split c s' with
           | [] => [String a EmptyString]
           | w :: ws => String a w :: ws
           end
  end.

(** What is left of [s] after the leading [p], if [s] starts with it. *)
Fixpoint strip_prefix (p s : string) : option string :=
  match p, s with
  | EmptyString, _ => Some s
  | String a p', String b s' =>
      if Ascii.eqb a b then strip_prefix p' s' else None
  | String _ _, EmptyString => None
  end.

(** [l[-1]] of a list that [split] returned. *)
Definition last (l : list string) : string := List.last l EmptyString.

End Str.

(** ** [datetime.utcfromtimestamp] and [strftime] *)

Module Calendar.

(** [calendar.month_name]: index 0 is the empty string. *)
Definition month_name : list string :=
  [""; "January"; "February"; "March"; "April"; "May"; "June"; "July";
   "August"; "September"; "October"; "November"; "December"].

(** [calendar.day_name] *)
Definition day_name : list string :=
  ["Monday"; "Tuesday"; "Wednesday"; "Thursday"; "Friday"; "Saturday";
   "Sunday"].

Record datetime := mkdatetime {
  year : Z; month : Z; day : Z; hour : Z; minute : Z; second : Z
}.

(** Proleptic Gregorian date of the day [z] days after 1970-01-01,
    computed on 400-year eras that start on 1 March. *)
Definition civil_from_days (z : Z) : Z * Z * Z :=
  let z := z + 719468 in
  let era := z / 146097 in
  let doe := z - era * 146097 in
  let yoe := (doe - doe / 1460 + doe / 36524 - doe / 146096) / 365 in
  let doy := doe - (365 * yoe + yoe / 4 - yoe / 100) in
  let mp := (5 * doy + 2) / 153 in
  let d := doy - (153 * mp + 2) / 5 + 1 in
  let m := if mp <? 10 then mp + 3 else mp - 9 in
  let y := yoe + era * 400 + (if m <=? 2 then 1 else 0) in
  (y, m, d).

Definition MINYEAR : Z := 1.
Definition MAXYEAR : Z := 9999.

(** [datetime.datetime.utcfromtimestamp(t)] for an integer [t]; [None]
    stands for the exception raised when the year leaves
    [MINYEAR..MAXYEAR]. *)
Definition utcfromtimestamp (t : Z) : option datetime :=
  let '(y, m, d) := civil_from_days (t / 86400) in
  let s := t mod 86400 in
  if (MINYEAR <=? y) && (y <=? MAXYEAR) then
    Some (mkdatetime y m d (s / 3600) (s mod 3600 / 60) (s mod 60))
  else None.

Definition digit (d : Z) : ascii := ascii_of_nat (48 + Z.to_nat d).

(** A number below 100 as two decimal digits. *)
Definition two_digits (n : Z) : string :=
  String (digit (n / 10)) (String (digit (n mod 10)) EmptyString).

(** One conversion of [strftime], in the C/English locale. *)
Definition directive (c : ascii) (dt : datetime) : string :=
  if Ascii.eqb c "m"%char then two_digits (month dt)
  else if Ascii.eqb c "d"%char then two_digits (day dt)
  else if Ascii.eqb c "B"%char then nth (Z.to_nat (month dt)) month_name ""
  else String "%"%char (String c EmptyString).

(** [dt.strftime(fmt)] for formats built from [%m], [%d], [%B] and
    literal text. *)
Fixpoint strftime (dt : datetime) (fmt : string) : string :=
  match fmt with
  | EmptyString => EmptyString
  | String "%"%char (String c rest) => directive c dt +:+ strftime dt rest
  | String c rest => String c (strftime dt rest)
  end.

End Calendar.

(** ** [os.path] on POSIX *)

Module Path.

(** [os.path.join(a, b)] *)
Definition join (a b : string) : string :=
  if Str.startswith b "/" then b
  else if String.eqb a "" || Str.endswith a "/" then a +:+ b
  else a +:+ "/" +:+ b.

(** The proper ancestors of a path: what stands before each of its
    separators, shortest first ([acc] is the text already read). *)
Fixpoint ancestors_from (acc s : string) : list string :=
  match s with
  | EmptyString => []
  | String c s' =>
      (if Ascii.eqb c "/" && negb (String.eqb acc "") then [acc] else [])
      ++ ancestors_from (acc +:+ String c EmptyString) s'
  end.

Definition ancestors (p : string) : list string := ancestors_from "" p.

(** The directory a path is created in; the empty string stands for the
    working directory (or the root). *)
Definition parent (p : string) : string := List.last (ancestors p) "".

End Path.

(** ** Exceptions, the file system and the trace of a run *)

(** A raised instance of [Exception]: its class and [str(e)].  Signals that
    derive from [BaseException] only (an interrupt, a cancelled task) stop
    the process and are no outcome of a call here. *)
Inductive exn := Exn (cls msg : string).

Definition exn_str (e : exn) : string := let 'Exn _ m := e in m.

(** What a call does: return, raise, or continue in Python in a way the
    typed embedding does not follow ([Untyped]: a record whose fields are
    not of the declared types). *)
Inductive result (A : Type) :=
| Ok (a : A)
| Raise (e : exn)
| Untyped.
Arguments Ok {A} a.
Arguments Raise {A} e.
Arguments Untyped {A}.

Inductive node := File (data : string) | Dir.

(** What the run does to the outside, in order. *)
Inductive event :=
| Print (line : string)             (* [print(line)] *)
| Sleep (seconds : Z)               (* [asyncio.sleep] *)
| Listing (user : string)           (* the account's [submissions.new] feed *)
| LoadComments (submission : string) (* [submission.load()] and its comments *)
| HttpGet (url : string).           (* [session.get(url)] and [response.read()] *)

Record state := mkstate {
  fs : gmap string node;
  trace : list event
}.

(** Computations of the script: the state survives a raise. *)
Definition M (A : Type) : Type := state -> result A * state.

Definition ret {A} (a : A) : M A := fun st => (Ok a, st).

Definition bind {A B} (c : M A) (k : A -> M B) : M B :=
  fun st =>
    match c st with
    | (Ok a, st') => k a st'
    | (Raise e, st') => (Raise e, st')
    | (Untyped, st') => (Untyped, st')
    end.

Definition raise {A} (e : exn) : M A := fun st => (Raise e, st).

Definition lift {A} (r : result A) : M A := fun st => (r, st).

(** [M] is a monad in the sense of stdpp, which gives [x ← c; k] and
    [c;; k] for sequencing. *)
#[global] Instance M_ret : MRet M := @ret.
#[global] Instance M_bind : MBind M := fun A B k c => bind c k.

(** [try: c except Exception as e: handler(e)] *)
Definition try_except {A} (c : M A) (handler : exn -> M A) : M A :=
  fun st =>
    match c st with
    | (Raise e, st') => handler e st'
    | r => r
    end.

(** [for x in l: body(x)] *)
Fixpoint for_each {A} (l : list A) (body : A -> M unit) : M unit :=
  match l with
  | [] => ret tt
  | x :: l' => body x ;; for_each l' body
  end.

Definition emit (e : event) : M unit :=
  fun st => (Ok tt, mkstate (fs st) (trace st ++ [e])).

Definition print (line : string) : M unit := emit (Print line).

Module OS.

Definition FileNotFoundError (p : string) : exn :=
  Exn "FileNotFoundError" ("[Errno 2] No such file or directory: '" +:+ p +:+ "'").
Definition FileExistsError (p : string) : exn :=
  Exn "FileExistsError" ("[Errno 17] File exists: '" +:+ p +:+ "'").
Definition NotADirectoryError (p : string) : exn :=
  Exn "NotADirectoryError" ("[Errno 20] Not a directory: '" +:+ p +:+ "'").
Definition IsADirectoryError (p : string) : exn :=
  Exn "IsADirectoryError" ("[Errno 21] Is a directory: '" +:+ p +:+ "'").

Definition is_dir (m : gmap string node) (p : string) : bool :=
  match m !! p with Some Dir => true | _ => false end.

Definition is_file (m : gmap string node) (p : string) : bool :=
  match m !! p with Some (File _) => true | _ => false end.

(** [os.path.exists(p)] *)
Definition path_exists (p : string) : M bool :=
  fun st => (Ok (bool_decide (is_Some (fs st !! p))), st).

(** [os.path.isdir(p)] *)
Definition path_isdir (p : string) : M bool :=
  fun st => (Ok (is_dir (fs st) p), st).

(** The name [k] has directly under directory [p], if it is there. *)
Definition child_name (p k : string) : option string :=
  match Str.strip_prefix (p +:+ "/") k with
  | Some n => if String.eqb n "" || Str.contains "/" n then None else Some n
  | None => None
  end.

Definition entries (m : gmap string node) (p : string) : list string :=
  omap (fun kv => child_name p (fst kv)) (map_to_list m).

(** [os.listdir(p)] *)
Definition listdir (p : string) : M (list string) :=
  fun st =>
    match fs st !! p with
    | Some Dir => (Ok (entries (fs st) p), st)
    | Some (File _) => (Raise (NotADirectoryError p), st)
    | None => (Raise (FileNotFoundError p), st)
    end.

(** [os.makedirs(p)]: the missing ancestors and then [p] itself. *)
Definition makedirs (p : string) : M unit :=
  fun st =>
    if bool_decide (is_Some (fs st !! p)) then (Raise (FileExistsError p), st)
    else if existsb (is_file (fs st)) (Path.ancestors p)
    then (Raise (NotADirectoryError p), st)
    else (Ok tt,
          mkstate (foldr (fun d m => <[d := Dir]> m) (fs st) (Path.ancestors p ++ [p]))
                  (trace st)).

(** The directory of [p] is there to create or replace [p] in. *)
Definition parent_ok (m : gmap string node) (p : string) : bool :=
  let d := Path.parent p in String.eqb d "" || is_dir m d.

(** [with open(p, "w") as f: f.write(data)] (also mode ["wb"]): the file is
    created or replaced as a whole. *)
Definition write_file (p data : string) : M unit :=
  fun st =>
    if is_dir (fs st) p then (Raise (IsADirectoryError p), st)
    else if negb (parent_ok (fs st) p) then
      (Raise (if existsb (is_file (fs st)) (Path.ancestors p)
              then NotADirectoryError p else FileNotFoundError p), st)
    else (Ok tt, mkstate (<[p := File data]> (fs st)) (trace st)).

(** [with open(p, "r") as f: f.read()] *)
Definition read_file (p : string) : M string :=
  fun st =>
    match fs st !! p with
    | Some (File data) => (Ok data, st)
    | Some Dir => (Raise (IsADirectoryError p), st)
    | None => (Raise (FileNotFoundError p), st)
    end.

End OS.

(** ** The upstream: what asyncpraw and aiohttp hand to the script *)

Module Praw.

(** A comment as the script looks at it: [author_is name] is the outcome of
    [comment.author == name], [body] the text. *)
Record Comment := mkComment {
  author_is : string -> bool;
  body : string
}.

(** [submission.load()] followed by the iteration over
    [submission.comments]: comments arrive one by one until the forest is
    exhausted or a step raises (a refused request, an entry that is no
    comment). *)
Inductive Comments :=
| NoMore
| Fails (e : exn)
| Next (c : Comment) (rest : Comments).

Record Submission := mkSubmission {
  title : string;
  id : string;
  permalink : string;
  url : string;
  created_utc : Z;
  comments : Comments
}.

(** [target_user.submissions.new(limit=None)] as the [async for] of
    [get_submissions] meets it: submissions arrive one by one until the
    feed is exhausted or a request for the next batch raises. *)
Inductive Feed :=
| Exhausted
| Refused (e : exn)
| Delivers (s : Submission) (rest : Feed).

(** The feed that delivers the submissions of [l] and ends. *)
Fixpoint delivered (l : list Submission) : Feed :=
  match l with
  | [] => Exhausted
  | s :: l' => Delivers s (delivered l')
  end.

End Praw.

(** A run in which the feed is delivered in full.  (A feed that fails is a
    [Praw.Feed]; [get_submissions_feed] is the listing over any feed.) *)
Record upstream := mkupstream {
  (** what [target_user.submissions.new(limit=None)] delivers *)
  listing : list Praw.Submission;
  (** the body served for a URL, or the exception of the request *)
  http : string -> result string
}.

(** ** The script *)

Definition reddit_username : string := "animetoday".
Definition data_dir : string := "data".
Definition submissions_urls_file : string := Path.join data_dir "submissions_urls.json".

Module DailyAnimePost.

Record t := mk {
  title : string;
  id : string;
  permalink : string;
  media_url : string;
  created_utc : Z;
  first_comment : option string
}.

End DailyAnimePost.

Definition get_permalink (submission : Praw.Submission) : string :=
  "https://www.reddit.com" +:+ Praw.permalink submission.

(** [async with session.get(url) as response: await response.read()] *)
Definition http_get (up : upstream) (url : string) : M string :=
  emit (HttpGet url);; lift (http up url).

Definition download_image (up : upstream)
    (submission : DailyAnimePost.t) (directory : string) : M unit :=
  let image_filename := Path.join directory (DailyAnimePost.id submission) in
  let extension := Str.last (Str.split "." (DailyAnimePost.media_url submission)) in
  let image_filename := image_filename +:+ "." +:+ extension in
  e ← OS.path_exists image_filename;
  if (e : bool) then mret tt
  else
    image_data ← http_get up (DailyAnimePost.media_url submission);
    OS.write_file image_filename image_data.

Definition month_names : list string :=
  map Str.lower (filter (fun name => name <> "") Calendar.month_name).
Definition day_names : list string := map Str.lower Calendar.day_name.

(** The first test of the listing loop: the title carries a date word. *)
Definition has_date_indicator (title : string) : bool :=
  existsb (fun month => Str.contains month title) month_names
  || existsb (fun day => Str.contains day title) day_names
  || Str.contains "today" title.

(** The second test: [submission.url.endswith(("jpg", "jpeg", "png", "gif"))] *)
Definition is_image_url (url : string) : bool :=
  existsb (Str.endswith url) ["jpg"; "jpeg"; "png"; "gif"].

(** The body of the [try]: the first comment of the account whose text is
    brace-delimited; the loop is left at the first hit. *)
Definition is_annotation (comment : Praw.Comment) : bool :=
  Praw.author_is comment reddit_username
  && Str.startswith (Praw.body comment) "{"
  && Str.endswith (Praw.body comment) "}".

Fixpoint find_comment (cs : Praw.Comments) : M (option string) :=
  match cs with
  | Praw.NoMore => mret None
  | Praw.Fails e => raise e
  | Praw.Next comment rest =>
      if is_annotation comment
      then
        print ("Found comment: " +:+ Praw.body comment);;
        mret (Some (Praw.body comment))
      else find_comment rest
  end.

Definition skip_title_notice (submission : Praw.Submission) : string :=
  "Skipping '" +:+ Praw.title submission
  +:+ "' because it doesn't contain a known date indicator in the title - "
  +:+ get_permalink submission.

Definition skip_image_notice (submission : Praw.Submission) : string :=
  "Skipping " +:+ Praw.title submission +:+ " because it's not an image".

(** The comment lookup of one kept submission, with its handler. *)
Definition lookup_comment (submission : Praw.Submission) : M (option string) :=
  print "Checking for comment...";;
  emit (Sleep 1);;
  try_except
    (emit (LoadComments (Praw.id submission));;
     find_comment (Praw.comments submission))
    (fun e => print ("Error getting comment: " +:+ exn_str e);; mret None).

Definition make_post (submission : Praw.Submission)
    (submission_comment : option string) : DailyAnimePost.t :=
  DailyAnimePost.mk
    (Praw.title submission) (Praw.id submission) (get_permalink submission)
    (Praw.url submission) (Praw.created_utc submission) submission_comment.

(** The [async for] of [get_submissions], [posts] being the list built so
    far.  Nothing handles a failure of the feed: it leaves the loop and the
    function. *)
Fixpoint get_submissions_stream (feed : Praw.Feed)
    (posts : list DailyAnimePost.t) : M (list DailyAnimePost.t) :=
  match feed with
  | Praw.Exhausted => mret posts
  | Praw.Refused e => raise e
  | Praw.Delivers submission rest =>
      let title := Str.lower (Praw.title submission) in
      if negb (existsb (fun month => Str.contains month title) month_names)
         && negb (existsb (fun day => Str.contains day title) day_names)
         && negb (Str.contains "today" title)
      then print (skip_title_notice submission);; get_submissions_stream rest posts
      else if negb (is_image_url (Praw.url submission))
      then print (skip_image_notice submission);; get_submissions_stream rest posts
      else
        submission_comment ← lookup_comment submission;
        get_submissions_stream rest (posts ++ [make_post submission submission_comment])
  end.

(** The loop over a feed that delivers [l] in full. *)
Definition get_submissions_loop (l : list Praw.Submission)
    (posts : list DailyAnimePost.t) : M (list DailyAnimePost.t) :=
  get_submissions_stream (Praw.delivered l) posts.

Definition get_submissions_feed (feed : Praw.Feed) : M (list DailyAnimePost.t) :=
  emit (Listing reddit_username);;
  get_submissions_stream feed [].

Definition get_submissions (up : upstream) : M (list DailyAnimePost.t) :=
  get_submissions_feed (Praw.delivered (listing up)).

(** ** The cache file *)

(** The values [json] writes and reads here: [None], booleans, integers,
    strings, lists and dictionaries (keys in insertion order). *)
#[warnings="-register-all"]
Inductive json :=
| JNull
| JBool (b : bool)
| JInt (n : Z)
| JStr (s : string)
| JArr (items : list json)
| JObj (members : list (string * json)).

Definition TypeError (msg : string) : exn := Exn "TypeError" msg.

(** [o.__dict__] of a post, the [default] hook of [json.dump]. *)
Definition post_dict (o : DailyAnimePost.t) : json :=
  JObj [("title", JStr (DailyAnimePost.title o));
        ("id", JStr (DailyAnimePost.id o));
        ("permalink", JStr (DailyAnimePost.permalink o));
        ("media_url", JStr (DailyAnimePost.media_url o));
        ("created_utc", JInt (DailyAnimePost.created_utc o));
        ("first_comment",
         match DailyAnimePost.first_comment o with
         | Some c => JStr c
         | None => JNull
         end)].

Definition field_names : list string :=
  ["title"; "id"; "permalink"; "media_url"; "created_utc"; "first_comment"].

Fixpoint lookup_key (k : string) (members : list (string * json)) : option json :=
  match members with
  | [] => None
  | (k', v) :: rest => if String.eqb k k' then Some v else lookup_key k rest
  end.

Definition as_str (v : json) : result string :=
  match v with JStr s => Ok s | _ => Untyped end.
Definition as_int (v : json) : result Z :=
  match v with JInt n => Ok n | _ => Untyped end.
Definition as_optional_str (v : json) : result (option string) :=
  match v with JStr s => Ok (Some s) | JNull => Ok None | _ => Untyped end.

Definition result_bind {A B} (r : result A) (k : A -> result B) : result B :=
  match r with
  | Ok a => k a
  | Raise e => Raise e
  | Untyped => Untyped
  end.

(** The keyword call of [DailyAnimePost] on the dictionary [s]: the keys of
    [s] must be the six field names, each once; the generated initialiser
    checks no value.  A value that is not of
    the declared type of its field leaves the typed embedding. *)
Definition post_of_kwargs (s : json) : result DailyAnimePost.t :=
  match s with
  | JObj members =>
      if forallb (fun kv => existsb (String.eqb (fst kv)) field_names) members
         && forallb (fun k => existsb (fun kv => String.eqb k (fst kv)) members) field_names
         && (length members =? length field_names)%nat
      then
        match lookup_key "title" members, lookup_key "id" members,
              lookup_key "permalink" members, lookup_key "media_url" members,
              lookup_key "created_utc" members, lookup_key "first_comment" members with
        | Some a, Some b, Some c, Some d, Some e, Some f =>
            result_bind (as_str a) (fun title =>
            result_bind (as_str b) (fun id =>
            result_bind (as_str c) (fun permalink =>
            result_bind (as_str d) (fun media_url =>
            result_bind (as_int e) (fun created_utc =>
            result_bind (as_optional_str f) (fun first_comment =>
            Ok (DailyAnimePost.mk title id permalink media_url created_utc
                  first_comment)))))))
        | _, _, _, _, _, _ => Raise (TypeError "__init__() missing required argument")
        end
      else Raise (TypeError "__init__() got unexpected or missing arguments")
  | _ => Raise (TypeError "argument after ** must be a mapping")
  end.

Fixpoint posts_of_items (items : list json) : result (list DailyAnimePost.t) :=
  match items with
  | [] => Ok []
  | s :: rest =>
      result_bind (post_of_kwargs s) (fun p =>
      result_bind (posts_of_items rest) (fun ps => Ok (p :: ps)))
  end.

(** The comprehension over [submissions]: a list gives its items, a
    dictionary its keys and a string its characters (none of which is a
    mapping); nothing else can be iterated. *)
Definition posts_of_document (submissions : json) : result (list DailyAnimePost.t) :=
  match submissions with
  | JArr items => posts_of_items items
  | JObj [] | JStr EmptyString => Ok []
  | JObj _ | JStr _ => Raise (TypeError "argument after ** must be a mapping")
  | _ => Raise (TypeError "object is not iterable")
  end.

Section Script.

(** The [json] module: [json_dumps indent v] is the text [json.dump] writes
    for [v], [json_loads] what [json.load] makes of a text ([None]: it is
    no JSON document). *)
Variable json_dumps : nat -> json -> string.
Variable json_loads : string -> option json.

Definition JSONDecodeError : exn := Exn "JSONDecodeError" "Expecting value".

Definition save_submissions_urls (submissions : list DailyAnimePost.t) : M unit :=
  OS.write_file submissions_urls_file
    (json_dumps 4 (JArr (map post_dict submissions))).

Definition load_submissions_urls : M (list DailyAnimePost.t) :=
  text ← OS.read_file submissions_urls_file;
  match json_loads text with
  | Some submissions => lift (posts_of_document submissions)
  | None => raise JSONDecodeError
  end.

(** ** The audit *)

Definition perform_audit : M unit :=
  months ← OS.listdir data_dir;
  for_each months (fun month =>
    let month_dir := Path.join data_dir month in
    d ← OS.path_isdir month_dir;
    if negb d then mret tt
    else
      days ← OS.listdir month_dir;
      for_each days (fun day =>
        let day_dir := Path.join month_dir day in
        l ← OS.listdir day_dir;
        match l with
        | [] => print ("Empty directory: " +:+ day_dir)
        | _ :: _ => mret tt
        end));;
  print "Audit complete".

(** ** The run *)

Definition ValueError (msg : string) : exn := Exn "ValueError" msg.

(** The directory of a post: [data/<%m_%B>/<%d>] of its creation date. *)
Definition month_dir_of (dt : Calendar.datetime) : string :=
  Path.join data_dir (Calendar.strftime dt "%m_%B").
Definition day_dir_of (dt : Calendar.datetime) : string :=
  Path.join (month_dir_of dt) (Calendar.strftime dt "%d").

(** The comment file of a post, written when [first_comment] is truthy. *)
Definition save_comment (submission : DailyAnimePost.t) (day_dir : string) : M unit :=
  match DailyAnimePost.first_comment submission with
  | Some (String c s) =>
      let comment_filename :=
        Path.join day_dir (DailyAnimePost.id submission +:+ ".txt") in
      OS.write_file comment_filename (String c s)
  | Some EmptyString | None => mret tt
  end.

(** The body of the loop of [main]. *)
Definition process (up : upstream) (submission : DailyAnimePost.t) : M unit :=
  print ("Processing " +:+ DailyAnimePost.title submission +:+ " - "
         +:+ DailyAnimePost.permalink submission);;
  match Calendar.utcfromtimestamp (DailyAnimePost.created_utc submission) with
  | None => raise (ValueError "year is out of range")
  | Some submission_date =>
      let submission_month := Calendar.strftime submission_date "%m_%B" in
      let submission_month_dir := Path.join data_dir submission_month in
      e ← OS.path_exists submission_month_dir;
      (if negb e then OS.makedirs submission_month_dir else mret tt);;
      let submission_day := Calendar.strftime submission_date "%d" in
      let day_dir := Path.join submission_month_dir submission_day in
      e ← OS.path_exists day_dir;
      (if negb e then OS.makedirs day_dir else mret tt);;
      download_image up submission day_dir;;
      save_comment submission day_dir
  end.

Definition main (up : upstream) : M unit :=
  e ← OS.path_exists data_dir;
  (if negb e then OS.makedirs data_dir else mret tt);;
  cache_exists ← OS.path_exists submissions_urls_file;
  daily_submissions ←
    (if (cache_exists : bool) then load_submissions_urls else get_submissions up);
  for_each daily_submissions (process up).

End Script.

(** ** A reference codec for the cache text

    The script leaves the text to the [json] module.  This codec writes the
    values of [json] as JSON text laid out as [json.dump] lays it out with
    [indent] (ASCII only, one item per line) and reads JSON text back; it
    shows that the contract assumed of the module can be met. *)

Module Json.

Definition quote : ascii := "034".
Definition backslash : ascii := "092".
Definition newline : ascii := "010".

Definition hex_digit (n : nat) : ascii :=
  if (n <? 10)%nat then ascii_of_nat (48 + n) else ascii_of_nat (87 + n).

Definition hex_value (c : ascii) : option nat :=
  let n := nat_of_ascii c in
  if (48 <=? n)%nat && (n <=? 57)%nat then Some (n - 48)%nat
  else if (97 <=? n)%nat && (n <=? 102)%nat then Some (n - 87)%nat
  else if (65 <=? n)%nat && (n <=? 70)%nat then Some (n - 55)%nat
  else None.

(** One character of a string literal. *)
Definition escape_char (c : ascii) : string :=
  if Ascii.eqb c quote then String backslash (String quote "")
  else if Ascii.eqb c backslash then String backslash (String backslash "")
  else if Ascii.eqb c newline then String backslash "n"
  else if Ascii.eqb c "013" then String backslash "r"
  else if Ascii.eqb c "009" then String backslash "t"
  else if Ascii.eqb c "008" then String backslash "b"
  else if Ascii.eqb c "012" then String backslash "f"
  else
    let n := nat_of_ascii c in
    if (n <? 32)%nat || (126 <? n)%nat then
      String backslash
        ("u00" +:+ String (hex_digit (n / 16)) (String (hex_digit (n mod 16)) ""))
    else String c "".

Fixpoint escape (s : string) : string :=
  match s with
  | EmptyString => ""
  | String c s' => escape_char c +:+ escape s'
  end.

Definition dump_string (s : string) : string :=
  String quote (escape s +:+ String quote "").

Definition dump_int (n : Z) : string :=
  match Z.to_int n with
  | Decimal.Pos d => DecimalString.NilEmpty.string_of_uint d
  | Decimal.Neg d => String "-" (DecimalString.NilEmpty.string_of_uint d)
  end.

Fixpoint spaces (n : nat) : string :=
  match n with
  | O => ""
  | S n' => String " " (spaces n')
  end.

(** The line break in front of an item at nesting depth [level]. *)
Definition nl (indent level : nat) : string :=
  String newline (spaces (indent * level)).

(** The items after the first, each behind [sep], and then [close]. *)
Definition items_tail {A} (pr : A -> string) (sep close : string) : list A -> string :=
  fix rest (l : list A) : string :=
    match l with
    | [] => close
    | y :: l' => sep +:+ pr y +:+ rest l'
    end.

Fixpoint dumps_at (indent level : nat) (v : json) {struct v} : string :=
  match v with
  | JNull => "null"
  | JBool true => "true"
  | JBool false => "false"
  | JInt n => dump_int n
  | JStr s => dump_string s
  | JArr [] => "[]"
  | JArr (x :: xs) =>
      "[" +:+ nl indent (S level) +:+ dumps_at indent (S level) x
      +:+ items_tail (dumps_at indent (S level))
            ("," +:+ nl indent (S level)) (nl indent level +:+ "]") xs
  | JObj [] => "{}"
  | JObj ((k, x) :: xs) =>
      "{" +:+ nl indent (S level) +:+ dump_string k +:+ ": "
      +:+ dumps_at indent (S level) x
      +:+ items_tail (fun kv => dump_string (fst kv) +:+ ": "
                                +:+ dumps_at indent (S level) (snd kv))
            ("," +:+ nl indent (S level)) (nl indent level +:+ "}") xs
  end.

Definition dumps (indent : nat) (v : json) : string := dumps_at indent 0 v.

Definition is_ws (c : ascii) : bool :=
  Ascii.eqb c " " || Ascii.eqb c "009" || Ascii.eqb c "010" || Ascii.eqb c "013".

Fixpoint skip_ws (s : string) : string :=
  match s with
  | EmptyString => ""
  | String c s' => if is_ws c then skip_ws s' else s
  end.

Definition uint_digit (c : ascii) : option (Decimal.uint -> Decimal.uint) :=
  if Ascii.eqb c "0" then Some Decimal.D0
  else if Ascii.eqb c "1" then Some Decimal.D1
  else if Ascii.eqb c "2" then Some Decimal.D2
  else if Ascii.eqb c "3" then Some Decimal.D3
  else if Ascii.eqb c "4" then Some Decimal.D4
  else if Ascii.eqb c "5" then Some Decimal.D5
  else if Ascii.eqb c "6" then Some Decimal.D6
  else if Ascii.eqb c "7" then Some Decimal.D7
  else if Ascii.eqb c "8" then Some Decimal.D8
  else if Ascii.eqb c "9" then Some Decimal.D9
  else None.

(** The longest run of digits at the head of [s], and what follows it. *)
Fixpoint parse_digits (s : string) : Decimal.uint * string :=
  match s with
  | EmptyString => (Decimal.Nil, "")
  | String c s' =>
      match uint_digit c with
      | Some D => let '(d, r) := parse_digits s' in (D d, r)
      | None => (Decimal.Nil, s)
      end
  end.

Definition unescape (e : ascii) : option ascii :=
  if Ascii.eqb e quote then Some quote
  else if Ascii.eqb e backslash then Some backslash
  else if Ascii.eqb e "/" then Some "/"%char
  else if Ascii.eqb e "n" then Some newline
  else if Ascii.eqb e "r" then Some "013"%char
  else if Ascii.eqb e "t" then Some "009"%char
  else if Ascii.eqb e "b" then Some "008"%char
  else if Ascii.eqb e "f" then Some "012"%char
  else None.

Definition cons_char (c : ascii) (r : option (string * string)) : option (string * string) :=
  match r with
  | Some (s, rest) => Some (String c s, rest)
  | None => None
  end.

(** A string literal behind its opening quote: the text and what follows
    the closing quote. *)
Fixpoint parse_string_body (s : string) : option (string * string) :=
  match s with
  | EmptyString => None
  | String c s' =>
      if Ascii.eqb c quote then Some ("", s')
      else if Ascii.eqb c backslash then
        match s' with
        | String "u" (String h1 (String h2 (String h3 (String h4 r)))) =>
            match hex_value h1, hex_value h2, hex_value h3, hex_value h4 with
            | Some a, Some b, Some c', Some d =>
                let n := (((a * 16 + b) * 16 + c') * 16 + d)%nat in
                if (n <? 256)%nat then cons_char (ascii_of_nat n) (parse_string_body r)
                else None
            | _, _, _, _ => None
            end
        | String e r =>
            match unescape e with
            | Some c' => cons_char c' (parse_string_body r)
            | None => None
            end
        | EmptyString => None
        end
      else if (nat_of_ascii c <? 32)%nat then None
      else cons_char c (parse_string_body s')
  end.

Definition expect (word : string) (v : json) (s : string) : option (json * string) :=
  match Str.strip_prefix word s with
  | Some r => Some (v, r)
  | None => None
  end.

Fixpoint parse_value (fuel : nat) (s : string) {struct fuel} : option (json * string) :=
  match fuel with
  | O => None
  | S fuel' =>
      match skip_ws s with
      | EmptyString => None
      | String c r =>
          if Ascii.eqb c "n" then expect "ull" JNull r
          else if Ascii.eqb c "t" then expect "rue" (JBool true) r
          else if Ascii.eqb c "f" then expect "alse" (JBool false) r
          else if Ascii.eqb c quote then
            match parse_string_body r with
            | Some (str, r') => Some (JStr str, r')
            | None => None
            end
          else if Ascii.eqb c "[" then
            match skip_ws r with
            | String "]" r' => Some (JArr [], r')
            | _ =>
                match parse_items fuel' r with
                | Some (items, r') => Some (JArr items, r')
                | None => None
                end
            end
          else if Ascii.eqb c "{" then
            match skip_ws r with
            | String "}" r' => Some (JObj [], r')
            | _ =>
                match parse_members fuel' r with
                | Some (members, r') => Some (JObj members, r')
                | None => None
                end
            end
          else if Ascii.eqb c "-" then
            match parse_digits r with
            | (Decimal.Nil, _) => None
            | (d, r') => Some (JInt (Z.of_int (Decimal.Neg d)), r')
            end
          else
            match parse_digits (String c r) with
            | (Decimal.Nil, _) => None
            | (d, r') => Some (JInt (Z.of_int (Decimal.Pos d)), r')
            end
      end
  end
with parse_items (fuel : nat) (s : string) {struct fuel} : option (list json * string) :=
  match fuel with
  | O => None
  | S fuel' =>
      match parse_value fuel' s with
      | Some (v, r) =>
          match skip_ws r with
          | String c r' =>
              if Ascii.eqb c "," then
                match parse_items fuel' r' with
                | Some (vs, r'') => Some (v :: vs, r'')
                | None => None
                end
              else if Ascii.eqb c "]" then Some ([v], r')
              else None
          | EmptyString => None
          end
      | None => None
      end
  end
with parse_members (fuel : nat) (s : string) {struct fuel}
    : option (list (string * json) * string) :=
  match fuel with
  | O => None
  | S fuel' =>
      match skip_ws s with
      | String c r =>
          if Ascii.eqb c quote then
            match parse_string_body r with
            | Some (k, r1) =>
                match skip_ws r1 with
                | String c2 r2 =>
                    if Ascii.eqb c2 ":" then
                      match parse_value fuel' r2 with
                      | Some (v, r3) =>
                          match skip_ws r3 with
                          | String c3 r4 =>
                              if Ascii.eqb c3 "," then
                                match parse_members fuel' r4 with
                                | Some (kvs, r5) => Some ((k, v) :: kvs, r5)
                                | None => None
                                end
                              else if Ascii.eqb c3 "}" then Some ([(k, v)], r4)
                              else None
                          | EmptyString => None
                          end
                      | None => None
                      end
                    else None
                | EmptyString => None
                end
            | None => None
            end
          else None
      | EmptyString => None
      end
  end.

(** A bound on the fuel a value takes to read: one for the value and one
    more for each item or member. *)
Fixpoint weight (v : json) : nat :=
  match v with
  | JArr items => S (list_sum (map (fun x => S (weight x)) items))
  | JObj members => S (list_sum (map (fun kv => S (weight (snd kv))) members))
  | _ => 1
  end.

(** Text that cannot continue a number. *)
Definition no_leading_digit (s : string) : Prop :=
  match s with
  | EmptyString => True
  | String c _ => uint_digit c = None
  end.

(** A whole text: one value and nothing but blanks behind it. *)
Definition loads (s : string) : option json :=
  match parse_value (S (String.length s)) s with
  | Some (v, r) => if String.eqb (skip_ws r) "" then Some v else None
  | None => None
  end.

(** Value [v], written at any depth and followed by any text that does not
    continue a number, is read back with enough fuel. *)
Definition reads_back (indent : nat) (v : json) : Prop :=
  forall level fuel rest,
    (weight v <= fuel)%nat -> no_leading_digit rest ->
    parse_value fuel (dumps_at indent level v +:+ rest) = Some (v, rest).

End Json.

(** ** What the claims are measured against *)

(** No dictionary of the value has a key twice: the values a Python [dict]
    can hold. *)
Fixpoint distinct_keys (v : json) : bool :=
  match v with
  | JArr items => forallb distinct_keys items
  | JObj members =>
      bool_decide (NoDup (map fst members))
      && forallb (fun kv => distinct_keys (snd kv)) members
  | _ => true
  end.


(** The calendar day of a date: its year, month and day of month. *)
Definition calendar_day (dt : Calendar.datetime) : Z * Z * Z :=
  (Calendar.year dt, Calendar.month dt, Calendar.day dt).

(** The path [{month:02d}_{MonthName}/{day:02d}] under the data root. *)
Definition archive_path (m d : Z) : string :=
  "data/" +:+ Calendar.two_digits m +:+ "_"
  +:+ nth (Z.to_nat m) Calendar.month_name "" +:+ "/" +:+ Calendar.two_digits d.

(** The date of a post and the directory [main] archives it in. *)
Definition post_date (submission : DailyAnimePost.t) : option Calendar.datetime :=
  Calendar.utcfromtimestamp (DailyAnimePost.created_utc submission).

(** A post of 2023-11-14 and one of the same evening, an hour later. *)
Definition post_1700000000 : DailyAnimePost.t :=
  DailyAnimePost.mk "Today in anime: November 14" "abc123"
    "https://www.reddit.com/r/animetoday/abc123" "https://i.redd.it/pic.jpg"
    1700000000 (Some "{source}").
Definition post_1700003600 : DailyAnimePost.t :=
  DailyAnimePost.mk "November 14 (again)" "abc124"
    "https://www.reddit.com/r/animetoday/abc124" "https://i.redd.it/pic.png"
    1700003600 None.
(** A post made 366 days after the first: 2024-11-14. *)
Definition post_1731622400 : DailyAnimePost.t :=
  DailyAnimePost.mk "Today in anime: November 14" "xyz789"
    "https://www.reddit.com/r/animetoday/xyz789" "https://i.redd.it/pic.jpg"
    1731622400 None.

(** The outcome of the comment lookup of a submission, as a value: the
    text of the first annotation, nothing, or the exception met first. *)
Fixpoint comment_outcome (cs : Praw.Comments) : result (option string) :=
  match cs with
  | Praw.NoMore => Ok None
  | Praw.Fails e => Raise e
  | Praw.Next comment rest =>
      if is_annotation comment then Ok (Some (Praw.body comment))
      else comment_outcome rest
  end.

(** The two inclusion tests of the listing loop together. *)
Definition kept (submission : Praw.Submission) : bool :=
  has_date_indicator (Str.lower (Praw.title submission))
  && is_image_url (Praw.url submission).

(** The comment a kept submission ends up with. *)
Definition kept_comment (submission : Praw.Submission) : option string :=
  match comment_outcome (Praw.comments submission) with
  | Ok c => c
  | _ => None
  end.

(** What the listing loop prints and requests for one submission. *)
Definition submission_events (submission : Praw.Submission) : list event :=
  if negb (has_date_indicator (Str.lower (Praw.title submission)))
  then [Print (skip_title_notice submission)]
  else if negb (is_image_url (Praw.url submission))
  then [Print (skip_image_notice submission)]
  else
    [Print "Checking for comment..."; Sleep 1;
     LoadComments (Praw.id submission)]
    ++ match comment_outcome (Praw.comments submission) with
       | Ok (Some c) => [Print ("Found comment: " +:+ c)]
       | Ok None => []
       | Raise e => [Print ("Error getting comment: " +:+ exn_str e)]
       | Untyped => []
       end.

(** The posts the loop builds from a listing. *)
Definition posts_of_listing (l : list Praw.Submission) : list DailyAnimePost.t :=
  map (fun s => make_post s (kept_comment s)) (List.filter kept l).

(** What a feed delivers before it ends or fails, and the exception it
    fails with. *)
Fixpoint received (feed : Praw.Feed) : list Praw.Submission :=
  match feed with
  | Praw.Exhausted | Praw.Refused _ => []
  | Praw.Delivers s rest => s :: received rest
  end.
Fixpoint feed_failure (feed : Praw.Feed) : option exn :=
  match feed with
  | Praw.Exhausted => None
  | Praw.Refused e => Some e
  | Praw.Delivers _ rest => feed_failure rest
  end.

(** Four submissions: kept with an annotation, no date word, no image,
    kept with a failing comment request. *)
Definition annotation : Praw.Comment :=
  Praw.mkComment (String.eqb "animetoday") "{source}".
Definition chatter : Praw.Comment :=
  Praw.mkComment (fun _ => false) "{nice}".
Definition submission_kept : Praw.Submission :=
  Praw.mkSubmission "Today in anime: November 14" "abc123" "/r/animetoday/abc123"
    "https://i.redd.it/pic.jpg" 1700000000
    (Praw.Next chatter (Praw.Next annotation Praw.NoMore)).
Definition submission_no_date : Praw.Submission :=
  Praw.mkSubmission "Hello" "abc124" "/r/animetoday/abc124"
    "https://i.redd.it/pic.jpg" 1700000000 Praw.NoMore.
Definition submission_video : Praw.Submission :=
  Praw.mkSubmission "Monday" "abc125" "/r/animetoday/abc125"
    "https://v.redd.it/clip.webm" 1700000000 Praw.NoMore.
Definition submission_429 : Praw.Submission :=
  Praw.mkSubmission "FRIDAY" "abc126" "/r/animetoday/abc126"
    "https://i.redd.it/pic.png" 1700000000
    (Praw.Next chatter (Praw.Fails (Exn "TooManyRequests" "received 429 HTTP response"))).

Definition upstream_example : upstream :=
  mkupstream [submission_kept; submission_no_date; submission_video; submission_429]
    (fun url => Ok ("bytes of " +:+ url)).

(** A feed that delivers two submissions and fails at the next request. *)
Definition feed_refused : Praw.Feed :=
  Praw.Delivers submission_kept
    (Praw.Delivers submission_no_date
       (Praw.Refused (Exn "ServerError" "received 503 HTTP response"))).

Definition empty_state : state := mkstate ∅ [].

(** The file [download_image] looks for and writes. *)
Definition image_filename (directory : string) (submission : DailyAnimePost.t) : string :=
  Path.join directory (DailyAnimePost.id submission) +:+ "."
  +:+ Str.last (Str.split "." (DailyAnimePost.media_url submission)).

(** The file [main] writes the comment to. *)
Definition comment_filename (directory : string) (submission : DailyAnimePost.t) : string :=
  Path.join directory (DailyAnimePost.id submission +:+ ".txt").

(** What follows the last [c] of [s] (all of [s] when it has none), and
    whether [s] has a [c]. *)
Definition after_last (c : ascii) (s : string) : string := Str.last (Str.split c s).
Definition has_char (c : ascii) (s : string) : bool :=
  Str.contains (String c EmptyString) s.

(** The parts of a URL [scheme://authority/path?query#fragment]: what
    stands before the query and the fragment, what follows the first [p],
    and what starts at the first slash. *)
Fixpoint before_query (url : string) : string :=
  match url with
  | EmptyString => ""
  | String c s =>
      if Ascii.eqb c "?" || Ascii.eqb c "#" then "" else String c (before_query s)
  end.
Fixpoint after_first (p s : string) : option string :=
  match Str.strip_prefix p s with
  | Some rest => Some rest
  | None =>
      match s with
      | EmptyString => None
      | String _ s' => after_first p s'
      end
  end.
Fixpoint from_slash (s : string) : string :=
  match s with
  | EmptyString => ""
  | String c s' => if Ascii.eqb c "/" then s else from_slash s'
  end.

(** The path of a URL, and its final segment: what follows the last slash
    of the path.  (The words of the specification; the script does not
    take a URL apart.) *)
Definition url_path (url : string) : string :=
  match after_first "//" (before_query url) with
  | Some rest => from_slash rest
  | None => before_query url
  end.
Definition final_segment (url : string) : string := after_last "/" (url_path url).

(** The number of network reads among some events. *)
Definition network_reads (evs : list event) : nat :=
  length (List.filter (fun ev => match ev with HttpGet _ => true | _ => false end) evs).

(** A link that ends in [jpg] and whose final segment has no dot: as the
    feed delivers it and as the listing filter returns it; and a link with
    a query. *)
Definition submission_dotless : Praw.Submission :=
  Praw.mkSubmission "Today" "x1" "/r/animetoday/x1"
    "https://i.redd.it/abcjpg" 1700000000 Praw.NoMore.
Definition post_dotless : DailyAnimePost.t :=
  DailyAnimePost.mk "Today" "x1" "https://www.reddit.com/r/animetoday/x1"
    "https://i.redd.it/abcjpg" 1700000000 None.
Definition submission_query : Praw.Submission :=
  Praw.mkSubmission "Today" "x2" "/r/animetoday/x2"
    "https://i.redd.it/abc.jpg?width=640&format=png" 1700000000 Praw.NoMore.
Definition post_query : DailyAnimePost.t :=
  DailyAnimePost.mk "Today" "x2" "https://www.reddit.com/r/animetoday/x2"
    "https://i.redd.it/abc.jpg?width=640&format=png" 1700000000 None.
Definition upstream_links : upstream :=
  mkupstream [submission_dotless; submission_query]
    (fun url => Ok ("bytes of " +:+ url)).

(** The archive with the directory of 14 November, and the same after a
    stale comment file of the first post was left in it. *)
Definition archive_state : state :=
  mkstate (list_to_map [("data", Dir); ("data/11_November", Dir);
                        ("data/11_November/14", Dir)]) [].
Definition stale_state : state :=
  mkstate (<["data/11_November/14/abc123.txt" := File "old"]> (fs archive_state)) [].

(** A cached record without comment whose link ends in [.txt], and the
    archive whose cache holds it. *)
Definition post_txt_link : DailyAnimePost.t :=
  DailyAnimePost.mk "Today: notes" "abc127" "https://www.reddit.com/r/animetoday/abc127"
    "https://example.com/notes.txt" 1700000000 None.

(** [if not os.path.exists(d): os.makedirs(d)], as [main] has it three
    times. *)
Definition ensure_dir (d : string) : M unit :=
  e ← OS.path_exists d;
  if negb e then OS.makedirs d else mret tt.

(** A request to the account's feed or to a comment forest. *)
Definition reddit_request (ev : event) : bool :=
  match ev with
  | Listing _ | LoadComments _ => true
  | _ => false
  end.

(** Whatever the outcome, computation [c] only adds events that satisfy
    [P] to the trace. *)
Definition emits {A} (P : event -> Prop) (c : M A) : Prop :=
  forall st, exists evs, trace (snd (c st)) = trace st ++ evs /\ Forall P evs.

(** Member [k] of a dictionary. *)
Definition json_member (k : string) (v : json) : option json :=
  match v with
  | JObj members => lookup_key k members
  | _ => None
  end.

(** The archive of 14 November with a cache of two posts, written by the
    reference codec. *)
Definition cached_posts : list DailyAnimePost.t :=
  [post_1700000000; post_1700003600].
Definition cached_state : state :=
  mkstate (<[submissions_urls_file
             := File (Json.dumps 4 (JArr (map post_dict cached_posts)))]>
             (fs archive_state)) [].
Definition txt_cache_state : state :=
  mkstate (<[submissions_urls_file
             := File (Json.dumps 4 (JArr [post_dict post_txt_link]))]>
             (fs archive_state)) [].

(** The last character of a string. *)
Fixpoint last_char (s : string) : option ascii :=
  match s with
  | EmptyString => None
  | String c s' =>
      match s' with
      | EmptyString => Some c
      | String _ _ => last_char s'
      end
  end.

(** Whatever the outcome, computation [c] leaves path [q] as it found it. *)
Definition preserves {A} (q : string) (c : M A) : Prop :=
  forall st, fs (snd (c st)) !! q = fs st !! q.

(** The paths [main] may create for a date: its directories and their
    ancestors. *)
Definition directories_of (dt : Calendar.datetime) : list string :=
  Path.ancestors (month_dir_of dt) ++ [month_dir_of dt]
  ++ Path.ancestors (day_dir_of dt) ++ [day_dir_of dt].

(** The audit over a file system [m], as values.  A loop whose body only
    prints runs until the first body that does not return. *)
Fixpoint scan {A} (f : A -> result unit * list event) (l : list A)
    : result unit * list event :=
  match l with
  | [] => (Ok tt, [])
  | x :: l' =>
      match f x with
      | (Ok _, evs) => let '(r, evs') := scan f l' in (r, evs ++ evs')
      | (r, evs) => (r, evs)
      end
  end.

Definition empty_notice (day_dir : string) : event :=
  Print ("Empty directory: " +:+ day_dir).

Definition is_empty_dir (m : gmap string node) (d : string) : bool :=
  match OS.entries m d with [] => true | _ :: _ => false end.

(** The visit of one day-level entry and of one entry of the data root. *)
Definition audit_day (m : gmap string node) (day_dir : string)
    : result unit * list event :=
  match m !! day_dir with
  | Some Dir => (Ok tt, if is_empty_dir m day_dir then [empty_notice day_dir] else [])
  | Some (File _) => (Raise (OS.NotADirectoryError day_dir), [])
  | None => (Raise (OS.FileNotFoundError day_dir), [])
  end.

Definition audit_month (m : gmap string node) (month : string)
    : result unit * list event :=
  let month_dir := Path.join data_dir month in
  if OS.is_dir m month_dir
  then scan (audit_day m) (map (Path.join month_dir) (OS.entries m month_dir))
  else (Ok tt, []).

(** The month directories, and the entries found directly inside them: the
    day-level entries. *)
Definition month_dirs (m : gmap string node) : list string :=
  List.filter (OS.is_dir m) (map (Path.join data_dir) (OS.entries m data_dir)).
Definition day_entries (m : gmap string node) : list string :=
  flat_map (fun month_dir => map (Path.join month_dir) (OS.entries m month_dir))
    (month_dirs m).

(** The day-level entries whose listing is empty. *)
Definition empty_days (m : gmap string node) : list string :=
  List.filter (is_empty_dir m) (day_entries m).

(** An archive with the cache file, a day that holds an image and an empty
    day; and the same with a stray file next to the days. *)
Definition audit_state : state :=
  mkstate (list_to_map
             [("data", Dir); ("data/submissions_urls.json", File "[]");
              ("data/11_November", Dir);
              ("data/11_November/14", Dir);
              ("data/11_November/14/abc123.jpg", File "bytes");
              ("data/11_November/15", Dir)]) [].
Definition stray_state : state :=
  mkstate (<["data/11_November/notes.txt" := File "to do"]> (fs audit_state)) [].

(** A state with some events added to its trace. *)
Definition logged (st : state) (evs : list event) : state :=
  mkstate (fs st) (trace st ++ evs).

(** The months and the days of a month, for case analyses by table. *)
Definition months : list Z := map Z.of_nat (seq 1 12).
Definition days : list Z := map Z.of_nat (seq 1 31).

(** The number written by the two digits at positions [i] and [i + 1]. *)
Definition number_at (i : nat) (p : string) : Z :=
  match String.get i p, String.get (S i) p with
  | Some a, Some b =>
      10 * (Z.of_nat (nat_of_ascii a) - 48) + (Z.of_nat (nat_of_ascii b) - 48)
  | _, _ => -1
  end.

(** Month and day read back from an archive path: the digits after
    [data/] and the last two characters. *)
Definition month_day_of_path (p : string) : Z * Z :=
  (number_at 5 p, number_at (String.length p - 2) p).

(** ** Further notions for the properties of the whole script *)

(** The twenty words the title test looks for. *)
Definition date_words : list string := month_names ++ day_names ++ ["today"].

(** Some comments in front of a comment stream. *)
Definition prepend (pre : list Praw.Comment) (cs : Praw.Comments) : Praw.Comments :=
  foldr Praw.Next cs pre.

(** How many events of a kind there are. *)
Definition count_events (f : event -> bool) (evs : list event) : nat :=
  length (List.filter f evs).
Definition is_sleep (ev : event) : bool :=
  match ev with Sleep _ => true | _ => false end.
Definition is_load_comments (ev : event) : bool :=
  match ev with LoadComments _ => true | _ => false end.
Definition is_listing (ev : event) : bool :=
  match ev with Listing _ => true | _ => false end.
Definition is_http_get (ev : event) : bool :=
  match ev with HttpGet _ => true | _ => false end.
Definition is_print (ev : event) : bool :=
  match ev with Print _ => true | _ => false end.

(** A submission whose annotation is followed by a failing request. *)
Definition submission_late_failure : Praw.Submission :=
  Praw.mkSubmission "Sunday special" "abc127" "/r/animetoday/abc127"
    "https://i.redd.it/pic.gif" 1700000000
    (Praw.Next chatter
       (Praw.Next annotation (Praw.Fails (Exn "ServerError" "received 500 HTTP response")))).

(** The keys of a dictionary. *)
Definition keys (members : list (string * json)) : list string := map fst members.

(** A cache entry that lacks [first_comment], one with a stray key, and the
    state whose cache holds the first. *)
Definition entry_without_comment : json :=
  JObj [("title", JStr "t"); ("id", JStr "i"); ("permalink", JStr "p");
        ("media_url", JStr "u.png"); ("created_utc", JInt 0)].
Definition entry_with_stray_key : json :=
  JObj [("title", JStr "t"); ("id", JStr "i"); ("permalink", JStr "p");
        ("media_url", JStr "u.png"); ("created_utc", JInt 0);
        ("first_comment", JNull); ("score", JInt 3)].
Definition broken_cache_state : state :=
  mkstate (<[submissions_urls_file
             := File (Json.dumps 4 (JArr [post_dict post_1700000000; entry_without_comment]))]>
             (fs archive_state)) [].

(** File system [m'] has every directory and every file of [m], as a
    directory and as a file (the content of a file may differ). *)
Definition stable (m m' : gmap string node) : Prop :=
  forall p, (OS.is_dir m p = true -> OS.is_dir m' p = true)
            /\ (OS.is_file m p = true -> OS.is_file m' p = true).

(** Whatever the outcome, computation [c] removes no path and changes no
    directory into a file or back. *)
Definition keeps_kinds {A} (c : M A) : Prop :=
  forall st, stable (fs st) (fs (snd (c st))).

(** The line [main] prints for a post. *)
Definition processing_notice (s : DailyAnimePost.t) : event :=
  Print ("Processing " +:+ DailyAnimePost.title s +:+ " - "
         +:+ DailyAnimePost.permalink s).

(** Post [s] is archived in [m]: its directories and its image are there,
    and its comment file, if it has a comment, is a file in a directory. *)
Definition settled (m : gmap string node) (s : DailyAnimePost.t) : Prop :=
  exists dt,
    post_date s = Some dt
    /\ is_Some (m !! month_dir_of dt)
    /\ is_Some (m !! day_dir_of dt)
    /\ is_Some (m !! image_filename (day_dir_of dt) s)
    /\ match DailyAnimePost.first_comment s with
       | Some (String _ _) =>
           OS.is_file m (comment_filename (day_dir_of dt) s) = true
           /\ OS.parent_ok m (comment_filename (day_dir_of dt) s) = true
       | Some EmptyString | None => True
       end.

(** An upstream with the same feed and no image server. *)
Definition offline (up : upstream) : upstream :=
  mkupstream (listing up) (fun _ => Raise (Exn "ClientConnectorError" "cannot connect")).

(** A line of the audit: the notice of an empty directory or the closing
    line. *)
Definition audit_line (ev : event) : bool :=
  match ev with
  | Print line =>
      String.eqb line "Audit complete" || Str.startswith line "Empty directory: "
  | _ => false
  end.

(** * Properties *)

(** ** The embedding at work *)

Example lower_title : Str.lower "Today: MONDAY, 3rd" = "today: monday, 3rd".
Proof. reflexivity. Qed.

Example split_url :
  Str.split "." "https://i.redd.it/pic.jpg" = ["https://i"; "redd"; "it/pic"; "jpg"].
Proof. reflexivity. Qed.

Example join_paths :
  Path.join "data" "11_November" = "data/11_November"
  /\ Path.join "data/" "x" = "data/x" /\ Path.join "data" "/tmp/x" = "/tmp/x".
Proof. repeat split. Qed.

Example date_of_1700000000 :
  Calendar.utcfromtimestamp 1700000000
  = Some (Calendar.mkdatetime 2023 11 14 22 13 20).
Proof. reflexivity. Qed.

Example date_of_leap_day :
  Calendar.utcfromtimestamp 1709164800
  = Some (Calendar.mkdatetime 2024 2 29 0 0 0).
Proof. reflexivity. Qed.

Example date_before_epoch :
  Calendar.utcfromtimestamp (-1)
  = Some (Calendar.mkdatetime 1969 12 31 23 59 59).
Proof. reflexivity. Qed.

Example title_tests :
  has_date_indicator (Str.lower "Anime of the Day - 3 MARCH") = true
  /\ has_date_indicator (Str.lower "What happened TODAY") = true
  /\ has_date_indicator (Str.lower "Weekly thread") = false.
Proof. repeat split. Qed.

(** A first run over the example feed: the two kept posts are archived
    under their day, the annotated one with its comment. *)
Example first_run_archive :
  map fst (map_to_list (fs (snd (main Json.loads upstream_example empty_state))))
  = ["data/11_November/14/abc123.jpg"; "data/11_November/14/abc123.txt";
     "data/11_November/14/abc126.png"; "data/11_November/14";
     "data/11_November"; "data"].
Proof. vm_compute. reflexivity. Qed.

Example cache_text_is_read_back :
  Json.loads (Json.dumps 4 (JArr (map post_dict cached_posts)))
  = Some (JArr (map post_dict cached_posts)).
Proof. vm_compute. reflexivity. Qed.

(** ** Archive paths *)

Lemma civil_from_days_range (z : Z) :
  1 <= snd (fst (Calendar.civil_from_days z)) <= 12
  /\ 1 <= snd (Calendar.civil_from_days z) <= 31.
Proof.
  unfold Calendar.civil_from_days; cbn [fst snd].
  set (zz := z + 719468).
  set (doe := zz - zz / 146097 * 146097).
  set (yoe := (doe - doe / 1460 + doe / 36524 - doe / 146096) / 365).
  set (doy := doe - (365 * yoe + yoe / 4 - yoe / 100)).
  assert (Hdoe : 0 <= doe < 146097) by (subst doe; Z.div_mod_to_equations; lia).
  assert (Hdoy : 0 <= doy <= 365) by (subst doy yoe; Z.div_mod_to_equations; lia).
  clearbody doy. clear yoe Hdoe.
  set (mp := (5 * doy + 2) / 153).
  assert (Hmp : 0 <= mp <= 11) by (subst mp; Z.div_mod_to_equations; lia).
  split.
  - destruct (Z.ltb_spec mp 10); lia.
  - subst mp; Z.div_mod_to_equations; lia.
Qed.

Lemma utcfromtimestamp_range (t : Z) (dt : Calendar.datetime) :
  Calendar.utcfromtimestamp t = Some dt ->
  1 <= Calendar.month dt <= 12 /\ 1 <= Calendar.day dt <= 31.
Proof.
  unfold Calendar.utcfromtimestamp.
  pose proof (civil_from_days_range (t / 86400)) as H.
  destruct (Calendar.civil_from_days (t / 86400)) as [[y m] d]; cbn [fst snd] in H.
  destruct (_ && _); [|discriminate].
  intros [= <-]; exact H.
Qed.

Lemma in_months (m : Z) : 1 <= m <= 12 -> In m months.
Proof.
  intros H. apply in_map_iff. exists (Z.to_nat m).
  split; [lia | apply in_seq; lia].
Qed.

Lemma in_days (d : Z) : 1 <= d <= 31 -> In d days.
Proof.
  intros H. apply in_map_iff. exists (Z.to_nat d).
  split; [lia | apply in_seq; lia].
Qed.

(** Only the month and the day of a date reach its directory. *)
Lemma day_dir_of_month_day (dt : Calendar.datetime) :
  day_dir_of dt
  = day_dir_of (Calendar.mkdatetime 0 (Calendar.month dt) (Calendar.day dt) 0 0 0).
Proof. reflexivity. Qed.

Lemma day_dir_table :
  forallb (fun m => forallb (fun d =>
    String.eqb (day_dir_of (Calendar.mkdatetime 0 m d 0 0 0)) (archive_path m d))
    days) months = true.
Proof. vm_compute. reflexivity. Qed.

Lemma archive_path_table :
  forallb (fun m => forallb (fun d =>
    let '(m', d') := month_day_of_path (archive_path m d) in
    (m' =? m) && (d' =? d))
    days) months = true.
Proof. vm_compute. reflexivity. Qed.

Lemma month_day_of_archive_path (m d : Z) :
  1 <= m <= 12 -> 1 <= d <= 31 ->
  month_day_of_path (archive_path m d) = (m, d).
Proof.
  intros Hm Hd.
  pose proof archive_path_table as T.
  rewrite forallb_forall in T. specialize (T _ (in_months _ Hm)).
  rewrite forallb_forall in T. specialize (T _ (in_days _ Hd)).
  destruct (month_day_of_path _) as [m' d'].
  apply andb_true_iff in T. destruct T as [A B].
  apply Z.eqb_eq in A, B. congruence.
Qed.

Lemma day_dir_of_format (dt : Calendar.datetime) :
  1 <= Calendar.month dt <= 12 -> 1 <= Calendar.day dt <= 31 ->
  day_dir_of dt = archive_path (Calendar.month dt) (Calendar.day dt).
Proof.
  intros Hm Hd. rewrite day_dir_of_month_day.
  pose proof day_dir_table as T.
  rewrite forallb_forall in T. specialize (T _ (in_months _ Hm)).
  rewrite forallb_forall in T. specialize (T _ (in_days _ Hd)).
  now apply String.eqb_eq in T.
Qed.

Lemma archive_path_no_trailing_slash_table :
  forallb (fun m => forallb (fun d =>
    negb (Str.endswith (archive_path m d) "/") && negb (String.eqb (archive_path m d) ""))
    days) months = true.
Proof. vm_compute. reflexivity. Qed.

(** The directory of a post is a non-empty path without trailing slash. *)
Lemma day_dir_of_shape (t : Z) (dt : Calendar.datetime) :
  Calendar.utcfromtimestamp t = Some dt ->
  day_dir_of dt <> "" /\ Str.endswith (day_dir_of dt) "/" = false.
Proof.
  intros H. destruct (utcfromtimestamp_range _ _ H) as [Hm Hd].
  rewrite day_dir_of_format by assumption.
  pose proof archive_path_no_trailing_slash_table as T.
  rewrite forallb_forall in T. specialize (T _ (in_months _ Hm)).
  rewrite forallb_forall in T. specialize (T _ (in_days _ Hd)).
  apply andb_true_iff in T as [A B].
  apply negb_true_iff in A, B. apply String.eqb_neq in B. now split.
Qed.

Lemma archive_path_inj (m1 d1 m2 d2 : Z) :
  1 <= m1 <= 12 -> 1 <= d1 <= 31 -> 1 <= m2 <= 12 -> 1 <= d2 <= 31 ->
  archive_path m1 d1 = archive_path m2 d2 -> m1 = m2 /\ d1 = d2.
Proof.
  intros Hm1 Hd1 Hm2 Hd2 E.
  apply (f_equal month_day_of_path) in E.
  rewrite !month_day_of_archive_path in E by assumption.
  now inversion E.
Qed.

(** C2 (as amended).  The directory of a post is
    [data/{month:02d}_{MonthName}/{day:02d}] of its creation date: posts of
    one calendar day share it, and two posts share it exactly when month
    and day of month agree, whatever the years. *)
Theorem archive_dir_by_month_and_day
    (p1 p2 : DailyAnimePost.t) (dt1 dt2 : Calendar.datetime) :
  post_date p1 = Some dt1 -> post_date p2 = Some dt2 ->
  day_dir_of dt1 = archive_path (Calendar.month dt1) (Calendar.day dt1)
  /\ (calendar_day dt1 = calendar_day dt2 -> day_dir_of dt1 = day_dir_of dt2)
  /\ (day_dir_of dt1 = day_dir_of dt2
      <-> Calendar.month dt1 = Calendar.month dt2
          /\ Calendar.day dt1 = Calendar.day dt2).
Proof.
  intros H1 H2.
  destruct (utcfromtimestamp_range _ _ H1) as [Hm1 Hd1].
  destruct (utcfromtimestamp_range _ _ H2) as [Hm2 Hd2].
  rewrite !day_dir_of_format by assumption.
  split; [reflexivity | split].
  - unfold calendar_day. intros [= _ -> ->]. reflexivity.
  - split.
    + now apply archive_path_inj.
    + intros [-> ->]. reflexivity.
Qed.

Lemma archive_dir_by_month_and_day_witness :
  let dt1 := Calendar.mkdatetime 2023 11 14 22 13 20 in
  let dt2 := Calendar.mkdatetime 2023 11 14 23 13 20 in
  post_date post_1700000000 = Some dt1
  /\ post_date post_1700003600 = Some dt2
  /\ day_dir_of dt1 = "data/11_November/14"
  /\ day_dir_of dt1 = day_dir_of dt2.
Proof.
  intros dt1 dt2.
  pose proof (archive_dir_by_month_and_day post_1700000000 post_1700003600
                dt1 dt2 eq_refl eq_refl) as [F [S _]].
  split; [reflexivity | split; [reflexivity | split]].
  - exact F.
  - apply S. reflexivity.
Defined.

(** C2 fails as stated: 2023-11-14 and 2024-11-14 are different calendar
    days and resolve to one directory. *)
Lemma different_days_share_a_directory :
  exists dt1 dt2,
    post_date post_1700000000 = Some dt1
    /\ post_date post_1731622400 = Some dt2
    /\ calendar_day dt1 <> calendar_day dt2
    /\ day_dir_of dt1 = day_dir_of dt2.
Proof.
  exists (Calendar.mkdatetime 2023 11 14 22 13 20),
         (Calendar.mkdatetime 2024 11 14 22 13 20).
  split; [reflexivity | split; [reflexivity | split]].
  - discriminate.
  - reflexivity.
Qed.

(** ** Running the monad *)

Lemma run_bind {A B} (c : M A) (k : A -> M B) (st : state) :
  (c ≫= k) st
  = match c st with
    | (Ok a, st') => k a st'
    | (Raise e, st') => (Raise e, st')
    | (Untyped, st') => (Untyped, st')
    end.
Proof. reflexivity. Qed.

Lemma run_emit {B} (e : event) (k : M B) (st : state) :
  (emit e;; k) st = k (logged st [e]).
Proof. reflexivity. Qed.

Lemma run_print {B} (line : string) (k : M B) (st : state) :
  (print line;; k) st = k (logged st [Print line]).
Proof. reflexivity. Qed.

Lemma run_ret {A} (a : A) (st : state) : (mret a : M A) st = (Ok a, st).
Proof. reflexivity. Qed.

Lemma logged_nil (st : state) : logged st [] = st.
Proof. destruct st; unfold logged; cbn. now rewrite app_nil_r. Qed.

Lemma logged_logged (st : state) (a b : list event) :
  logged (logged st a) b = logged st (a ++ b).
Proof. unfold logged; cbn. now rewrite app_assoc. Qed.

(** ** The listing loop *)

Lemma find_comment_outcome (cs : Praw.Comments) (st : state) :
  find_comment cs st
  = (comment_outcome cs,
     logged st match comment_outcome cs with
               | Ok (Some c) => [Print ("Found comment: " +:+ c)]
               | _ => []
               end).
Proof.
  induction cs as [|e|c rest IH]; cbn [find_comment comment_outcome].
  - now rewrite logged_nil.
  - now rewrite logged_nil.
  - destruct (is_annotation c); [reflexivity | exact IH].
Qed.

Lemma comment_outcome_typed (cs : Praw.Comments) : comment_outcome cs <> Untyped.
Proof.
  induction cs as [|e|c rest IH]; cbn; try discriminate.
  destruct (is_annotation c); [discriminate | exact IH].
Qed.

(** The lookup returns whatever the comments do: an exception ends in the
    handler, which prints it and leaves the comment unset. *)
Lemma lookup_comment_returns (submission : Praw.Submission) (st : state) :
  lookup_comment submission st
  = (Ok (kept_comment submission),
     logged st
       ([Print "Checking for comment..."; Sleep 1;
         LoadComments (Praw.id submission)]
        ++ match comment_outcome (Praw.comments submission) with
           | Ok (Some c) => [Print ("Found comment: " +:+ c)]
           | Ok None => []
           | Raise e => [Print ("Error getting comment: " +:+ exn_str e)]
           | Untyped => []
           end)).
Proof.
  unfold lookup_comment, kept_comment.
  rewrite run_print, run_emit. unfold try_except.
  rewrite run_emit, find_comment_outcome.
  pose proof (comment_outcome_typed (Praw.comments submission)) as T.
  destruct (comment_outcome (Praw.comments submission)) as [[c|]|e|];
    [| | |contradiction]; rewrite ?run_print, ?run_ret, !logged_logged;
    reflexivity.
Qed.

Lemma received_delivered (l : list Praw.Submission) :
  received (Praw.delivered l) = l.
Proof. induction l as [|s l IH]; cbn; [reflexivity | now rewrite IH]. Qed.

Lemma feed_failure_delivered (l : list Praw.Submission) :
  feed_failure (Praw.delivered l) = None.
Proof. induction l as [|s l IH]; cbn; [reflexivity | exact IH]. Qed.

(** The loop handles what the feed delivers, then returns or raises as the
    feed ends. *)
Lemma get_submissions_stream_run (feed : Praw.Feed) :
  forall (posts : list DailyAnimePost.t) (st : state),
    get_submissions_stream feed posts st
    = (match feed_failure feed with
       | None => Ok (posts ++ posts_of_listing (received feed))
       | Some e => Raise e
       end,
       logged st (flat_map submission_events (received feed))).
Proof.
  induction feed as [|e|s rest IH]; intros posts st.
  - cbn. now rewrite app_nil_r, logged_nil.
  - cbn. now rewrite logged_nil.
  - cbn [get_submissions_stream received feed_failure flat_map].
    unfold posts_of_listing.
    cbn [List.filter]. unfold kept at 1, submission_events at 1.
    unfold has_date_indicator at 1 2.
    set (title := Str.lower (Praw.title s)).
    destruct (existsb (fun month => Str.contains month title) month_names);
      [|destruct (existsb (fun day => Str.contains day title) day_names);
        [|destruct (Str.contains "today" title) eqn:Et]]; cbn [negb andb orb].
    4: { rewrite run_print, IH. now rewrite logged_logged. }
    all: destruct (is_image_url (Praw.url s)); cbn [negb];
      [ rewrite run_bind, lookup_comment_returns, IH, logged_logged;
        cbn [map]; now rewrite <- app_assoc
      | rewrite run_print, IH; now rewrite logged_logged ].
Qed.

Lemma get_submissions_loop_returns (l : list Praw.Submission) :
  forall (posts : list DailyAnimePost.t) (st : state),
    get_submissions_loop l posts st
    = (Ok (posts ++ posts_of_listing l),
       logged st (flat_map submission_events l)).
Proof.
  intros posts st. unfold get_submissions_loop.
  now rewrite get_submissions_stream_run, feed_failure_delivered, received_delivered.
Qed.

Lemma get_submissions_feed_run (feed : Praw.Feed) (st : state) :
  get_submissions_feed feed st
  = (match feed_failure feed with
     | None => Ok (posts_of_listing (received feed))
     | Some e => Raise e
     end,
     logged st (Listing reddit_username :: flat_map submission_events (received feed))).
Proof.
  unfold get_submissions_feed. rewrite run_emit, get_submissions_stream_run.
  now rewrite logged_logged.
Qed.

Lemma get_submissions_returns (up : upstream) (st : state) :
  get_submissions up st
  = (Ok (posts_of_listing (listing up)),
     logged st (Listing reddit_username :: flat_map submission_events (listing up))).
Proof.
  unfold get_submissions.
  now rewrite get_submissions_feed_run, feed_failure_delivered, received_delivered.
Qed.

Lemma in_posts_of_listing (l : list Praw.Submission) (p : DailyAnimePost.t) :
  In p (posts_of_listing l)
  <-> exists s, In s l /\ kept s = true /\ p = make_post s (kept_comment s).
Proof.
  unfold posts_of_listing. rewrite in_map_iff. split.
  - intros (s & <- & Hs). apply filter_In in Hs. now exists s.
  - intros (s & Hs & Hk & ->). exists s. split; [reflexivity|].
    apply filter_In. now split.
Qed.

(** C3 (as amended).  The listing loop always returns.  A post whose
    lowercased title contains a month name, a day name or "today" is in its
    output when its link also ends in one of the image suffixes; a post
    whose title contains none of them is not in the output and its skip
    notice is printed. *)
Theorem listing_filter_inclusion (up : upstream) (st : state) :
  exists posts st',
    get_submissions up st = (Ok posts, st')
    /\ (forall s, In s (listing up) ->
          has_date_indicator (Str.lower (Praw.title s)) = true ->
          is_image_url (Praw.url s) = true ->
          exists c, In (make_post s c) posts)
    /\ (forall s, In s (listing up) ->
          has_date_indicator (Str.lower (Praw.title s)) = false ->
          (forall c, ~ In (make_post s c) posts)
          /\ In (Print (skip_title_notice s)) (trace st')).
Proof.
  eexists _, _. split; [apply get_submissions_returns | split].
  - intros s Hs Ht Hu. exists (kept_comment s).
    apply in_posts_of_listing. exists s. unfold kept. now rewrite Ht, Hu.
  - intros s Hs Ht. split.
    + intros c Hin. apply in_posts_of_listing in Hin.
      destruct Hin as (s' & _ & Hk & E).
      apply (f_equal DailyAnimePost.title) in E. cbn in E.
      unfold kept in Hk. rewrite <- E, Ht in Hk. discriminate.
    + cbn [logged trace]. apply in_or_app. right. right.
      apply in_flat_map. exists s. split; [exact Hs|].
      unfold submission_events. rewrite Ht. now left.
Qed.

(** C3 fails as stated: "Monday" carries a day name, yet the post links a
    video and is dropped by the second test. *)
Lemma dated_title_without_image_is_dropped :
  In submission_video (listing upstream_example)
  /\ has_date_indicator (Str.lower (Praw.title submission_video)) = true
  /\ fst (get_submissions upstream_example empty_state)
     = Ok [make_post submission_kept (Some "{source}");
           make_post submission_429 None]
  /\ In (Print (skip_image_notice submission_video))
        (trace (snd (get_submissions upstream_example empty_state))).
Proof.
  split; [right; right; now left | split; [reflexivity | split]].
  - reflexivity.
  - vm_compute. do 6 right. now left.
Qed.

(** C8.  When the comment lookup of a post that passed both tests raises,
    the handler prints the exception and the lookup returns no comment;
    the record appended at the end of the list built so far has the title,
    id, link and creation time of the submission, its permalink made
    absolute, and no first comment; the loop goes on with the rest of the
    listing, and [get_submissions] returns with that record in its
    output. *)
Theorem comment_failure_is_absorbed
    (s : Praw.Submission) (e : exn) (l : list Praw.Submission)
    (posts : list DailyAnimePost.t) (st : state) :
  kept s = true ->
  comment_outcome (Praw.comments s) = Raise e ->
  let notices :=
    [Print "Checking for comment..."; Sleep 1; LoadComments (Praw.id s);
     Print ("Error getting comment: " +:+ exn_str e)] in
  let record :=
    DailyAnimePost.mk (Praw.title s) (Praw.id s)
      ("https://www.reddit.com" +:+ Praw.permalink s) (Praw.url s)
      (Praw.created_utc s) None in
  lookup_comment s st = (Ok None, logged st notices)
  /\ get_submissions_loop (s :: l) posts st
     = get_submissions_loop l (posts ++ [record]) (logged st notices)
  /\ (forall up, In s (listing up) ->
        exists posts' st',
          get_submissions up st = (Ok posts', st')
          /\ In record posts'
          /\ In (Print ("Error getting comment: " +:+ exn_str e)) (trace st')).
Proof.
  intros Hk He notices record.
  assert (Hl : lookup_comment s st = (Ok None, logged st notices)).
  { rewrite lookup_comment_returns. unfold kept_comment. now rewrite He. }
  assert (Hr : make_post s (kept_comment s) = record).
  { unfold kept_comment. rewrite He. reflexivity. }
  split; [exact Hl | split].
  - rewrite !get_submissions_loop_returns, logged_logged.
    unfold posts_of_listing. cbn [List.filter flat_map]. rewrite Hk.
    cbn [map]. rewrite Hr.
    unfold submission_events at 1. unfold kept in Hk.
    apply andb_true_iff in Hk. destruct Hk as [-> ->]. cbn [negb].
    rewrite He. now rewrite <- !app_assoc.
  - intros up Hs. eexists _, _.
    split; [apply get_submissions_returns | split].
    + apply in_posts_of_listing. exists s. now rewrite Hr.
    + cbn [logged trace]. apply in_or_app. right. right.
      apply in_flat_map. exists s. split; [exact Hs|].
      unfold submission_events. unfold kept in Hk.
      apply andb_true_iff in Hk. destruct Hk as [-> ->]. cbn [negb].
      rewrite He. do 3 right. now left.
Qed.

Lemma comment_failure_is_absorbed_witness :
  kept submission_429 = true
  /\ comment_outcome (Praw.comments submission_429)
     = Raise (Exn "TooManyRequests" "received 429 HTTP response")
  /\ fst (lookup_comment submission_429 empty_state) = Ok None
  /\ exists posts' st',
       get_submissions upstream_example empty_state = (Ok posts', st')
       /\ In (DailyAnimePost.mk "FRIDAY" "abc126"
                "https://www.reddit.com/r/animetoday/abc126"
                "https://i.redd.it/pic.png" 1700000000 None) posts'
       /\ In (Print "Error getting comment: received 429 HTTP response") (trace st').
Proof.
  pose proof (comment_failure_is_absorbed submission_429
                (Exn "TooManyRequests" "received 429 HTTP response")
                [] [] empty_state eq_refl eq_refl) as [L [_ G]].
  split; [reflexivity | split; [reflexivity | split]].
  - now rewrite L.
  - apply G. do 3 right. now left.
Defined.

(** ** Strings and paths *)

Lemma append_cons (c : ascii) (a b : string) :
  String c a +:+ b = String c (a +:+ b).
Proof. reflexivity. Qed.

Lemma append_assoc (a b c : string) : (a +:+ b) +:+ c = a +:+ (b +:+ c).
Proof.
  induction a as [|x a IH]; [reflexivity|].
  now rewrite !append_cons, IH.
Qed.

Lemma append_nil_r (a : string) : a +:+ "" = a.
Proof.
  induction a as [|x a IH]; [reflexivity|].
  now rewrite append_cons, IH.
Qed.

Lemma split_not_nil (c : ascii) (s : string) : Str.split c s <> [].
Proof.
  induction s as [|a s IH]; cbn; [discriminate|].
  destruct (Ascii.eqb a c); [discriminate|].
  destruct (Str.split c s); discriminate.
Qed.

Lemma has_char_cons (c a : ascii) (s : string) :
  has_char c (String a s) = Ascii.eqb a c || has_char c s.
Proof.
  unfold has_char. cbn [Str.contains String.prefix].
  destruct (ascii_dec c a) as [->|N].
  - rewrite Ascii.eqb_refl. now destruct s.
  - destruct (Ascii.eqb_spec a c); [congruence | reflexivity].
Qed.

Lemma split_without_separator (c : ascii) (s : string) :
  has_char c s = false -> Str.split c s = [s].
Proof.
  induction s as [|a s IH]; [reflexivity|].
  rewrite has_char_cons. intros H. apply orb_false_iff in H as [Ha Hs].
  cbn [Str.split]. rewrite Ha, (IH Hs). reflexivity.
Qed.

Lemma split_with_separator (c : ascii) (s : string) :
  has_char c s = true -> exists w w' ws, Str.split c s = w :: w' :: ws.
Proof.
  induction s as [|a s IH]; [discriminate|].
  rewrite has_char_cons. cbn [Str.split].
  destruct (Ascii.eqb a c); cbn [orb].
  - intros _. pose proof (split_not_nil c s) as N.
    destruct (Str.split c s) as [|w ws]; [contradiction|]. now exists EmptyString, w, ws.
  - intros H. destruct (IH H) as (w & w' & ws & ->). now exists (String a w), w', ws.
Qed.

(** [s.split(c)[-1]], one character at a time. *)
Lemma after_last_cons (c a : ascii) (s : string) :
  after_last c (String a s)
  = if Ascii.eqb a c || has_char c s then after_last c s else String a s.
Proof.
  unfold after_last, Str.last. cbn [Str.split].
  destruct (Ascii.eqb a c); cbn [orb].
  - pose proof (split_not_nil c s) as N.
    destruct (Str.split c s) as [|w ws]; [contradiction | reflexivity].
  - destruct (has_char c s) eqn:H.
    + destruct (split_with_separator c s H) as (w & w' & ws & ->). reflexivity.
    + rewrite (split_without_separator c s H). reflexivity.
Qed.

(** A character of what follows the last slash is a character of the whole. *)
Lemma has_char_after_last (c d : ascii) (s : string) :
  has_char c (after_last d s) = true -> has_char c s = true.
Proof.
  induction s as [|a s IH]; [intros H; exact H|].
  rewrite after_last_cons.
  destruct (Ascii.eqb a d || has_char d s); [|intros H; exact H].
  intros H. rewrite has_char_cons, (IH H). apply orb_true_r.
Qed.

(** Where what follows the last slash of a text has a dot, the last dot of
    the text is the last dot of that part. *)
Lemma after_last_dot_after_last_slash (url : string) :
  has_char "." (after_last "/" url) = true ->
  after_last "." url = after_last "." (after_last "/" url).
Proof.
  induction url as [|a s IH]; [reflexivity|].
  rewrite (after_last_cons "/"). destruct (Ascii.eqb a "/" || has_char "/" s) eqn:E.
  - intros H. rewrite <- (IH H), after_last_cons.
    now rewrite (has_char_after_last _ _ _ H), orb_true_r.
  - reflexivity.
Qed.

Lemma contains_cons_false (p : string) (a : ascii) (s : string) :
  Str.contains p (String a s) = false -> Str.contains p s = false.
Proof. cbn [Str.contains]. intros H. now apply orb_false_iff in H. Qed.

Lemma endswith_slash_free (n : string) :
  has_char "/" n = false -> Str.endswith n "/" = false.
Proof.
  induction n as [|a n IH]; [reflexivity|].
  rewrite has_char_cons. intros H. apply orb_false_iff in H as [Ha Hn].
  cbn [Str.endswith]. rewrite (IH Hn), orb_false_r.
  cbn. destruct (Ascii.eqb_spec a "/"); [discriminate | reflexivity].
Qed.

Lemma endswith_app_slash_free (a n : string) :
  n <> "" -> has_char "/" n = false -> Str.endswith (a +:+ n) "/" = false.
Proof.
  intros Hn Hs. induction a as [|c a IH]; [now apply endswith_slash_free|].
  change (String c a +:+ n) with (String c (a +:+ n)).
  cbn [Str.endswith]. rewrite IH, orb_false_r.
  cbn [String.eqb]. destruct (Ascii.eqb c "/"); [|reflexivity].
  destruct a; [now destruct n | reflexivity].
Qed.

Lemma startswith_slash_free (n : string) :
  has_char "/" n = false -> Str.startswith n "/" = false.
Proof.
  destruct n as [|a n]; [reflexivity|].
  rewrite has_char_cons. intros H. apply orb_false_iff in H as [Ha _].
  unfold Str.startswith. cbn [String.prefix].
  destruct (ascii_dec "/" a) as [<-|]; [discriminate | reflexivity].
Qed.

(** [os.path.join] puts one slash between a directory and a relative name. *)
Lemma join_relative (a b : string) :
  a <> "" -> Str.endswith a "/" = false -> Str.startswith b "/" = false ->
  Path.join a b = a +:+ "/" +:+ b.
Proof.
  intros Ha He Hb. unfold Path.join. rewrite Hb, He.
  destruct a; [contradiction | reflexivity].
Qed.

Lemma startswith_append (a b : string) :
  Str.startswith a "/" = false -> Str.startswith b "/" = false ->
  Str.startswith (a +:+ b) "/" = false.
Proof.
  intros Ha Hb. destruct a as [|c a]; [exact Hb|].
  rewrite append_cons. unfold Str.startswith in *. cbn [String.prefix] in *.
  destruct (ascii_dec "/" c); [|reflexivity]. now destruct a.
Qed.

(** ** The image fetcher *)

Lemma download_image_run (up : upstream) (s : DailyAnimePost.t)
    (directory : string) (st : state) :
  download_image up s directory st
  = match fs st !! image_filename directory s with
    | Some _ => (Ok tt, st)
    | None =>
        let st1 := logged st [HttpGet (DailyAnimePost.media_url s)] in
        match http up (DailyAnimePost.media_url s) with
        | Ok image_data => OS.write_file (image_filename directory s) image_data st1
        | Raise e => (Raise e, st1)
        | Untyped => (Untyped, st1)
        end
    end.
Proof.
  unfold download_image. fold (image_filename directory s).
  rewrite run_bind. unfold OS.path_exists.
  destruct (fs st !! image_filename directory s) as [n|] eqn:E.
  - rewrite bool_decide_eq_true_2 by eauto. reflexivity.
  - rewrite bool_decide_eq_false_2 by (intros [? ?]; discriminate).
    unfold http_get. rewrite run_bind, run_emit. unfold lift.
    destruct (http up (DailyAnimePost.media_url s)); reflexivity.
Qed.

Lemma write_file_run (p data : string) (st : state) :
  OS.is_dir (fs st) p = false -> OS.parent_ok (fs st) p = true ->
  OS.write_file p data st = (Ok tt, mkstate (<[p := File data]> (fs st)) (trace st)).
Proof. intros Hd Hp. unfold OS.write_file. now rewrite Hd, Hp. Qed.

Lemma write_file_ok_inv (p data : string) (st st' : state) :
  OS.write_file p data st = (Ok tt, st') ->
  st' = mkstate (<[p := File data]> (fs st)) (trace st).
Proof.
  unfold OS.write_file.
  destruct (OS.is_dir (fs st) p); [discriminate|].
  destruct (negb (OS.parent_ok (fs st) p)); [discriminate|].
  now intros [= <-].
Qed.

(** C5.  The extension is cut from the whole link, not from its final path
    segment.  The link [https://i.redd.it/abcjpg] ends in [jpg] and passes
    the listing filter; its final path segment [abcjpg] has no dot, and the
    fetcher takes [it/abcjpg], from the host name onwards, for the
    extension: it aims at [{directory}/x1.it/abcjpg], makes the request and
    cannot open the file.  The run ends there with [FileNotFoundError] and
    the day directory of the post is left empty.  For a link with a query,
    [.../abc.jpg?width=640&format=png], the final path segment is [abc.jpg]
    and the file written is [x2.jpg?width=640&format=png], not [x2.jpg]. *)
Theorem extension_is_cut_from_whole_url :
  let directory := "data/11_November/14" in
  let st1 := snd (main Json.loads upstream_links empty_state) in
  let st2 := snd (download_image upstream_links post_query directory archive_state) in
  fst (get_submissions upstream_links empty_state) = Ok [post_dotless; post_query]
  /\ final_segment (DailyAnimePost.media_url post_dotless) = "abcjpg"
  /\ after_last "." (DailyAnimePost.media_url post_dotless) = "it/abcjpg"
  /\ image_filename directory post_dotless = "data/11_November/14/x1.it/abcjpg"
  /\ download_image upstream_links post_dotless directory archive_state
     = (Raise (OS.FileNotFoundError "data/11_November/14/x1.it/abcjpg"),
        logged archive_state [HttpGet "https://i.redd.it/abcjpg"])
  /\ fst (main Json.loads upstream_links empty_state)
     = Raise (OS.FileNotFoundError "data/11_November/14/x1.it/abcjpg")
  /\ OS.is_dir (fs st1) directory = true
  /\ OS.entries (fs st1) directory = []
  /\ final_segment (DailyAnimePost.media_url post_query) = "abc.jpg"
  /\ after_last "." (final_segment (DailyAnimePost.media_url post_query)) = "jpg"
  /\ after_last "." (DailyAnimePost.media_url post_query) = "jpg?width=640&format=png"
  /\ fs st2 !! "data/11_November/14/x2.jpg?width=640&format=png"
     = Some (File "bytes of https://i.redd.it/abc.jpg?width=640&format=png")
  /\ fs st2 !! "data/11_November/14/x2.jpg" = None.
Proof. vm_compute. repeat split; reflexivity. Qed.

(** C7 fails as stated: with the file of the post already in the directory,
    two fetches in a row both find it and return, and neither reads the
    network; and with a server that refuses the request no file is
    written, so a second fetch asks again. *)
Lemma existing_image_is_never_read :
  let directory := "data/11_November/14" in
  let fetch up := download_image up post_1700000000 directory in
  let st :=
    mkstate (<["data/11_November/14/abc123.jpg" := File "old bytes"]> (fs archive_state))
            [] in
  let twice := (fetch upstream_example;; fetch upstream_example) st in
  let refused := snd (fetch (offline upstream_example) archive_state) in
  image_filename directory post_1700000000 = "data/11_November/14/abc123.jpg"
  /\ twice = (Ok tt, st)
  /\ network_reads (trace (snd twice)) = 0%nat
  /\ network_reads (trace (snd twice)) <> 1%nat
  /\ fst (fetch (offline upstream_example) archive_state)
     = Raise (Exn "ClientConnectorError" "cannot connect")
  /\ network_reads (trace (snd (fetch (offline upstream_example) refused))) = 2%nat.
Proof. vm_compute. repeat split; try reflexivity. discriminate. Qed.

(** C7 (as amended).  After a fetch that returned, a second fetch of the
    same post into the same directory finds the file and returns at once:
    no request, no write, no look at the content.  The two calls together
    read the network exactly once when the file was not there before the
    first, and not at all when it was. *)
Theorem download_image_twice
    (up : upstream) (s : DailyAnimePost.t) (directory : string)
    (st st1 : state) :
  download_image up s directory st = (Ok tt, st1) ->
  download_image up s directory st1 = (Ok tt, st1)
  /\ exists evs,
       trace st1 = trace st ++ evs
       /\ (fs st !! image_filename directory s = None -> network_reads evs = 1%nat)
       /\ (is_Some (fs st !! image_filename directory s) -> evs = []).
Proof.
  rewrite !download_image_run.
  destruct (fs st !! image_filename directory s) as [n|] eqn:E.
  - intros [= <-]. rewrite E. split; [reflexivity|].
    exists []. split; [now rewrite app_nil_r|].
    split; [discriminate | reflexivity].
  - cbn zeta. destruct (http up (DailyAnimePost.media_url s)) as [d|e|]; try discriminate.
    intros H. apply write_file_ok_inv in H. subst st1. cbn [fs trace logged].
    rewrite lookup_insert_eq. split; [reflexivity|].
    exists [HttpGet (DailyAnimePost.media_url s)].
    split; [reflexivity|].
    split; [reflexivity | intros [? ?]; discriminate].
Qed.

Lemma download_image_twice_witness :
  let st1 :=
    mkstate (<["data/11_November/14/abc123.jpg"
               := File "bytes of https://i.redd.it/pic.jpg"]> (fs archive_state))
            [HttpGet "https://i.redd.it/pic.jpg"] in
  download_image upstream_example post_1700000000 "data/11_November/14" archive_state
  = (Ok tt, st1)
  /\ download_image upstream_example post_1700000000 "data/11_November/14" st1
     = (Ok tt, st1).
Proof.
  intros st1.
  assert (F : download_image upstream_example post_1700000000
                "data/11_November/14" archive_state = (Ok tt, st1))
    by (vm_compute; reflexivity).
  split; [exact F|].
  exact (proj1 (download_image_twice upstream_example post_1700000000
                  "data/11_November/14" archive_state st1 F)).
Defined.

(** ** The loop of [main] *)

Lemma bind_ok_inv {A B} (c : M A) (k : A -> M B) (st st' : state) (b : B) :
  (c ≫= k) st = (Ok b, st') ->
  exists a st1, c st = (Ok a, st1) /\ k a st1 = (Ok b, st').
Proof.
  rewrite run_bind. destruct (c st) as [[a|e|] st1]; try discriminate.
  intros H. now exists a, st1.
Qed.

(** The loop body, step by step. *)
Lemma process_run (up : upstream) (s : DailyAnimePost.t) (dt : Calendar.datetime) :
  post_date s = Some dt ->
  process up s
  = (print ("Processing " +:+ DailyAnimePost.title s +:+ " - "
            +:+ DailyAnimePost.permalink s);;
     ensure_dir (month_dir_of dt);;
     ensure_dir (day_dir_of dt);;
     download_image up s (day_dir_of dt);;
     save_comment s (day_dir_of dt)).
Proof. unfold process, post_date. intros ->. reflexivity. Qed.

Lemma process_ok_inv (up : upstream) (s : DailyAnimePost.t) (st st' : state) :
  process up s st = (Ok tt, st') ->
  exists dt st0 st1,
    post_date s = Some dt
    /\ download_image up s (day_dir_of dt) st0 = (Ok tt, st1)
    /\ save_comment s (day_dir_of dt) st1 = (Ok tt, st').
Proof.
  destruct (post_date s) as [dt|] eqn:D.
  - rewrite (process_run up s dt D). intros H.
    apply bind_ok_inv in H as (_ & sa & _ & H).
    apply bind_ok_inv in H as (_ & sb & _ & H).
    apply bind_ok_inv in H as (_ & sc & _ & H).
    apply bind_ok_inv in H as ([] & sd & Hd & H).
    now exists dt, sc, sd.
  - unfold process, post_date in *. rewrite D, run_print. discriminate.
Qed.

(** ** Which events a computation can add *)

Section Emits.

Context (P : event -> Prop).

Lemma emits_silent {A} (c : M A) :
  (forall st, trace (snd (c st)) = trace st) -> emits P c.
Proof. intros H st. exists []. now rewrite app_nil_r, H. Qed.

Lemma emits_ret {A} (a : A) : emits P (mret a : M A).
Proof. now apply emits_silent. Qed.

Lemma emits_raise {A} (e : exn) : emits P (raise e : M A).
Proof. now apply emits_silent. Qed.

Lemma emits_lift {A} (r : result A) : emits P (lift r).
Proof. now apply emits_silent. Qed.

Lemma emits_emit (e : event) : P e -> emits P (emit e).
Proof. intros H st. exists [e]. split; [reflexivity | now constructor]. Qed.

Lemma emits_bind {A B} (c : M A) (k : A -> M B) :
  emits P c -> (forall a, emits P (k a)) -> emits P (c ≫= k).
Proof.
  intros Hc Hk st. rewrite run_bind.
  destruct (Hc st) as (evs & E & F).
  destruct (c st) as [[a|e|] st1]; cbn [snd] in *; try (now exists evs).
  destruct (Hk a st1) as (evs' & E' & F').
  exists (evs ++ evs'). split; [|now apply Forall_app].
  now rewrite E', E, app_assoc.
Qed.

Lemma emits_for_each {A} (l : list A) (body : A -> M unit) :
  (forall x, emits P (body x)) -> emits P (for_each l body).
Proof.
  intros H. induction l as [|x l IH]; cbn [for_each].
  - apply emits_ret.
  - apply emits_bind; [apply H | intros _; exact IH].
Qed.

Lemma emits_path_exists (p : string) : emits P (OS.path_exists p).
Proof. now apply emits_silent. Qed.

Lemma emits_makedirs (p : string) : emits P (OS.makedirs p).
Proof.
  apply emits_silent. intros st. unfold OS.makedirs.
  destruct (bool_decide _); [reflexivity|].
  destruct (existsb _ _); reflexivity.
Qed.

Lemma emits_write_file (p data : string) : emits P (OS.write_file p data).
Proof.
  apply emits_silent. intros st. unfold OS.write_file.
  destruct (OS.is_dir _ _); [reflexivity|].
  destruct (negb _); reflexivity.
Qed.

Lemma emits_read_file (p : string) : emits P (OS.read_file p).
Proof.
  apply emits_silent. intros st. unfold OS.read_file.
  destruct (fs st !! p) as [[]|]; reflexivity.
Qed.

Lemma emits_ensure_dir (d : string) : emits P (ensure_dir d).
Proof.
  apply emits_bind; [apply emits_path_exists|].
  intros []; [apply emits_ret | apply emits_makedirs].
Qed.

Lemma emits_save_comment (s : DailyAnimePost.t) (d : string) :
  emits P (save_comment s d).
Proof.
  unfold save_comment.
  destruct (DailyAnimePost.first_comment s) as [[|a c]|];
    [apply emits_ret | apply emits_write_file | apply emits_ret].
Qed.

Lemma emits_load_submissions_urls (json_loads : string -> option json) :
  emits P (load_submissions_urls json_loads).
Proof.
  apply emits_bind; [apply emits_read_file|].
  intros text. destruct (json_loads text); [apply emits_lift | apply emits_raise].
Qed.

End Emits.

Lemma emits_download_image (P : event -> Prop) (up : upstream)
    (s : DailyAnimePost.t) (d : string) :
  (forall url, P (HttpGet url)) -> emits P (download_image up s d).
Proof.
  intros H. apply emits_bind; [apply emits_path_exists|].
  intros []; [apply emits_ret|].
  apply emits_bind; [|intros; apply emits_write_file].
  apply emits_bind; [now apply emits_emit | intros; apply emits_lift].
Qed.

Lemma emits_process (P : event -> Prop) (up : upstream) (s : DailyAnimePost.t) :
  (forall url, P (HttpGet url)) -> (forall line, P (Print line)) ->
  emits P (process up s).
Proof.
  intros Hg Hp. unfold process.
  apply emits_bind; [now apply emits_emit | intros _].
  destruct (Calendar.utcfromtimestamp _); [|apply emits_raise].
  apply emits_bind; [apply emits_path_exists | intros e].
  apply emits_bind;
    [destruct e; [apply emits_ret | apply emits_makedirs] | intros _].
  apply emits_bind; [apply emits_path_exists | intros e'].
  apply emits_bind;
    [destruct e'; [apply emits_ret | apply emits_makedirs] | intros _].
  apply emits_bind; [now apply emits_download_image | intros _].
  apply emits_save_comment.
Qed.

(** ** The reference codec reads back what it writes *)

Lemma length_append (a b : string) :
  String.length (a +:+ b) = (String.length a + String.length b)%nat.
Proof.
  induction a as [|x a IH]; [reflexivity|].
  rewrite append_cons. cbn [String.length]. now rewrite IH.
Qed.

Lemma skip_ws_spaces (n : nat) (s : string) :
  Json.skip_ws (Json.spaces n +:+ s) = Json.skip_ws s.
Proof. induction n as [|n IH]; [reflexivity | exact IH]. Qed.

Lemma skip_ws_nl (indent level : nat) (s : string) :
  Json.skip_ws (Json.nl indent level +:+ s) = Json.skip_ws s.
Proof. unfold Json.nl. rewrite append_cons. apply skip_ws_spaces. Qed.

Lemma skip_ws_idem (s : string) : Json.skip_ws (Json.skip_ws s) = Json.skip_ws s.
Proof.
  induction s as [|c s IH]; [reflexivity|].
  cbn [Json.skip_ws]. destruct (Json.is_ws c) eqn:E; [exact IH|].
  cbn [Json.skip_ws]. now rewrite E.
Qed.

Lemma parse_value_skip_ws (fuel : nat) (s : string) :
  Json.parse_value fuel (Json.skip_ws s) = Json.parse_value fuel s.
Proof. destruct fuel; [reflexivity|]. cbn [Json.parse_value]. now rewrite skip_ws_idem. Qed.

Lemma parse_value_nl (fuel indent level : nat) (s : string) :
  Json.parse_value fuel (Json.nl indent level +:+ s) = Json.parse_value fuel s.
Proof.
  rewrite <- parse_value_skip_ws, skip_ws_nl. apply parse_value_skip_ws.
Qed.

Lemma parse_escape_char (c : ascii) (tail : string) :
  Json.parse_string_body (Json.escape_char c +:+ tail)
  = Json.cons_char c (Json.parse_string_body tail).
Proof. destruct c as [[] [] [] [] [] [] [] []]; reflexivity. Qed.

Lemma parse_escape (s rest : string) :
  Json.parse_string_body (Json.escape s +:+ String Json.quote rest) = Some (s, rest).
Proof.
  induction s as [|c s IH]; [reflexivity|].
  cbn [Json.escape]. rewrite append_assoc, parse_escape_char, IH. reflexivity.
Qed.

Lemma dump_string_append (s rest : string) :
  Json.dump_string s +:+ rest
  = String Json.quote (Json.escape s +:+ String Json.quote rest).
Proof. unfold Json.dump_string. now rewrite append_cons, append_assoc. Qed.

Lemma parse_digits_string_of_uint (d : Decimal.uint) (rest : string) :
  Json.no_leading_digit rest ->
  Json.parse_digits (DecimalString.NilEmpty.string_of_uint d +:+ rest) = (d, rest).
Proof.
  intros H. induction d as [|d IH|d IH|d IH|d IH|d IH|d IH|d IH|d IH|d IH|d IH];
    cbn [DecimalString.NilEmpty.string_of_uint];
    [|rewrite append_cons; cbn [Json.parse_digits]; rewrite IH; reflexivity ..].
  change ("" +:+ rest) with rest.
  destruct rest as [|c r]; [reflexivity|].
  cbn [Json.parse_digits]. cbn in H. now rewrite H.
Qed.

Lemma json_induction (P : json -> Prop) :
  P JNull -> (forall b, P (JBool b)) -> (forall n, P (JInt n)) ->
  (forall s, P (JStr s)) ->
  (forall items, Forall P items -> P (JArr items)) ->
  (forall members, Forall (fun kv => P (snd kv)) members -> P (JObj members)) ->
  forall v, P v.
Proof.
  intros HN HB HI HS HA HO.
  fix IH 1.
  intros [|b|n|s|items|members];
    [apply HN | apply HB | apply HI | apply HS | | ].
  - apply HA. induction items as [|x xs IHxs]; constructor; [apply IH | exact IHxs].
  - apply HO. induction members as [|[k x] xs IHxs]; constructor;
      [apply IH | exact IHxs].
Qed.

Lemma parse_value_number (fuel : nat) (c : ascii) (r : string) :
  Json.uint_digit c <> None ->
  Json.parse_value (S fuel) (String c r)
  = match Json.parse_digits (String c r) with
    | (Decimal.Nil, _) => None
    | (d, r') => Some (JInt (Z.of_int (Decimal.Pos d)), r')
    end.
Proof.
  destruct c as [[] [] [] [] [] [] [] []]; intros H;
    try (exfalso; apply H; reflexivity); reflexivity.
Qed.

Lemma string_of_uint_head (d : Decimal.uint) :
  d <> Decimal.Nil ->
  exists c r, DecimalString.NilEmpty.string_of_uint d = String c r
              /\ Json.uint_digit c <> None.
Proof.
  destruct d; intros H; [contradiction|..];
    cbn [DecimalString.NilEmpty.string_of_uint]; eexists _, _;
    (split; [reflexivity | discriminate]).
Qed.

Lemma parse_value_uint (fuel : nat) (d : Decimal.uint) (rest : string) :
  d <> Decimal.Nil -> Json.no_leading_digit rest ->
  Json.parse_value (S fuel) (DecimalString.NilEmpty.string_of_uint d +:+ rest)
  = Some (JInt (Z.of_int (Decimal.Pos d)), rest).
Proof.
  intros Hd Hr. destruct (string_of_uint_head d Hd) as (c & r & E & Hc).
  pose proof (parse_digits_string_of_uint d rest Hr) as D.
  rewrite E, append_cons in *. rewrite (parse_value_number _ _ _ Hc), D.
  destruct d; [contradiction | reflexivity ..].
Qed.

Lemma parse_value_int (fuel : nat) (n : Z) (rest : string) :
  Json.no_leading_digit rest ->
  Json.parse_value (S fuel) (Json.dump_int n +:+ rest) = Some (JInt n, rest).
Proof.
  intros Hr. unfold Json.dump_int.
  pose proof (DecimalZ.of_to n) as E.
  destruct n as [|p|p]; cbn [Z.to_int] in *.
  - now rewrite parse_value_uint by (assumption || discriminate).
  - rewrite parse_value_uint by (auto using DecimalPos.Unsigned.to_uint_nonnil).
    now rewrite E.
  - rewrite append_cons. cbn [Json.parse_value Json.skip_ws].
    change (Json.is_ws "-") with false. cbv iota.
    change (Ascii.eqb "-" "n") with false. change (Ascii.eqb "-" "t") with false.
    change (Ascii.eqb "-" "f") with false. change (Ascii.eqb "-" Json.quote) with false.
    change (Ascii.eqb "-" "[") with false. change (Ascii.eqb "-" "{") with false.
    change (Ascii.eqb "-" "-") with true. cbv iota.
    rewrite parse_digits_string_of_uint by assumption.
    pose proof (DecimalPos.Unsigned.to_uint_nonnil p) as N.
    destruct (Pos.to_uint p); [contradiction | now rewrite E ..].
Qed.

Lemma parse_value_str (fuel : nat) (s rest : string) :
  Json.parse_value (S fuel) (Json.dump_string s +:+ rest) = Some (JStr s, rest).
Proof.
  rewrite dump_string_append.
  change (Json.parse_value (S fuel) (String Json.quote ?r))
    with (match Json.parse_string_body r with
          | Some (str, r') => Some (JStr str, r')
          | None => None
          end).
  now rewrite parse_escape.
Qed.

Lemma digit_is_no_delimiter (c : ascii) :
  Json.uint_digit c <> None ->
  Json.is_ws c = false /\ c <> "]"%char /\ c <> "}"%char.
Proof.
  destruct c as [[] [] [] [] [] [] [] []]; intros H;
    try (exfalso; apply H; reflexivity); repeat split; discriminate.
Qed.

(** A written value starts with a character that is neither a blank nor a
    closing bracket. *)
Lemma dumps_at_head (indent level : nat) (v : json) :
  exists c r, Json.dumps_at indent level v = String c r
              /\ Json.is_ws c = false /\ c <> "]"%char /\ c <> "}"%char.
Proof.
  destruct v as [|[]|n|s|[|x xs]|[|[k x] xs]];
    try (eexists _, _; split; [reflexivity | repeat split; discriminate]).
  cbn [Json.dumps_at]. unfold Json.dump_int.
  destruct (Z.to_int n) as [d|d] eqn:E.
  - assert (N : d <> Decimal.Nil).
    { destruct n; cbn in E; inversion E; subst;
        [discriminate | apply DecimalPos.Unsigned.to_uint_nonnil ..]. }
    destruct (string_of_uint_head d N) as (c & r & -> & Hc).
    exists c, r. split; [reflexivity | now apply digit_is_no_delimiter].
  - eexists _, _. split; [reflexivity | repeat split; discriminate].
Qed.

Lemma skip_ws_dumps_at (indent level : nat) (v : json) (rest : string) :
  Json.skip_ws (Json.dumps_at indent level v +:+ rest)
  = Json.dumps_at indent level v +:+ rest.
Proof.
  destruct (dumps_at_head indent level v) as (c & r & -> & W & _).
  rewrite append_cons. cbn [Json.skip_ws]. now rewrite W.
Qed.

Lemma parse_value_bracket (fuel : nat) (r : string) :
  (forall r', Json.skip_ws r <> String "]" r') ->
  Json.parse_value (S fuel) (String "[" r)
  = match Json.parse_items fuel r with
    | Some (items, r') => Some (JArr items, r')
    | None => None
    end.
Proof.
  intros H.
  change (Json.parse_value (S fuel) (String "[" r))
    with (match Json.skip_ws r with
          | String "]" r' => Some (JArr [], r')
          | _ => match Json.parse_items fuel r with
                 | Some (items, r') => Some (JArr items, r')
                 | None => None
                 end
          end).
  destruct (Json.skip_ws r) as [|c r1]; [reflexivity|].
  destruct c as [[] [] [] [] [] [] [] []]; try reflexivity.
  now specialize (H r1).
Qed.

Lemma parse_value_brace (fuel : nat) (r : string) :
  (forall r', Json.skip_ws r <> String "}" r') ->
  Json.parse_value (S fuel) (String "{" r)
  = match Json.parse_members fuel r with
    | Some (members, r') => Some (JObj members, r')
    | None => None
    end.
Proof.
  intros H.
  change (Json.parse_value (S fuel) (String "{" r))
    with (match Json.skip_ws r with
          | String "}" r' => Some (JObj [], r')
          | _ => match Json.parse_members fuel r with
                 | Some (members, r') => Some (JObj members, r')
                 | None => None
                 end
          end).
  destruct (Json.skip_ws r) as [|c r1]; [reflexivity|].
  destruct c as [[] [] [] [] [] [] [] []]; try reflexivity.
  now specialize (H r1).
Qed.

Lemma items_tail_cons_append {A} (pr : A -> string) (sep close : string)
    (y : A) (ys : list A) (rest : string) :
  Json.items_tail pr sep close (y :: ys) +:+ rest
  = sep +:+ pr y +:+ (Json.items_tail pr sep close ys +:+ rest).
Proof. cbn [Json.items_tail]. now rewrite !append_assoc. Qed.

Section Roundtrip.

Variable indent : nat.


Lemma parse_items_tail (level : nat) (xs : list json) :
  Forall (Json.reads_back indent) xs ->
  forall x fuel rest,
    Json.reads_back indent x ->
    (list_sum (map (fun y => S (Json.weight y)) (x :: xs)) <= fuel)%nat ->
    Json.parse_items fuel
      (Json.nl indent (S level) +:+ Json.dumps_at indent (S level) x
       +:+ (Json.items_tail (Json.dumps_at indent (S level))
              ("," +:+ Json.nl indent (S level)) (Json.nl indent level +:+ "]") xs
            +:+ rest))
    = Some (x :: xs, rest).
Proof.
  induction 1 as [|y ys Hy Hys IH]; intros x fuel rest Hx Hf;
    (destruct fuel as [|f]; [simpl in Hf; lia|]); simpl in Hf;
    cbn [Json.parse_items]; rewrite parse_value_nl.
  - rewrite Hx; [|lia|exact eq_refl].
    change (Json.items_tail _ _ _ [] +:+ rest)
      with ((Json.nl indent level +:+ "]") +:+ rest).
    rewrite append_assoc, skip_ws_nl. reflexivity.
  - rewrite items_tail_cons_append.
    rewrite Hx; [|lia|exact eq_refl].
    rewrite append_assoc.
    change (Json.skip_ws ("," +:+ ?r)) with (String ","%char r).
    cbv iota. change (Ascii.eqb "," ",") with true. cbv iota.
    rewrite IH; [reflexivity | assumption | simpl; lia].
Qed.

Lemma parse_members_tail (level : nat) (xs : list (string * json)) :
  Forall (fun kv => Json.reads_back indent (snd kv)) xs ->
  forall k x fuel rest,
    Json.reads_back indent x ->
    (list_sum (map (fun kv => S (Json.weight (snd kv))) ((k, x) :: xs)) <= fuel)%nat ->
    Json.parse_members fuel
      (Json.nl indent (S level) +:+ Json.dump_string k +:+ ": "
       +:+ Json.dumps_at indent (S level) x
       +:+ (Json.items_tail
              (fun kv => Json.dump_string (fst kv) +:+ ": "
                         +:+ Json.dumps_at indent (S level) (snd kv))
              ("," +:+ Json.nl indent (S level)) (Json.nl indent level +:+ "}") xs
            +:+ rest))
    = Some ((k, x) :: xs, rest).
Proof.
  induction 1 as [|[k' y] ys Hy Hys IH]; intros k x fuel rest Hx Hf;
    (destruct fuel as [|f]; [simpl in Hf; lia|]); simpl in Hf;
    cbn [Json.parse_members]; rewrite skip_ws_nl, dump_string_append;
    change (Json.skip_ws (String Json.quote ?r)) with (String Json.quote r);
    cbv iota; change (Ascii.eqb Json.quote Json.quote) with true; cbv iota;
    rewrite parse_escape;
    change (Json.skip_ws (": " +:+ ?r)) with (String ":"%char (String " "%char r));
    cbv iota; change (Ascii.eqb ":" ":") with true; cbv iota;
    rewrite <- (parse_value_skip_ws f (String " "%char _));
    change (Json.skip_ws (String " "%char ?r)) with (Json.skip_ws r);
    rewrite parse_value_skip_ws.
  - rewrite Hx; [|lia|exact eq_refl].
    change (Json.items_tail _ _ _ [] +:+ rest)
      with ((Json.nl indent level +:+ "}") +:+ rest).
    rewrite append_assoc, skip_ws_nl. reflexivity.
  - rewrite items_tail_cons_append. cbn [fst snd].
    rewrite Hx; [|lia|exact eq_refl].
    rewrite !append_assoc.
    change (Json.skip_ws ("," +:+ ?r)) with (String ","%char r).
    cbv iota. change (Ascii.eqb "," ",") with true. cbv iota.
    rewrite IH; [reflexivity | assumption | simpl; lia].
Qed.

Lemma dumps_at_reads_back (v : json) : Json.reads_back indent v.
Proof.
  induction v as [|b|n|s|items IH|members IH] using json_induction;
    intros level fuel rest Hf Hr;
    (destruct fuel as [|f]; [simpl in Hf; lia|]).
  - reflexivity.
  - destruct b; reflexivity.
  - now apply parse_value_int.
  - apply parse_value_str.
  - destruct items as [|x xs]; [reflexivity|].
    inversion IH as [|? ? Hx Hxs]; subst.
    cbn [Json.dumps_at Json.weight] in *.
    rewrite !append_assoc. change ("[" +:+ ?r) with (String "["%char r).
    rewrite parse_value_bracket.
    + rewrite (parse_items_tail level xs Hxs x f rest Hx) by lia. reflexivity.
    + intros r'. rewrite skip_ws_nl, skip_ws_dumps_at.
      destruct (dumps_at_head indent (S level) x) as (c & r & -> & _ & N & _).
      rewrite append_cons. congruence.
  - destruct members as [|[k x] xs]; [reflexivity|].
    inversion IH as [|? ? Hx Hxs]; subst. cbn [snd] in Hx.
    cbn [Json.dumps_at Json.weight] in *.
    rewrite !append_assoc. change ("{" +:+ ?r) with (String "{"%char r).
    rewrite parse_value_brace.
    + rewrite (parse_members_tail level xs Hxs k x f rest Hx) by lia. reflexivity.
    + intros r'. rewrite skip_ws_nl, dump_string_append.
      discriminate.
Qed.

End Roundtrip.

Lemma weight_le_length (indent : nat) (v : json) :
  forall level, (Json.weight v <= String.length (Json.dumps_at indent level v))%nat.
Proof.
  assert (T : forall A (pr : A -> string) (w : A -> nat) sep close (l : list A),
             (1 <= String.length sep)%nat ->
             Forall (fun y => w y <= String.length (pr y))%nat l ->
             (list_sum (map (fun y => S (w y)) l)
              <= String.length (Json.items_tail pr sep close l))%nat).
  { intros A pr w sep close l Hs. induction 1 as [|y ys Hy _ IH]; simpl; [lia|].
    rewrite !length_append. lia. }
  induction v as [|b|n|s|items IH|members IH] using json_induction; intros level.
  - simpl; lia.
  - destruct b; simpl; lia.
  - cbn [Json.weight Json.dumps_at].
    destruct (dumps_at_head indent level (JInt n)) as (c & r & E & _).
    cbn [Json.dumps_at] in E. rewrite E. simpl; lia.
  - simpl; lia.
  - destruct items as [|x xs]; [simpl; lia|].
    inversion IH as [|? ? Hx Hxs]; subst.
    cbn [Json.dumps_at Json.weight map]. simpl list_sum.
    rewrite !length_append.
    pose proof (Hx (S level)).
    assert (F : Forall (fun y => (Json.weight y
                  <= String.length (Json.dumps_at indent (S level) y))%nat) xs).
    { eapply Forall_impl; [exact Hxs|]. intros y H'. apply H'. }
    pose proof (T json (Json.dumps_at indent (S level)) Json.weight
                  ("," +:+ Json.nl indent (S level)) (Json.nl indent level +:+ "]") xs
                  ltac:(simpl; lia) F).
    simpl String.length at 1 2. lia.
  - destruct members as [|[k x] xs]; [simpl; lia|].
    inversion IH as [|? ? Hx Hxs]; subst. cbn [snd] in Hx.
    cbn [Json.dumps_at Json.weight map snd]. simpl list_sum.
    rewrite !length_append.
    pose proof (Hx (S level)).
    pose proof (T (string * json)%type
                  (fun kv => Json.dump_string (fst kv) +:+ ": "
                             +:+ Json.dumps_at indent (S level) (snd kv))
                  (fun kv => Json.weight (snd kv))
                  ("," +:+ Json.nl indent (S level)) (Json.nl indent level +:+ "}") xs
                  ltac:(simpl; lia)) as T'.
    assert (F : Forall (fun kv : string * json =>
                  (Json.weight (snd kv)
                   <= String.length (Json.dump_string (fst kv) +:+ ": "
                        +:+ Json.dumps_at indent (S level) (snd kv)))%nat) xs).
    { eapply Forall_impl; [exact Hxs|]. intros kv H'. cbn beta in H'.
      rewrite !length_append. specialize (H' (S level)). lia. }
    specialize (T' F). simpl String.length at 1 2. lia.
Qed.

(** The reference codec meets the contract: it reads back every value it
    wrote, at any indentation. *)
Lemma reference_codec_roundtrip (indent : nat) (v : json) :
  Json.loads (Json.dumps indent v) = Some v.
Proof.
  unfold Json.loads, Json.dumps.
  pose proof (dumps_at_reads_back indent v 0%nat
                (S (String.length (Json.dumps_at indent 0 v))) ""
                ltac:(pose proof (weight_le_length indent v 0%nat); lia) I) as R.
  rewrite append_nil_r in R. rewrite R. reflexivity.
Qed.

(** ** The cache *)

Lemma post_of_kwargs_post_dict (o : DailyAnimePost.t) :
  post_of_kwargs (post_dict o) = Ok o.
Proof. destruct o as [t i p u c [f|]]; reflexivity. Qed.

Lemma posts_of_items_post_dict (l : list DailyAnimePost.t) :
  posts_of_items (map post_dict l) = Ok l.
Proof.
  induction l as [|o l IH]; [reflexivity|].
  cbn [map posts_of_items]. rewrite post_of_kwargs_post_dict. cbn [result_bind].
  now rewrite IH.
Qed.

Lemma distinct_keys_post_dict (o : DailyAnimePost.t) :
  distinct_keys (post_dict o) = true.
Proof. destruct o as [t i p u c [f|]]; vm_compute; reflexivity. Qed.

Lemma distinct_keys_document (l : list DailyAnimePost.t) :
  distinct_keys (JArr (map post_dict l)) = true.
Proof.
  cbn [distinct_keys]. induction l as [|o l IH]; [reflexivity|].
  cbn [map forallb]. now rewrite distinct_keys_post_dict, IH.
Qed.

(** C6.  With a [json] module that reads back what it wrote, and a cache
    path that can be written, [save] followed by [load] returns the very
    list of posts that was saved, field for field; a post without first
    comment is written with [null] there and comes back without one. *)
Theorem save_then_load
    (json_dumps : nat -> json -> string) (json_loads : string -> option json)
    (submissions : list DailyAnimePost.t) (st : state) :
  (forall v, distinct_keys v = true -> json_loads (json_dumps 4%nat v) = Some v) ->
  OS.is_dir (fs st) submissions_urls_file = false ->
  OS.parent_ok (fs st) submissions_urls_file = true ->
  (exists st1,
     save_submissions_urls json_dumps submissions st = (Ok tt, st1)
     /\ load_submissions_urls json_loads st1 = (Ok submissions, st1))
  /\ (forall o,
        post_of_kwargs (post_dict o) = Ok o
        /\ (DailyAnimePost.first_comment o = None
            <-> json_member "first_comment" (post_dict o) = Some JNull)).
Proof.
  intros Hrt Hd Hp. split.
  - eexists. split.
    + unfold save_submissions_urls. now apply write_file_run.
    + unfold load_submissions_urls. rewrite run_bind. unfold OS.read_file.
      cbn [fs]. rewrite lookup_insert_eq.
      rewrite Hrt by apply distinct_keys_document.
      unfold lift. cbn [posts_of_document].
      now rewrite posts_of_items_post_dict.
  - intros o. split; [apply post_of_kwargs_post_dict|].
    destruct o as [t i p u c [f|]]; cbn; split; congruence.
Qed.

Lemma save_then_load_witness :
  exists st1,
    save_submissions_urls Json.dumps cached_posts archive_state = (Ok tt, st1)
    /\ load_submissions_urls Json.loads st1 = (Ok cached_posts, st1).
Proof.
  exact (proj1 (save_then_load Json.dumps Json.loads cached_posts archive_state
                  (fun v _ => reference_codec_roundtrip 4 v) eq_refl eq_refl)).
Defined.

(** ** The run *)

Lemma ancestors_data_dir : Path.ancestors data_dir = [].
Proof. reflexivity. Qed.

(** Making sure of the data directory returns and touches no other path. *)
Lemma ensure_data_dir_run (st : state) :
  exists m,
    ensure_dir data_dir st = (Ok tt, mkstate m (trace st))
    /\ forall p, p <> data_dir -> m !! p = fs st !! p.
Proof.
  unfold ensure_dir. rewrite run_bind. unfold OS.path_exists.
  destruct (bool_decide (is_Some (fs st !! data_dir))) eqn:E; cbn [negb].
  - exists (fs st). split; [now destruct st | reflexivity].
  - unfold OS.makedirs. rewrite E, ancestors_data_dir. cbn [existsb app foldr].
    eexists. split; [reflexivity|].
    intros p Hp. now rewrite lookup_insert_ne.
Qed.

Lemma main_run (json_loads : string -> option json) (up : upstream) (st : state) :
  main json_loads up st
  = (ensure_dir data_dir;;
     cache_exists ← OS.path_exists submissions_urls_file;
     daily_submissions ←
       (if (cache_exists : bool) then load_submissions_urls json_loads
        else get_submissions up);
     for_each daily_submissions (process up)) st.
Proof.
  unfold main, ensure_dir. rewrite !run_bind.
  destruct (OS.path_exists data_dir st) as [[[]|e|] st0]; reflexivity.
Qed.

Lemma cache_is_not_data_dir : submissions_urls_file <> data_dir.
Proof. discriminate. Qed.

Lemma main_with_cache (json_loads : string -> option json) (up : upstream) (st : state) :
  is_Some (fs st !! submissions_urls_file) ->
  main json_loads up st
  = (ensure_dir data_dir;;
     daily_submissions ← load_submissions_urls json_loads;
     for_each daily_submissions (process up)) st.
Proof.
  intros H. rewrite main_run, !run_bind.
  destruct (ensure_data_dir_run st) as (m & -> & Hm).
  rewrite run_bind. unfold OS.path_exists. cbn [fs].
  rewrite (Hm submissions_urls_file cache_is_not_data_dir).
  rewrite bool_decide_eq_true_2 by exact H.
  reflexivity.
Qed.

Lemma main_without_cache (json_loads : string -> option json) (up : upstream) (st : state) :
  fs st !! submissions_urls_file = None ->
  main json_loads up st
  = (ensure_dir data_dir;;
     daily_submissions ← get_submissions up;
     for_each daily_submissions (process up)) st.
Proof.
  intros H. rewrite main_run, !run_bind.
  destruct (ensure_data_dir_run st) as (m & -> & Hm).
  rewrite run_bind. unfold OS.path_exists. cbn [fs].
  rewrite (Hm submissions_urls_file cache_is_not_data_dir), H.
  rewrite bool_decide_eq_false_2 by (intros [? ?]; discriminate).
  reflexivity.
Qed.

(** C4.  When the cache file exists, [main] is the run that makes sure of
    the data directory, loads the cache and processes what it loaded: the
    posts processed are the posts deserialised from the text of the file,
    and the run adds no request to the feed or to a comment forest to the
    trace.  (So such a request in the trace of a run means the cache was
    absent.) *)
Theorem cache_hit_bypasses_listing
    (json_loads : string -> option json) (up : upstream) (st : state) :
  is_Some (fs st !! submissions_urls_file) ->
  main json_loads up st
  = (ensure_dir data_dir;;
     daily_submissions ← load_submissions_urls json_loads;
     for_each daily_submissions (process up)) st
  /\ (exists evs,
        trace (snd (main json_loads up st)) = trace st ++ evs
        /\ Forall (fun ev => reddit_request ev = false) evs)
  /\ (forall text document posts,
        fs st !! submissions_urls_file = Some (File text) ->
        json_loads text = Some document ->
        posts_of_document document = Ok posts ->
        main json_loads up st
        = (ensure_dir data_dir;; for_each posts (process up)) st).
Proof.
  intros H. pose proof (main_with_cache json_loads up st H) as E.
  split; [exact E | split].
  - rewrite E.
    refine (emits_bind _ _ _ (emits_ensure_dir _ _) _ st). intros _.
    apply emits_bind; [apply emits_load_submissions_urls|].
    intros l. apply emits_for_each. intros s. now apply emits_process.
  - intros text document posts Ht Hd Hp. rewrite E, !run_bind.
    destruct (ensure_data_dir_run st) as (m & -> & Hm).
    rewrite run_bind. unfold load_submissions_urls.
    rewrite run_bind. unfold OS.read_file. cbn [fs].
    rewrite (Hm submissions_urls_file cache_is_not_data_dir), Ht, Hd.
    unfold lift. now rewrite Hp.
Qed.

Lemma cache_hit_bypasses_listing_witness :
  is_Some (fs cached_state !! submissions_urls_file)
  /\ main Json.loads upstream_example cached_state
     = (ensure_dir data_dir;; for_each cached_posts (process upstream_example))
         cached_state
  /\ exists evs,
       trace (snd (main Json.loads upstream_example cached_state))
       = trace cached_state ++ evs
       /\ Forall (fun ev => reddit_request ev = false) evs.
Proof.
  assert (H : is_Some (fs cached_state !! submissions_urls_file)).
  { eexists. unfold cached_state. cbn [fs]. apply lookup_insert_eq. }
  pose proof (cache_hit_bypasses_listing Json.loads upstream_example cached_state H)
    as (_ & Q & L).
  split; [exact H | split; [|exact Q]].
  eapply L.
  - unfold cached_state. cbn [fs]. apply lookup_insert_eq.
  - apply reference_codec_roundtrip.
  - apply posts_of_items_post_dict.
Defined.

(** Without a cache file the run goes to the feed. *)
Lemma cache_miss_requests_listing
    (json_loads : string -> option json) (up : upstream) (st : state) :
  fs st !! submissions_urls_file = None ->
  exists evs,
    trace (snd (main json_loads up st))
    = trace st ++ Listing reddit_username :: evs.
Proof.
  intros H. rewrite (main_without_cache json_loads up st H), !run_bind.
  destruct (ensure_data_dir_run st) as (m & -> & _).
  rewrite run_bind, get_submissions_returns.
  match goal with |- context [for_each ?l ?b ?s] =>
    destruct (emits_for_each (fun _ => True) l b
                (fun x => emits_process _ up x (fun _ => I) (fun _ => I)) s)
      as (evs & E & _);
    destruct (for_each l b s) as [[[]|e|] st'] end;
    cbn [snd logged trace] in *; rewrite E, <- app_assoc; eexists; reflexivity.
Qed.

(** ** Which paths a computation can touch *)

Lemma last_char_append (a b : string) :
  b <> "" -> last_char (a +:+ b) = last_char b.
Proof.
  intros Hb. induction a as [|x a IH]; [reflexivity|].
  rewrite append_cons. cbn [last_char]. rewrite IH.
  destruct (a +:+ b) eqn:E; [|reflexivity].
  destruct a; [|discriminate]. now destruct b.
Qed.

Lemma endswith_append (s p : string) :
  Str.endswith s p = true -> exists a, s = a +:+ p.
Proof.
  induction s as [|c s IH]; cbn [Str.endswith]; intros H.
  - rewrite orb_false_r in H. apply String.eqb_eq in H. now exists "".
  - apply orb_true_iff in H as [H|H].
    + apply String.eqb_eq in H. now exists "".
    + destruct (IH H) as [a ->]. now exists (String c a).
Qed.

Lemma last_char_after_last (c x : ascii) (s : string) :
  last_char s = Some x -> x <> c -> last_char (after_last c s) = Some x.
Proof.
  intros H N. induction s as [|a s IH]; [discriminate|].
  rewrite after_last_cons. destruct s as [|b s].
  - cbn in H. injection H as ->.
    change (has_char c "") with false. rewrite orb_false_r.
    destruct (Ascii.eqb_spec x c); [contradiction | reflexivity].
  - destruct (Ascii.eqb a c || has_char c (String b s)); [now apply IH | exact H].
Qed.

Lemma last_char_join (a b : string) :
  b <> "" -> last_char (Path.join a b) = last_char b.
Proof.
  intros Hb. unfold Path.join.
  destruct (Str.startswith b "/"); [reflexivity|].
  destruct (String.eqb a "" || Str.endswith a "/").
  - now apply last_char_append.
  - rewrite last_char_append by discriminate. now apply (last_char_append "/").
Qed.

Lemma last_char_image_url (url : string) :
  is_image_url url = true ->
  exists x, last_char url = Some x /\ x <> "."%char /\ x <> "n"%char.
Proof.
  unfold is_image_url. cbn [existsb]. rewrite orb_false_r. intros H.
  repeat (apply orb_true_iff in H as [H|H]);
    apply endswith_append in H as [a ->];
    rewrite last_char_append by discriminate;
    eexists; (split; [reflexivity | split; discriminate]).
Qed.

Lemma last_char_Some_nonempty (s : string) (x : ascii) :
  last_char s = Some x -> s <> "".
Proof. now destruct s. Qed.

(** The image of a post that passed the image test is no JSON file. *)
Lemma image_filename_is_not_cache (directory : string) (s : DailyAnimePost.t) :
  is_image_url (DailyAnimePost.media_url s) = true ->
  image_filename directory s <> submissions_urls_file.
Proof.
  intros H E. apply (f_equal last_char) in E. unfold image_filename in E.
  destruct (last_char_image_url _ H) as (x & Hx & Hdot & Hn).
  pose proof (last_char_after_last "." _ _ Hx Hdot) as L.
  fold (after_last "." (DailyAnimePost.media_url s)) in E.
  rewrite last_char_append in E by discriminate.
  rewrite last_char_append in E by (eapply last_char_Some_nonempty; exact L).
  rewrite L in E. injection E as ->. now apply Hn.
Qed.

Lemma comment_filename_is_not_cache (directory : string) (s : DailyAnimePost.t) :
  comment_filename directory s <> submissions_urls_file.
Proof.
  intros E. apply (f_equal last_char) in E. unfold comment_filename in E.
  rewrite last_char_join in E by (destruct (DailyAnimePost.id s); discriminate).
  rewrite last_char_append in E by discriminate. discriminate.
Qed.

Section Preserves.

Context (q : string).

Lemma preserves_same_fs {A} (c : M A) :
  (forall st, fs (snd (c st)) = fs st) -> preserves q c.
Proof. intros H st. now rewrite H. Qed.

Lemma preserves_ret {A} (a : A) : preserves q (mret a : M A).
Proof. now apply preserves_same_fs. Qed.

Lemma preserves_raise {A} (e : exn) : preserves q (raise e : M A).
Proof. now apply preserves_same_fs. Qed.

Lemma preserves_lift {A} (r : result A) : preserves q (lift r).
Proof. now apply preserves_same_fs. Qed.

Lemma preserves_emit (e : event) : preserves q (emit e).
Proof. now apply preserves_same_fs. Qed.

Lemma preserves_path_exists (p : string) : preserves q (OS.path_exists p).
Proof. now apply preserves_same_fs. Qed.

Lemma preserves_bind {A B} (c : M A) (k : A -> M B) :
  preserves q c -> (forall a, preserves q (k a)) -> preserves q (c ≫= k).
Proof.
  intros Hc Hk st. rewrite run_bind. specialize (Hc st).
  destruct (c st) as [[a|e|] st1]; cbn [snd] in *; try exact Hc.
  now rewrite Hk.
Qed.

Lemma preserves_for_each {A} (l : list A) (body : A -> M unit) :
  Forall (fun x => preserves q (body x)) l -> preserves q (for_each l body).
Proof.
  induction 1 as [|x l Hx _ IH]; cbn [for_each].
  - apply preserves_ret.
  - apply preserves_bind; [exact Hx | intros _; exact IH].
Qed.

Lemma preserves_makedirs (p : string) :
  ~ In q (Path.ancestors p ++ [p]) -> preserves q (OS.makedirs p).
Proof.
  intros N st. unfold OS.makedirs.
  destruct (bool_decide _); [reflexivity|].
  destruct (existsb _ _); [reflexivity|]. cbn [snd fs].
  induction (Path.ancestors p ++ [p]) as [|d ds IH]; [reflexivity|].
  cbn [foldr]. rewrite lookup_insert_ne.
  - apply IH. intros H. apply N. now right.
  - intros ->. apply N. now left.
Qed.

Lemma preserves_write_file (p data : string) :
  p <> q -> preserves q (OS.write_file p data).
Proof.
  intros N st. unfold OS.write_file.
  destruct (OS.is_dir _ _); [reflexivity|].
  destruct (negb _); [reflexivity|]. cbn [snd fs].
  now rewrite lookup_insert_ne.
Qed.

Lemma preserves_download_image (up : upstream) (s : DailyAnimePost.t) (d : string) :
  image_filename d s <> q -> preserves q (download_image up s d).
Proof.
  intros N. apply preserves_bind; [apply preserves_path_exists|].
  intros []; [apply preserves_ret|].
  apply preserves_bind; [|intros; now apply preserves_write_file].
  apply preserves_bind; [apply preserves_emit | intros; apply preserves_lift].
Qed.

Lemma preserves_save_comment (s : DailyAnimePost.t) (d : string) :
  comment_filename d s <> q -> preserves q (save_comment s d).
Proof.
  intros N. unfold save_comment.
  destruct (DailyAnimePost.first_comment s) as [[|a c]|];
    [apply preserves_ret | now apply preserves_write_file | apply preserves_ret].
Qed.

End Preserves.

Lemma directories_of_month_day (dt : Calendar.datetime) :
  directories_of dt
  = directories_of (Calendar.mkdatetime 0 (Calendar.month dt) (Calendar.day dt) 0 0 0).
Proof. reflexivity. Qed.

Lemma directories_table :
  forallb (fun m => forallb (fun d =>
    negb (existsb (String.eqb submissions_urls_file)
            (directories_of (Calendar.mkdatetime 0 m d 0 0 0))))
    days) months = true.
Proof. vm_compute. reflexivity. Qed.

(** No directory of the archive is the cache file. *)
Lemma cache_is_no_directory (t : Z) (dt : Calendar.datetime) :
  Calendar.utcfromtimestamp t = Some dt ->
  ~ In submissions_urls_file (directories_of dt).
Proof.
  intros H. destruct (utcfromtimestamp_range _ _ H) as [Hm Hd].
  rewrite directories_of_month_day.
  pose proof directories_table as T.
  rewrite forallb_forall in T. specialize (T _ (in_months _ Hm)).
  rewrite forallb_forall in T. specialize (T _ (in_days _ Hd)).
  apply negb_true_iff in T. intros I.
  assert (X : existsb (String.eqb submissions_urls_file)
                (directories_of (Calendar.mkdatetime 0 (Calendar.month dt)
                                   (Calendar.day dt) 0 0 0)) = true).
  { apply existsb_exists. eexists. split; [exact I | apply String.eqb_refl]. }
  congruence.
Qed.

Lemma preserves_ensure_dir (q d : string) :
  ~ In q (Path.ancestors d ++ [d]) -> preserves q (ensure_dir d).
Proof.
  intros N. apply preserves_bind; [apply preserves_path_exists|].
  intros []; [apply preserves_ret | apply preserves_makedirs; exact N].
Qed.

Lemma preserves_process (up : upstream) (s : DailyAnimePost.t) :
  is_image_url (DailyAnimePost.media_url s) = true ->
  preserves submissions_urls_file (process up s).
Proof.
  intros Hi. destruct (post_date s) as [dt|] eqn:D.
  - rewrite (process_run up s dt D).
    pose proof (cache_is_no_directory _ _ D) as N. unfold directories_of in N.
    apply preserves_bind; [apply preserves_emit | intros _].
    apply preserves_bind; [|intros _].
    { apply preserves_ensure_dir. intros I. apply N.
      rewrite app_assoc. apply in_or_app. left. exact I. }
    apply preserves_bind; [|intros _].
    { apply preserves_ensure_dir. intros I. apply N.
      apply in_or_app. right. apply in_or_app. right. exact I. }
    apply preserves_bind; [|intros _].
    + apply preserves_download_image. apply image_filename_is_not_cache. exact Hi.
    + apply preserves_save_comment. apply comment_filename_is_not_cache.
  - unfold process. unfold post_date in D. rewrite D.
    apply preserves_bind; [apply preserves_emit | intros _; apply preserves_raise].
Qed.

(** No run of [main] creates the cache file: nothing calls
    [save_submissions_urls], and no other write can land on its path. *)
Lemma main_never_creates_cache
    (json_loads : string -> option json) (up : upstream) (st : state) :
  fs st !! submissions_urls_file = None ->
  fs (snd (main json_loads up st)) !! submissions_urls_file = None.
Proof.
  intros H. rewrite (main_without_cache json_loads up st H), !run_bind.
  destruct (ensure_data_dir_run st) as (m & -> & Hm).
  rewrite run_bind, get_submissions_returns.
  rewrite preserves_for_each.
  - cbn [logged fs]. now rewrite (Hm submissions_urls_file cache_is_not_data_dir).
  - apply List.Forall_forall. intros p Hp. apply in_posts_of_listing in Hp.
    destruct Hp as (s & _ & Hk & ->). apply preserves_process. cbn.
    unfold kept in Hk. now apply andb_true_iff in Hk.
Qed.

(** C1 fails on the code.  A first run (no data directory, no cache) over a
    feed of four posts returns, has archived the two posts that pass the
    filter, and leaves no cache file; the next run on that file system asks
    the feed again. *)
Theorem first_run_writes_no_cache :
  let st1 := snd (main Json.loads upstream_example empty_state) in
  fs empty_state !! submissions_urls_file = None
  /\ fst (main Json.loads upstream_example empty_state) = Ok tt
  /\ fs st1 !! "data/11_November/14/abc123.jpg"
     = Some (File "bytes of https://i.redd.it/pic.jpg")
  /\ fs st1 !! submissions_urls_file = None
  /\ In (Listing reddit_username)
        (trace (snd (main Json.loads upstream_example (mkstate (fs st1) [])))).
Proof. vm_compute. repeat split; try reflexivity. now left. Qed.

(** ** The audit *)

Lemma scan_app {A} (f : A -> result unit * list event) (l1 l2 : list A) :
  Forall (fun x => fst (f x) = Ok tt) l1 ->
  scan f (l1 ++ l2)
  = (fst (scan f l2), flat_map (fun x => snd (f x)) l1 ++ snd (scan f l2)).
Proof.
  induction 1 as [|x l1 Hx _ IH]; cbn [app scan flat_map].
  - now destruct (scan f l2).
  - destruct (f x) as [[[]|e|] evs]; cbn [fst] in Hx; try discriminate.
    rewrite IH. cbn [fst snd]. now rewrite app_assoc.
Qed.

Lemma scan_all_ok {A} (f : A -> result unit * list event) (l : list A) :
  Forall (fun x => fst (f x) = Ok tt) l ->
  scan f l = (Ok tt, flat_map (fun x => snd (f x)) l).
Proof.
  intros H. pose proof (scan_app f l [] H) as E.
  rewrite !app_nil_r in E. exact E.
Qed.

(** A loop that does not return returns what its first failing body does. *)
Lemma scan_not_ok {A} (f : A -> result unit * list event) (l : list A) :
  fst (scan f l) <> Ok tt ->
  exists x, In x l /\ fst (f x) <> Ok tt /\ fst (scan f l) = fst (f x).
Proof.
  induction l as [|x l IH]; cbn [scan]; [intros H; now contradiction H|].
  destruct (f x) as [[[]|e|] evs] eqn:E.
  - destruct (scan f l) as [r evs'] eqn:S. cbn [fst] in *. intros H.
    destruct (IH H) as (y & Hy & Hn & Hr). exists y. split; [now right|]. now split.
  - intros _. exists x. rewrite E. split; [now left|]. split; [discriminate|reflexivity].
  - intros _. exists x. rewrite E. split; [now left|]. split; [discriminate|reflexivity].
Qed.

Lemma scan_ok_inv {A} (f : A -> result unit * list event) (l : list A) :
  fst (scan f l) = Ok tt -> Forall (fun x => fst (f x) = Ok tt) l.
Proof.
  induction l as [|x l IH]; cbn [scan]; [constructor|].
  destruct (f x) as [[[]|e|] evs] eqn:E; cbn [fst]; try discriminate.
  destruct (scan f l) as [r evs'] eqn:S. cbn [fst] in *. intros ->.
  constructor; [now rewrite E | now apply IH].
Qed.

(** A loop whose bodies read the file system and print is its [scan]. *)
Lemma for_each_scan {A} (m : gmap string node) (body : A -> M unit)
    (f : A -> result unit * list event) (l : list A) :
  (forall x st, fs st = m -> body x st = (fst (f x), logged st (snd (f x)))) ->
  forall st, fs st = m ->
    for_each l body st = (fst (scan f l), logged st (snd (scan f l))).
Proof.
  intros H. induction l as [|x l IH]; intros st Hm; cbn [for_each scan].
  - now rewrite logged_nil.
  - rewrite run_bind, (H x st Hm).
    destruct (f x) as [[[]|e|] evs]; cbn [fst snd]; try reflexivity.
    rewrite IH by exact Hm. destruct (scan f l) as [r evs'].
    cbn [fst snd]. now rewrite logged_logged.
Qed.

Lemma for_each_map {A B} (g : A -> B) (body : B -> M unit) (l : list A) (st : state) :
  for_each (map g l) body st = for_each l (fun x => body (g x)) st.
Proof.
  revert st. induction l as [|x l IH]; intros st; [reflexivity|].
  cbn [map for_each]. rewrite !run_bind.
  destruct (body (g x) st) as [[[]|e|] st1]; try reflexivity. apply IH.
Qed.

Lemma listdir_run (p : string) (st : state) :
  OS.listdir p st
  = match fs st !! p with
    | Some Dir => (Ok (OS.entries (fs st) p), st)
    | Some (File _) => (Raise (OS.NotADirectoryError p), st)
    | None => (Raise (OS.FileNotFoundError p), st)
    end.
Proof. reflexivity. Qed.

Lemma audit_day_run (m : gmap string node) (day_dir : string) (st : state) :
  fs st = m ->
  (l ← OS.listdir day_dir;
   match l with
   | [] => print ("Empty directory: " +:+ day_dir)
   | _ :: _ => mret tt
   end) st
  = (fst (audit_day m day_dir), logged st (snd (audit_day m day_dir))).
Proof.
  intros <-. rewrite run_bind, listdir_run. unfold audit_day, is_empty_dir.
  destruct (fs st !! day_dir) as [[data|]|]; cbn [fst snd]; rewrite ?logged_nil;
    try reflexivity.
  destruct (OS.entries (fs st) day_dir); cbn [fst snd]; [reflexivity|].
  now rewrite logged_nil.
Qed.

Lemma audit_month_run (m : gmap string node) (month : string) (st : state) :
  fs st = m ->
  (let month_dir := Path.join data_dir month in
   d ← OS.path_isdir month_dir;
   if negb d then mret tt
   else
     days ← OS.listdir month_dir;
     for_each days (fun day =>
       let day_dir := Path.join month_dir day in
       l ← OS.listdir day_dir;
       match l with
       | [] => print ("Empty directory: " +:+ day_dir)
       | _ :: _ => mret tt
       end)) st
  = (fst (audit_month m month), logged st (snd (audit_month m month))).
Proof.
  intros Hm. cbn zeta. rewrite run_bind. unfold OS.path_isdir, audit_month.
  rewrite Hm. destruct (OS.is_dir m (Path.join data_dir month)) eqn:D; cbn [negb].
  - rewrite run_bind, listdir_run, Hm. unfold OS.is_dir in D.
    destruct (m !! Path.join data_dir month) as [[|]|]; try discriminate.
    set (md := Path.join data_dir month).
    pose proof (for_each_scan m
      (fun p => l ← OS.listdir p;
                match l with
                | [] => print ("Empty directory: " +:+ p)
                | _ :: _ => mret tt
                end)
      (audit_day m) (map (Path.join md) (OS.entries m md))
      (fun x st' H => audit_day_run m x st' H) st Hm) as E.
    rewrite <- E. symmetry. apply for_each_map.
  - now rewrite logged_nil.
Qed.

Lemma perform_audit_run (st : state) :
  perform_audit st
  = match fs st !! data_dir with
    | Some Dir =>
        match scan (audit_month (fs st)) (OS.entries (fs st) data_dir) with
        | (Ok _, evs) => (Ok tt, logged st (evs ++ [Print "Audit complete"]))
        | (r, evs) => (r, logged st evs)
        end
    | Some (File _) => (Raise (OS.NotADirectoryError data_dir), st)
    | None => (Raise (OS.FileNotFoundError data_dir), st)
    end.
Proof.
  unfold perform_audit. rewrite !run_bind, listdir_run.
  destruct (fs st !! data_dir) as [[data|]|]; try reflexivity.
  rewrite run_bind.
  match goal with
  | |- context [for_each ?l ?b st] =>
      rewrite (for_each_scan (fs st) b (audit_month (fs st)) l
                 (fun x st' H => audit_month_run (fs st) x st' H) st eq_refl)
  end.
  destruct (scan (audit_month (fs st)) (OS.entries (fs st) data_dir))
    as [[[]|e|] evs]; cbn [fst snd]; try reflexivity.
  change (print "Audit complete" (logged st evs))
    with (Ok tt, logged (logged st evs) [Print "Audit complete"]).
  now rewrite logged_logged.
Qed.

Lemma strip_prefix_Some (p s n : string) :
  Str.strip_prefix p s = Some n -> s = p +:+ n.
Proof.
  revert s. induction p as [|a p IH]; intros s; cbn [Str.strip_prefix].
  - now intros [= ->].
  - destruct s as [|b s]; [discriminate|].
    destruct (Ascii.eqb_spec a b) as [->|]; [|discriminate].
    intros H. now rewrite (IH _ H).
Qed.

(** A listed name is a non-empty name without separator, and the path it
    stands for is in the file system. *)
Lemma entries_spec (m : gmap string node) (p n : string) :
  In n (OS.entries m p) ->
  n <> "" /\ has_char "/" n = false /\ is_Some (m !! (p +:+ "/" +:+ n)).
Proof.
  unfold OS.entries. rewrite <- list_elem_of_In, list_elem_of_omap.
  intros ([k v] & Hin & Hc). apply elem_of_map_to_list in Hin.
  unfold OS.child_name in Hc. cbn [fst] in Hc.
  destruct (Str.strip_prefix (p +:+ "/") k) as [n'|] eqn:S; [|discriminate].
  apply strip_prefix_Some in S.
  destruct (String.eqb_spec n' ""); [discriminate|]. cbn [orb] in Hc.
  destruct (Str.contains "/" n') eqn:C; [discriminate|].
  injection Hc as <-. repeat split; [assumption | exact C |].
  exists v. now rewrite <- append_assoc, <- S.
Qed.

Lemma join_entry (p n : string) :
  p <> "" -> Str.endswith p "/" = false -> has_char "/" n = false ->
  Path.join p n = p +:+ "/" +:+ n.
Proof. intros. apply join_relative; auto using startswith_slash_free. Qed.

Lemma month_dir_shape (m : gmap string node) (month : string) :
  In month (OS.entries m data_dir) ->
  Path.join data_dir month = "data/" +:+ month
  /\ Str.endswith (Path.join data_dir month) "/" = false
  /\ is_Some (m !! Path.join data_dir month).
Proof.
  intros H. apply entries_spec in H as (Hn & Hs & He).
  assert (E : Path.join data_dir month = "data/" +:+ month).
  { rewrite join_entry; [reflexivity | discriminate | reflexivity | exact Hs]. }
  rewrite E. repeat split; [now apply endswith_app_slash_free | exact He].
Qed.

(** Every day-level entry is in the file system: a file or a directory. *)
Lemma day_entries_exist (m : gmap string node) (d : string) :
  In d (day_entries m) -> is_Some (m !! d).
Proof.
  unfold day_entries, month_dirs. rewrite in_flat_map.
  intros (md & Hmd & Hd). apply filter_In in Hmd as [Hmd _].
  apply in_map_iff in Hmd as (month & <- & Hmonth).
  apply in_map_iff in Hd as (day & <- & Hday).
  destruct (month_dir_shape m month Hmonth) as (E & He & _).
  apply entries_spec in Hday as (_ & Hs & Hx).
  rewrite join_entry; [exact Hx | rewrite E; discriminate | exact He | exact Hs].
Qed.

Lemma audit_day_ok (m : gmap string node) (d : string) :
  fst (audit_day m d) = Ok tt <-> OS.is_dir m d = true.
Proof.
  unfold audit_day, OS.is_dir.
  destruct (m !! d) as [[data|]|]; cbn [fst]; split; (reflexivity || discriminate).
Qed.

Lemma audit_day_events (m : gmap string node) (ds : list string) :
  Forall (fun d => OS.is_dir m d = true) ds ->
  flat_map (fun d => snd (audit_day m d)) ds
  = map empty_notice (List.filter (is_empty_dir m) ds).
Proof.
  induction 1 as [|d ds Hd _ IH]; [reflexivity|].
  cbn [flat_map List.filter]. rewrite IH. unfold audit_day at 1.
  unfold OS.is_dir in Hd. destruct (m !! d) as [[data|]|]; try discriminate.
  cbn [snd]. now destruct (is_empty_dir m d).
Qed.

(** The day-level entries under some entries of the data root. *)
Lemma day_entries_cons (m : gmap string node) (month : string) (ms : list string) :
  flat_map (fun md => map (Path.join md) (OS.entries m md))
    (List.filter (OS.is_dir m) (map (Path.join data_dir) (month :: ms)))
  = (if OS.is_dir m (Path.join data_dir month)
     then map (Path.join (Path.join data_dir month))
            (OS.entries m (Path.join data_dir month))
     else [])
    ++ flat_map (fun md => map (Path.join md) (OS.entries m md))
         (List.filter (OS.is_dir m) (map (Path.join data_dir) ms)).
Proof.
  cbn [map List.filter].
  destruct (OS.is_dir m (Path.join data_dir month)); reflexivity.
Qed.

Lemma scan_audit_month_ok (m : gmap string node) (ms : list string) :
  let ds := flat_map (fun md => map (Path.join md) (OS.entries m md))
              (List.filter (OS.is_dir m) (map (Path.join data_dir) ms)) in
  Forall (fun d => OS.is_dir m d = true) ds ->
  scan (audit_month m) ms
  = (Ok tt, map empty_notice (List.filter (is_empty_dir m) ds)).
Proof.
  induction ms as [|month ms IH]; [reflexivity|].
  cbn zeta in *. rewrite day_entries_cons. intros H.
  apply Forall_app in H as [H1 H2].
  cbn [scan]. unfold audit_month at 1.
  rewrite (IH H2). rewrite List.filter_app, map_app.
  destruct (OS.is_dir m (Path.join data_dir month)); [|reflexivity].
  rewrite scan_all_ok.
  - now rewrite (audit_day_events m _ H1).
  - eapply Forall_impl; [exact H1|]. intros d Hd. now apply audit_day_ok.
Qed.

Lemma scan_audit_month_ok_inv (m : gmap string node) (ms : list string) :
  fst (scan (audit_month m) ms) = Ok tt ->
  Forall (fun d => OS.is_dir m d = true)
    (flat_map (fun md => map (Path.join md) (OS.entries m md))
       (List.filter (OS.is_dir m) (map (Path.join data_dir) ms))).
Proof.
  intros H. apply scan_ok_inv in H.
  induction H as [|month ms Hm _ IH]; [constructor|].
  rewrite day_entries_cons. apply Forall_app. split; [|exact IH].
  unfold audit_month in Hm.
  destruct (OS.is_dir m (Path.join data_dir month)); [|constructor].
  apply scan_ok_inv in Hm.
  eapply Forall_impl; [exact Hm|]. intros d Hd. now apply audit_day_ok.
Qed.

Lemma scan_audit_month_fails (m : gmap string node) :
  fst (scan (audit_month m) (OS.entries m data_dir)) <> Ok tt ->
  exists p, In p (day_entries m) /\ OS.is_file m p = true
            /\ fst (scan (audit_month m) (OS.entries m data_dir))
               = Raise (OS.NotADirectoryError p).
Proof.
  intros H. apply scan_not_ok in H as (month & Hmonth & Hn & ->).
  unfold audit_month in *.
  destruct (OS.is_dir m (Path.join data_dir month)) eqn:D;
    [|now contradiction Hn].
  apply scan_not_ok in Hn as (p & Hp & Hn & ->).
  assert (I : In p (day_entries m)).
  { unfold day_entries, month_dirs. apply in_flat_map.
    exists (Path.join data_dir month). split; [|exact Hp].
    apply filter_In. split; [now apply in_map | exact D]. }
  exists p. split; [exact I|].
  destruct (day_entries_exist m p I) as [v Hv].
  unfold audit_day, OS.is_file in *. rewrite Hv in *.
  destruct v; [now split | now contradiction Hn].
Qed.

(** C10.  With the data root in place, the audit returns exactly when no
    regular file sits directly inside a month directory.  When it returns
    it has printed, in listing order, the day-level entries whose listing
    is empty and nothing else before the closing line.  Only entries of
    the data root are tested for being directories: a regular file among
    the day-level entries is listed like a directory, and the listing
    raises. *)
Theorem audit_reports_empty_days (st : state) :
  OS.is_dir (fs st) data_dir = true ->
  (fst (perform_audit st) = Ok tt
   <-> forall d, In d (day_entries (fs st)) -> OS.is_file (fs st) d = false)
  /\ (fst (perform_audit st) = Ok tt ->
      snd (perform_audit st)
      = logged st (map empty_notice (empty_days (fs st))
                   ++ [Print "Audit complete"]))
  /\ (forall d, In d (day_entries (fs st)) -> OS.is_file (fs st) d = true ->
      exists p, In p (day_entries (fs st)) /\ OS.is_file (fs st) p = true
                /\ fst (perform_audit st) = Raise (OS.NotADirectoryError p)).
Proof.
  intros Hd. rewrite perform_audit_run. unfold OS.is_dir in Hd.
  destruct (fs st !! data_dir) as [[data|]|] eqn:E; try discriminate. clear Hd.
  set (m := fs st) in *.
  assert (Dirs : (forall d, In d (day_entries m) -> OS.is_file m d = false)
                 -> Forall (fun d => OS.is_dir m d = true) (day_entries m)).
  { intros H. apply List.Forall_forall. intros d Hin.
    specialize (H d Hin). destruct (day_entries_exist m d Hin) as [v Hv].
    unfold OS.is_file, OS.is_dir in *. rewrite Hv in *. now destruct v. }
  assert (Files : fst (scan (audit_month m) (OS.entries m data_dir)) = Ok tt ->
                  forall d, In d (day_entries m) -> OS.is_file m d = false).
  { intros H d Hin. apply scan_audit_month_ok_inv in H.
    rewrite List.Forall_forall in H. specialize (H d Hin).
    unfold OS.is_file, OS.is_dir in *. now destruct (m !! d) as [[?|]|]. }
  split; [split|split].
  - intros H. apply Files.
    destruct (scan (audit_month m) (OS.entries m data_dir)) as [[[]|e|] evs];
      cbn [fst] in *; (reflexivity || discriminate).
  - intros H. rewrite (scan_audit_month_ok m _ (Dirs H)). reflexivity.
  - intros H.
    assert (R : fst (scan (audit_month m) (OS.entries m data_dir)) = Ok tt).
    { destruct (scan (audit_month m) (OS.entries m data_dir)) as [[[]|e|] evs];
        cbn [fst] in *; (reflexivity || discriminate). }
    rewrite (scan_audit_month_ok m _ (Dirs (Files R))). reflexivity.
  - intros d Hin Hf.
    assert (N : fst (scan (audit_month m) (OS.entries m data_dir)) <> Ok tt).
    { intros R. specialize (Files R d Hin). congruence. }
    destruct (scan_audit_month_fails m N) as (p & Hp & Hpf & R).
    exists p. split; [exact Hp | split; [exact Hpf|]].
    destruct (scan (audit_month m) (OS.entries m data_dir)) as [[[]|e|] evs];
      cbn [fst] in *; (exact R || discriminate).
Qed.

Lemma audit_reports_empty_days_witness :
  OS.is_dir (fs audit_state) data_dir = true
  /\ day_entries (fs audit_state) = ["data/11_November/15"; "data/11_November/14"]
  /\ fst (perform_audit audit_state) = Ok tt
  /\ snd (perform_audit audit_state)
     = logged audit_state
         [Print "Empty directory: data/11_November/15"; Print "Audit complete"].
Proof.
  assert (D : OS.is_dir (fs audit_state) data_dir = true) by reflexivity.
  assert (E : day_entries (fs audit_state)
              = ["data/11_November/15"; "data/11_November/14"])
    by (vm_compute; reflexivity).
  destruct (audit_reports_empty_days audit_state D) as (A & B & _).
  assert (F : fst (perform_audit audit_state) = Ok tt).
  { apply A. rewrite E. intros d [<-|[<-|[]]]; vm_compute; reflexivity. }
  split; [exact D | split; [exact E | split; [exact F|]]].
  rewrite (B F). vm_compute. reflexivity.
Defined.

(** A regular file next to the day directories stops the audit. *)
Example audit_with_stray_file :
  fst (perform_audit stray_state)
  = Raise (OS.NotADirectoryError "data/11_November/notes.txt").
Proof. vm_compute. reflexivity. Qed.

(** The cache file in the data root is no directory and is passed over. *)
Example audit_skips_cache_file :
  In "submissions_urls.json" (OS.entries (fs audit_state) data_dir)
  /\ month_dirs (fs audit_state) = ["data/11_November"].
Proof. vm_compute. split; [|reflexivity]. tauto. Qed.

(** * Further properties of the script *)

(** ** The listing filter *)

Lemma prefix_split (p s : string) :
  String.prefix p s = true <-> exists b, s = p +:+ b.
Proof.
  revert s. induction p as [|a p IH]; intros s.
  - split; [intros _; now exists s | intros _; now destruct s].
  - destruct s as [|c s]; cbn [String.prefix].
    + split; [discriminate | intros [b H]; discriminate].
    + destruct (ascii_dec a c) as [->|N].
      * rewrite IH. split; intros [b H]; exists b.
        -- now rewrite append_cons, H.
        -- rewrite append_cons in H. now injection H.
      * split; [discriminate|]. intros [b H]. rewrite append_cons in H.
        injection H as H _. congruence.
Qed.

Lemma contains_split (p s : string) :
  Str.contains p s = true <-> exists a b, s = a +:+ p +:+ b.
Proof.
  induction s as [|c s IH]; cbn [Str.contains].
  - rewrite orb_false_r, prefix_split. split.
    + intros [b H]. now exists "", b.
    + intros (a & b & H). destruct a; [now exists b | discriminate].
  - rewrite orb_true_iff, prefix_split, IH. split.
    + intros [[b H]|(a & b & H)].
      * now exists "", b.
      * exists (String c a), b. now rewrite append_cons, H.
    + intros (a & b & H). destruct a as [|x a].
      * left. now exists b.
      * right. rewrite append_cons in H. injection H as _ H. now exists a, b.
Qed.

Lemma lower_append (a b : string) :
  Str.lower (a +:+ b) = Str.lower a +:+ Str.lower b.
Proof.
  induction a as [|x a IH]; [reflexivity|].
  rewrite append_cons. cbn [Str.lower]. now rewrite IH, append_cons.
Qed.

Lemma has_date_indicator_words (title : string) :
  has_date_indicator title = true
  <-> exists w, In w date_words /\ Str.contains w title = true.
Proof.
  unfold has_date_indicator, date_words.
  rewrite !orb_true_iff, !existsb_exists. split.
  - intros [[(w & I & C)|(w & I & C)]|C].
    + exists w. split; [|exact C]. apply in_or_app. now left.
    + exists w. split; [|exact C]. apply in_or_app. right. apply in_or_app. now left.
    + exists "today". split; [|exact C]. apply in_or_app. right.
      apply in_or_app. right. now left.
  - intros (w & I & C). apply in_app_or in I as [I|I]; [left; left; eauto|].
    apply in_app_or in I as [I|I]; [left; right; eauto|].
    destruct I as [<-|[]]. now right.
Qed.

(** X1: the title test is substring containment on the lowercased title.  A
    title passes exactly when its lowercase form has one of the twenty
    words somewhere inside it, so a word passes in any letter case and
    inside a longer word. *)
Theorem title_test_is_substring_search (title : string) :
  (has_date_indicator (Str.lower title) = true
   <-> exists a w b, In w date_words /\ Str.lower title = a +:+ w +:+ b)
  /\ (forall a w b,
        title = a +:+ w +:+ b -> In (Str.lower w) date_words ->
        has_date_indicator (Str.lower title) = true).
Proof.
  split.
  - rewrite has_date_indicator_words. split.
    + intros (w & I & C). apply contains_split in C as (a & b & E). now exists a, w, b.
    + intros (a & w & b & I & E). exists w. split; [exact I|].
      apply contains_split. now exists a, b.
  - intros a w b -> I. apply has_date_indicator_words.
    exists (Str.lower w). split; [exact I|]. apply contains_split.
    exists (Str.lower a), (Str.lower b). now rewrite !lower_append.
Qed.

Lemma title_test_is_substring_search_witness :
  In (Str.lower "MAY") date_words
  /\ has_date_indicator (Str.lower "Dismayed by the finale") = true.
Proof.
  assert (I : In (Str.lower "MAY") date_words) by (vm_compute; tauto).
  split; [exact I|].
  exact (proj2 (title_test_is_substring_search "Dismayed by the finale")
           "Dis" "may" "ed by the finale" eq_refl I).
Defined.

(** X2: a post whose link does not end in [jpg], [jpeg], [png] or [gif] is
    never in the output, whatever its title; when its title passed the
    first test, the not-an-image notice is printed for it. *)
Theorem image_suffix_is_required (up : upstream) (st : state) (s : Praw.Submission) :
  In s (listing up) ->
  is_image_url (Praw.url s) = false ->
  (forall p, In p (match fst (get_submissions up st) with Ok posts => posts | _ => [] end) ->
             DailyAnimePost.media_url p <> Praw.url s)
  /\ (has_date_indicator (Str.lower (Praw.title s)) = true ->
      In (Print (skip_image_notice s)) (trace (snd (get_submissions up st)))).
Proof.
  intros Hs Hu. rewrite get_submissions_returns. cbn [fst snd]. split.
  - intros p Hp E. apply in_posts_of_listing in Hp as (s' & _ & Hk & ->).
    cbn in E. unfold kept in Hk. apply andb_true_iff in Hk as [_ Hk]. congruence.
  - intros Ht. cbn [logged trace]. apply in_or_app. right. right.
    apply in_flat_map. exists s. split; [exact Hs|].
    unfold submission_events. rewrite Ht, Hu. now left.
Qed.

Lemma image_suffix_is_required_witness :
  In submission_video (listing upstream_example)
  /\ is_image_url (Praw.url submission_video) = false
  /\ In (Print "Skipping Monday because it's not an image")
        (trace (snd (get_submissions upstream_example empty_state))).
Proof.
  assert (I : In submission_video (listing upstream_example))
    by (right; right; left; reflexivity).
  split; [exact I | split; [reflexivity|]].
  exact (proj2 (image_suffix_is_required upstream_example empty_state
                  submission_video I eq_refl) eq_refl).
Defined.

(** X3: the output follows the feed.  When the feed is delivered in full,
    the listing returns one post per submission that passes both tests, in
    the order of the feed and without merging duplicates, with title, id,
    link and creation time copied and the permalink made absolute.  When a
    request of the feed fails, nothing handles it: the listing raises that
    exception once the submissions delivered before it were handled, and
    returns no post.  The file system is not touched either way. *)
Theorem listing_order_is_kept (feed : Praw.Feed) (st : state) :
  fs (snd (get_submissions_feed feed st)) = fs st
  /\ trace (snd (get_submissions_feed feed st))
     = trace st ++ Listing reddit_username :: flat_map submission_events (received feed)
  /\ (feed_failure feed = None ->
      exists posts,
        fst (get_submissions_feed feed st) = Ok posts
        /\ map DailyAnimePost.id posts = map Praw.id (List.filter kept (received feed))
        /\ map DailyAnimePost.title posts
           = map Praw.title (List.filter kept (received feed))
        /\ map DailyAnimePost.media_url posts
           = map Praw.url (List.filter kept (received feed))
        /\ map DailyAnimePost.created_utc posts
           = map Praw.created_utc (List.filter kept (received feed))
        /\ map DailyAnimePost.permalink posts
           = map (fun s => "https://www.reddit.com" +:+ Praw.permalink s)
               (List.filter kept (received feed)))
  /\ (forall e, feed_failure feed = Some e ->
        fst (get_submissions_feed feed st) = Raise e)
  /\ (forall l, feed = Praw.delivered l -> received feed = l /\ feed_failure feed = None).
Proof.
  rewrite get_submissions_feed_run. cbn [fst snd logged fs trace].
  split; [reflexivity | split; [reflexivity | split; [|split]]].
  - intros ->. eexists. split; [reflexivity|].
    unfold posts_of_listing. rewrite !map_map. repeat split; reflexivity.
  - now intros e ->.
  - intros l ->. split; [apply received_delivered | apply feed_failure_delivered].
Qed.

Lemma listing_order_is_kept_witness :
  fst (get_submissions_feed feed_refused empty_state)
  = Raise (Exn "ServerError" "received 503 HTTP response")
  /\ exists posts,
       fst (get_submissions upstream_example empty_state) = Ok posts
       /\ map DailyAnimePost.id posts = ["abc123"; "abc126"].
Proof.
  split.
  - exact (proj1 (proj2 (proj2 (proj2 (listing_order_is_kept feed_refused empty_state))))
             _ eq_refl).
  - destruct (proj1 (proj2 (proj2 (listing_order_is_kept
                (Praw.delivered (listing upstream_example)) empty_state))) eq_refl)
      as (posts & E & I & _).
    exists posts. split; [exact E | exact I].
Defined.

Lemma find_comment_prepend (pre : list Praw.Comment) (cs : Praw.Comments) :
  Forall (fun c => is_annotation c = false) pre ->
  comment_outcome (prepend pre cs) = comment_outcome cs.
Proof.
  induction 1 as [|c pre Hc _ IH]; [reflexivity|].
  cbn [prepend foldr comment_outcome]. now rewrite Hc.
Qed.

(** X4: the comment kept is the first one that the account wrote and that
    starts with an opening and ends with a closing brace.  The loop stops
    there: what the forest holds behind it, even a failing request, plays
    no part. *)
Theorem first_annotation_wins
    (s : Praw.Submission) (pre : list Praw.Comment) (c : Praw.Comment)
    (rest : Praw.Comments) (st : state) :
  Praw.comments s = prepend pre (Praw.Next c rest) ->
  Forall (fun x => is_annotation x = false) pre ->
  is_annotation c = true ->
  lookup_comment s st
  = (Ok (Some (Praw.body c)),
     logged st [Print "Checking for comment..."; Sleep 1;
                LoadComments (Praw.id s);
                Print ("Found comment: " +:+ Praw.body c)]).
Proof.
  intros E Hpre Hc. rewrite lookup_comment_returns. unfold kept_comment.
  rewrite E, (find_comment_prepend pre _ Hpre). cbn [comment_outcome].
  now rewrite Hc.
Qed.

Lemma first_annotation_wins_witness :
  lookup_comment submission_late_failure empty_state
  = (Ok (Some "{source}"),
     logged empty_state [Print "Checking for comment..."; Sleep 1;
                         LoadComments "abc127"; Print "Found comment: {source}"]).
Proof.
  assert (F : Forall (fun x => is_annotation x = false) [chatter])
    by (constructor; [reflexivity | constructor]).
  exact (first_annotation_wins submission_late_failure [chatter] annotation
           (Praw.Fails (Exn "ServerError" "received 500 HTTP response"))
           empty_state eq_refl F eq_refl).
Defined.

Lemma comment_outcome_is_annotation (cs : Praw.Comments) (text : string) :
  comment_outcome cs = Ok (Some text) ->
  exists c, is_annotation c = true /\ Praw.body c = text.
Proof.
  induction cs as [|e|c rest IH]; cbn [comment_outcome]; try discriminate.
  destruct (is_annotation c) eqn:A; [|exact IH].
  intros [= <-]. now exists c.
Qed.

(** X5: every post the listing filter returns has a title with a date word
    and a link with an image suffix, an absolute permalink, and a first
    comment that is either absent or a non-empty text in braces. *)
Theorem returned_posts_are_well_formed
    (up : upstream) (st : state) (posts : list DailyAnimePost.t) (p : DailyAnimePost.t) :
  fst (get_submissions up st) = Ok posts ->
  In p posts ->
  has_date_indicator (Str.lower (DailyAnimePost.title p)) = true
  /\ is_image_url (DailyAnimePost.media_url p) = true
  /\ Str.startswith (DailyAnimePost.permalink p) "https://www.reddit.com" = true
  /\ (forall text, DailyAnimePost.first_comment p = Some text ->
        text <> ""
        /\ Str.startswith text "{" = true /\ Str.endswith text "}" = true).
Proof.
  rewrite get_submissions_returns. cbn [fst]. intros [= <-] Hp.
  apply in_posts_of_listing in Hp as (s & _ & Hk & ->).
  unfold kept in Hk. apply andb_true_iff in Hk as [Ht Hu]. cbn.
  split; [exact Ht | split; [exact Hu | split]].
  - apply prefix_split. now eexists.
  - intros text E. unfold kept_comment in E.
    destruct (comment_outcome (Praw.comments s)) as [o| |] eqn:O; try discriminate.
    subst o. apply comment_outcome_is_annotation in O as (c & A & <-).
    unfold is_annotation in A. apply andb_true_iff in A as [A Hend].
    apply andb_true_iff in A as [_ Hstart].
    split; [|now split]. intros N. rewrite N in Hstart. discriminate.
Qed.

Lemma returned_posts_are_well_formed_witness :
  let p := make_post submission_kept (Some "{source}") in
  has_date_indicator (Str.lower (DailyAnimePost.title p)) = true
  /\ is_image_url (DailyAnimePost.media_url p) = true
  /\ Str.startswith (DailyAnimePost.permalink p) "https://www.reddit.com" = true
  /\ (forall text, DailyAnimePost.first_comment p = Some text ->
        text <> ""
        /\ Str.startswith text "{" = true /\ Str.endswith text "}" = true).
Proof.
  exact (returned_posts_are_well_formed upstream_example empty_state
           [make_post submission_kept (Some "{source}"); make_post submission_429 None]
           (make_post submission_kept (Some "{source}"))
           eq_refl (or_introl eq_refl)).
Defined.

Lemma count_events_app (f : event -> bool) (a b : list event) :
  count_events f (a ++ b) = (count_events f a + count_events f b)%nat.
Proof. unfold count_events. now rewrite List.filter_app, length_app. Qed.

Lemma submission_events_counts (s : Praw.Submission) :
  let n := if kept s then 1%nat else 0%nat in
  count_events is_sleep (submission_events s) = n
  /\ count_events is_load_comments (submission_events s) = n
  /\ count_events is_listing (submission_events s) = 0%nat
  /\ count_events is_http_get (submission_events s) = 0%nat.
Proof.
  unfold submission_events, kept.
  destruct (has_date_indicator _); cbn [negb andb]; [|repeat split].
  destruct (is_image_url _); cbn [negb]; [|repeat split].
  pose proof (comment_outcome_typed (Praw.comments s)) as T.
  destruct (comment_outcome (Praw.comments s)) as [[c|]|e|];
    [| | |contradiction]; repeat split.
Qed.

(** X6: the listing filter asks for the feed once, and for every post it
    keeps it pauses one second and asks for the comments once; a skipped
    post costs no pause and no request, and no image is fetched at this
    stage. *)
Theorem one_pause_per_comment_request (up : upstream) (st : state) :
  exists posts evs,
    get_submissions up st = (Ok posts, logged st evs)
    /\ count_events is_listing evs = 1%nat
    /\ count_events is_sleep evs = length posts
    /\ count_events is_load_comments evs = length posts
    /\ count_events is_http_get evs = 0%nat.
Proof.
  eexists _, _. split; [apply get_submissions_returns|].
  unfold posts_of_listing. rewrite length_map.
  change (Listing reddit_username :: ?l) with ([Listing reddit_username] ++ l).
  rewrite !count_events_app.
  induction (listing up) as [|s l (I1 & I2 & I3 & I4)]; [repeat split|].
  cbn [flat_map List.filter]. rewrite !count_events_app.
  destruct (submission_events_counts s) as (C1 & C2 & C3 & C4).
  rewrite C1, C2, C3, C4. cbn zeta.
  destruct (kept s); cbn [length]; repeat split; lia.
Qed.

(** ** The cache *)

Lemma lookup_key_None (k : string) (members : list (string * json)) :
  lookup_key k members = None
  <-> existsb (fun kv => String.eqb k (fst kv)) members = false.
Proof.
  induction members as [|[k' v] ms IH]; [easy|].
  cbn [lookup_key existsb fst]. destruct (String.eqb k k'); [easy | exact IH].
Qed.

Lemma lookup_key_not_in (k : string) (members : list (string * json)) :
  ~ In k (keys members) -> lookup_key k members = None.
Proof.
  induction members as [|[k' v] ms IH]; [reflexivity|].
  cbn [keys map fst In lookup_key]. intros N.
  destruct (String.eqb_spec k k') as [->|_]; [tauto|]. apply IH. tauto.
Qed.

(** X7: building a post from a dictionary fails with a [TypeError] as soon
    as a field name is missing among the keys or a key is no field name;
    so does building it from anything that is no dictionary. *)
Theorem kwargs_must_be_the_six_fields (s : json) :
  (forall members, s <> JObj members)
  \/ (exists members k, s = JObj members
        /\ ((In k field_names /\ lookup_key k members = None)
            \/ (In k (keys members) /\ ~ In k field_names))) ->
  exists msg, post_of_kwargs s = Raise (TypeError msg).
Proof.
  intros [N|(members & k & -> & [[I L]|[I N]])].
  - destruct s; try (eexists; reflexivity). now contradiction (N members).
  - cbn [post_of_kwargs].
    assert (F : forallb (fun k => existsb (fun kv => String.eqb k (fst kv)) members)
                  field_names = false).
    { apply not_true_is_false. intros T. rewrite forallb_forall in T.
      specialize (T k I). apply lookup_key_None in L. congruence. }
    rewrite F, andb_false_r. cbn [andb]. now eexists.
  - cbn [post_of_kwargs].
    assert (F : forallb (fun kv => existsb (String.eqb (fst kv)) field_names)
                  members = false).
    { apply not_true_is_false. intros T. rewrite forallb_forall in T.
      unfold keys in I. apply in_map_iff in I as (kv & <- & I).
      specialize (T kv I). apply existsb_exists in T as (f & If & E).
      apply String.eqb_eq in E. apply N. now rewrite E. }
    rewrite F. cbn [andb]. now eexists.
Qed.

Lemma kwargs_must_be_the_six_fields_witness :
  (exists msg, post_of_kwargs entry_without_comment = Raise (TypeError msg))
  /\ (exists msg, post_of_kwargs entry_with_stray_key = Raise (TypeError msg)).
Proof.
  split.
  - apply kwargs_must_be_the_six_fields. right.
    eexists _, "first_comment". split; [reflexivity|]. left.
    split; [vm_compute; tauto | reflexivity].
  - apply kwargs_must_be_the_six_fields. right.
    eexists _, "score". split; [reflexivity|]. right.
    split; [vm_compute; tauto|].
    vm_compute. intros H; repeat (destruct H as [H|H]; [discriminate|]); exact H.
Defined.

(** X8: a post built from a dictionary holds what the dictionary held: the
    dictionary has exactly six members, and under every key it has what
    the dictionary of the post has there.  Saving a loaded post writes the
    entry it was loaded from, up to the order of the keys. *)
Theorem loaded_post_keeps_the_entry (s : json) (p : DailyAnimePost.t) :
  post_of_kwargs s = Ok p ->
  exists members,
    s = JObj members
    /\ length members = 6%nat
    /\ forall k, lookup_key k members = json_member k (post_dict p).
Proof.
  destruct s as [| | | | |members]; try discriminate. cbn [post_of_kwargs].
  destruct (forallb (fun kv => existsb (String.eqb (fst kv)) field_names) members)
    eqn:Sub; [|discriminate].
  destruct (forallb _ field_names); [|discriminate].
  destruct (length members =? length field_names)%nat eqn:Len; [|discriminate].
  cbn [andb].
  destruct (lookup_key "title" members) as [a|] eqn:L1; [|discriminate].
  destruct (lookup_key "id" members) as [b|] eqn:L2; [|discriminate].
  destruct (lookup_key "permalink" members) as [c|] eqn:L3; [|discriminate].
  destruct (lookup_key "media_url" members) as [d|] eqn:L4; [|discriminate].
  destruct (lookup_key "created_utc" members) as [e|] eqn:L5; [|discriminate].
  destruct (lookup_key "first_comment" members) as [f|] eqn:L6; [|discriminate].
  destruct a; try discriminate. destruct b; try discriminate.
  destruct c; try discriminate. destruct d; try discriminate.
  destruct e; try discriminate. cbn [as_str as_int result_bind].
  intros H. exists members. split; [reflexivity|].
  split; [now apply Nat.eqb_eq in Len|]. intros k.
  destruct (in_dec String.string_dec k field_names) as [I|N].
  - destruct f; try discriminate; cbn in H; injection H as <-;
      cbn in I; repeat (destruct I as [<-|I]; [assumption|]); contradiction.
  - rewrite lookup_key_not_in.
    + destruct f; try discriminate; cbn in H; injection H as <-;
        cbn [json_member post_dict]; symmetry; apply lookup_key_not_in;
        exact N.
    + intros I. apply N. unfold keys in I. apply in_map_iff in I as (kv & <- & I).
      rewrite forallb_forall in Sub. specialize (Sub kv I).
      apply existsb_exists in Sub as (x & Ix & E). apply String.eqb_eq in E.
      now rewrite E.
Qed.

Lemma loaded_post_keeps_the_entry_witness :
  exists members,
    post_dict post_1700003600 = JObj members
    /\ length members = 6%nat
    /\ forall k, lookup_key k members = json_member k (post_dict post_1700003600).
Proof.
  exact (loaded_post_keeps_the_entry (post_dict post_1700003600) post_1700003600
           eq_refl).
Defined.

Lemma posts_of_items_needs_every_entry (items : list json) (s : json) :
  In s items -> (forall p, post_of_kwargs s <> Ok p) ->
  forall posts, posts_of_items items <> Ok posts.
Proof.
  induction items as [|x items IH]; [contradiction|].
  intros [->|I] N posts; cbn [posts_of_items].
  - destruct (post_of_kwargs s) as [p| |]; [now contradiction (N p) | discriminate ..].
  - destruct (post_of_kwargs x) as [p| |]; cbn [result_bind]; try discriminate.
    specialize (IH I N). destruct (posts_of_items items) as [ps| |];
      cbn [result_bind]; try discriminate. now contradiction (IH ps).
Qed.

Lemma load_submissions_urls_run (json_loads : string -> option json) (st : state) :
  load_submissions_urls json_loads st
  = match fs st !! submissions_urls_file with
    | Some (File text) =>
        match json_loads text with
        | Some submissions => (posts_of_document submissions, st)
        | None => (Raise JSONDecodeError, st)
        end
    | Some Dir => (Raise (OS.IsADirectoryError submissions_urls_file), st)
    | None => (Raise (OS.FileNotFoundError submissions_urls_file), st)
    end.
Proof.
  unfold load_submissions_urls. rewrite run_bind. unfold OS.read_file.
  destruct (fs st !! submissions_urls_file) as [[text|]|]; try reflexivity.
  destruct (json_loads text); reflexivity.
Qed.

Lemma as_str_raises (v : json) (e : exn) : as_str v <> Raise e.
Proof. destruct v; discriminate. Qed.

Lemma as_int_raises (v : json) (e : exn) : as_int v <> Raise e.
Proof. destruct v; discriminate. Qed.

Lemma as_optional_str_raises (v : json) (e : exn) : as_optional_str v <> Raise e.
Proof. destruct v; discriminate. Qed.

Lemma post_of_kwargs_raises (s : json) (e : exn) :
  post_of_kwargs s = Raise e -> exists msg, e = TypeError msg.
Proof.
  unfold post_of_kwargs. destruct s as [| | | |items|members];
    try (intros [= <-]; eexists; reflexivity).
  destruct (_ && _); [|intros [= <-]; eexists; reflexivity].
  destruct (lookup_key "title" members) as [a|];
    [|intros [= <-]; eexists; reflexivity].
  destruct (lookup_key "id" members) as [b|];
    [|intros [= <-]; eexists; reflexivity].
  destruct (lookup_key "permalink" members) as [c|];
    [|intros [= <-]; eexists; reflexivity].
  destruct (lookup_key "media_url" members) as [d|];
    [|intros [= <-]; eexists; reflexivity].
  destruct (lookup_key "created_utc" members) as [f|];
    [|intros [= <-]; eexists; reflexivity].
  destruct (lookup_key "first_comment" members) as [g|];
    [|intros [= <-]; eexists; reflexivity].
  destruct (as_str a) as [x1|e1|] eqn:E1; cbn [result_bind];
    [|now contradiction (as_str_raises a e1) | discriminate].
  destruct (as_str b) as [x2|e2|] eqn:E2; cbn [result_bind];
    [|now contradiction (as_str_raises b e2) | discriminate].
  destruct (as_str c) as [x3|e3|] eqn:E3; cbn [result_bind];
    [|now contradiction (as_str_raises c e3) | discriminate].
  destruct (as_str d) as [x4|e4|] eqn:E4; cbn [result_bind];
    [|now contradiction (as_str_raises d e4) | discriminate].
  destruct (as_int f) as [x5|e5|] eqn:E5; cbn [result_bind];
    [|now contradiction (as_int_raises f e5) | discriminate].
  destruct (as_optional_str g) as [x6|e6|] eqn:E6; cbn [result_bind];
    [discriminate | now contradiction (as_optional_str_raises g e6) | discriminate].
Qed.

(** With entries of the declared types only, the comprehension raises the
    [TypeError] of its first bad entry. *)
Lemma posts_of_items_raises (items : list json) (s : json) (e : exn) :
  In s items -> post_of_kwargs s = Raise e ->
  Forall (fun x => post_of_kwargs x <> Untyped) items ->
  exists msg, posts_of_items items = Raise (TypeError msg).
Proof.
  intros I R F. induction F as [|x items Hx _ IH]; [contradiction|].
  cbn [posts_of_items]. destruct (post_of_kwargs x) as [p|e'|] eqn:E.
  - destruct I as [->|I]; [congruence|].
    destruct (IH I) as [msg ->]. now exists msg.
  - destruct (post_of_kwargs_raises x e' E) as [msg ->]. now exists msg.
  - now contradiction Hx.
Qed.

(** X9: the cache is all or nothing.  When the initialiser raises for one
    entry of the cached list (the entry is no dictionary, or its keys are
    not the six field names), the load returns no list at all and [main]
    ends there: it does not return normally, processes no post (nothing is
    printed or requested) and changes no path but, at most, the data
    directory.  Where every entry holds values of the declared types, what
    ends the run is a [TypeError]. *)
Theorem one_bad_entry_stops_the_run
    (json_loads : string -> option json) (up : upstream) (st : state)
    (text : string) (items : list json) (s : json) (e : exn) :
  fs st !! submissions_urls_file = Some (File text) ->
  json_loads text = Some (JArr items) ->
  In s items ->
  post_of_kwargs s = Raise e ->
  (forall posts, fst (load_submissions_urls json_loads st) <> Ok posts)
  /\ fst (main json_loads up st) <> Ok tt
  /\ trace (snd (main json_loads up st)) = trace st
  /\ (forall q, q <> data_dir -> fs (snd (main json_loads up st)) !! q = fs st !! q)
  /\ (Forall (fun x => post_of_kwargs x <> Untyped) items ->
      exists msg,
        fst (load_submissions_urls json_loads st) = Raise (TypeError msg)
        /\ fst (main json_loads up st) = Raise (TypeError msg)).
Proof.
  intros Hf Hj Hs He.
  assert (Hn : forall p, post_of_kwargs s <> Ok p) by (intros p; rewrite He; discriminate).
  pose proof (posts_of_items_needs_every_entry items s Hs Hn) as B.
  pose proof (posts_of_items_raises items s e Hs He) as R.
  split.
  - intros posts. rewrite load_submissions_urls_run, Hf, Hj. cbn [fst posts_of_document].
    apply B.
  - rewrite main_with_cache by (rewrite Hf; eauto). rewrite !run_bind.
    rewrite !load_submissions_urls_run, Hf, Hj.
    destruct (ensure_data_dir_run st) as (m & -> & Hm).
    rewrite run_bind, load_submissions_urls_run. cbn [fs].
    rewrite (Hm submissions_urls_file cache_is_not_data_dir), Hf, Hj.
    cbn [posts_of_document].
    destruct (posts_of_items items) as [ps|e'|] eqn:P;
      [now contradiction (B ps) | |]; cbn [fst snd fs trace];
      (split; [discriminate | split; [reflexivity | split; [exact Hm|]]]).
    + intros F. destruct (R F) as [msg [= ->]]. exists msg. now split.
    + intros F. destruct (R F) as [msg E]. discriminate E.
Qed.

Lemma one_bad_entry_stops_the_run_witness :
  fst (main Json.loads upstream_example broken_cache_state) <> Ok tt
  /\ trace (snd (main Json.loads upstream_example broken_cache_state)) = []
  /\ exists msg,
       fst (main Json.loads upstream_example broken_cache_state) = Raise (TypeError msg).
Proof.
  assert (F : Forall (fun x => post_of_kwargs x <> Untyped)
                [post_dict post_1700000000; entry_without_comment])
    by (repeat constructor; discriminate).
  destruct (one_bad_entry_stops_the_run Json.loads upstream_example broken_cache_state
              (Json.dumps 4 (JArr [post_dict post_1700000000; entry_without_comment]))
              [post_dict post_1700000000; entry_without_comment] entry_without_comment
              (TypeError "__init__() got unexpected or missing arguments")
              (lookup_insert_eq _ _ _)
              (reference_codec_roundtrip 4 _)
              (or_intror (or_introl eq_refl)) eq_refl) as (_ & A & B & _ & C).
  split; [exact A | split; [exact B|]].
  destruct (C F) as (msg & _ & E). exists msg. exact E.
Defined.

Lemma parent_of_cache : Path.parent submissions_urls_file = data_dir.
Proof. reflexivity. Qed.

(** X10: saving replaces the cache as a whole.  Of two saves in a row only
    the second is left: the file holds the text of the second list, a load
    returns the second list, and no other path has changed. *)
Theorem save_replaces_the_cache
    (json_dumps : nat -> json -> string) (json_loads : string -> option json)
    (first second : list DailyAnimePost.t) (st : state) :
  (forall v, distinct_keys v = true -> json_loads (json_dumps 4%nat v) = Some v) ->
  OS.is_dir (fs st) submissions_urls_file = false ->
  OS.is_dir (fs st) data_dir = true ->
  exists st2,
    (save_submissions_urls json_dumps first;;
     save_submissions_urls json_dumps second) st = (Ok tt, st2)
    /\ fs st2 = <[submissions_urls_file
                  := File (json_dumps 4%nat (JArr (map post_dict second)))]> (fs st)
    /\ trace st2 = trace st
    /\ load_submissions_urls json_loads st2 = (Ok second, st2).
Proof.
  intros Hrt Hc Hd.
  assert (P : forall m, OS.is_dir m data_dir = true ->
                        OS.parent_ok m submissions_urls_file = true).
  { intros m H. unfold OS.parent_ok. rewrite parent_of_cache, H. apply orb_true_r. }
  eexists. split; [|split; [|split]].
  - rewrite run_bind. unfold save_submissions_urls.
    rewrite write_file_run by auto. apply write_file_run; cbn [fs].
    + unfold OS.is_dir. now rewrite lookup_insert_eq.
    + apply P. unfold OS.is_dir. rewrite lookup_insert_ne by discriminate. exact Hd.
  - cbn [fs]. apply insert_insert_eq.
  - reflexivity.
  - rewrite load_submissions_urls_run. cbn [fs]. rewrite lookup_insert_eq.
    rewrite Hrt by apply distinct_keys_document. cbn [posts_of_document].
    now rewrite posts_of_items_post_dict.
Qed.

Lemma save_replaces_the_cache_witness :
  exists st2,
    (save_submissions_urls Json.dumps [post_1731622400];;
     save_submissions_urls Json.dumps cached_posts) archive_state = (Ok tt, st2)
    /\ load_submissions_urls Json.loads st2 = (Ok cached_posts, st2).
Proof.
  destruct (save_replaces_the_cache Json.dumps Json.loads [post_1731622400]
              cached_posts archive_state
              (fun v _ => reference_codec_roundtrip 4 v) eq_refl eq_refl)
    as (st2 & A & _ & _ & B).
  exists st2. split; [exact A | exact B].
Defined.

(** X11: saving does not make the data directory.  Without it the save
    raises [FileNotFoundError] and leaves the state as it was; [main]
    makes the directory before anything else. *)
Theorem save_needs_the_data_directory
    (json_dumps : nat -> json -> string) (submissions : list DailyAnimePost.t)
    (st : state) :
  fs st !! data_dir = None ->
  fs st !! submissions_urls_file = None ->
  save_submissions_urls json_dumps submissions st
  = (Raise (OS.FileNotFoundError submissions_urls_file), st)
  /\ exists st1,
       ensure_dir data_dir st = (Ok tt, st1)
       /\ fst (save_submissions_urls json_dumps submissions st1) = Ok tt.
Proof.
  intros Hd Hc. split.
  - unfold save_submissions_urls, OS.write_file, OS.parent_ok, OS.is_dir.
    rewrite Hc, parent_of_cache, Hd. cbn [orb negb String.eqb].
    change (Path.ancestors submissions_urls_file) with [data_dir].
    cbn [existsb]. unfold OS.is_file. now rewrite Hd.
  - unfold ensure_dir. rewrite run_bind. unfold OS.path_exists.
    rewrite bool_decide_eq_false_2 by (rewrite Hd; intros [? ?]; discriminate).
    cbn [negb]. unfold OS.makedirs.
    rewrite bool_decide_eq_false_2 by (rewrite Hd; intros [? ?]; discriminate).
    rewrite ancestors_data_dir. cbn [existsb app foldr].
    eexists. split; [reflexivity|].
    unfold save_submissions_urls. rewrite write_file_run; [reflexivity| |]; cbn [fs].
    + unfold OS.is_dir. rewrite lookup_insert_ne by discriminate. now rewrite Hc.
    + unfold OS.parent_ok, OS.is_dir. rewrite parent_of_cache, lookup_insert_eq.
      apply orb_true_r.
Qed.

Lemma save_needs_the_data_directory_witness :
  save_submissions_urls Json.dumps cached_posts empty_state
  = (Raise (OS.FileNotFoundError "data/submissions_urls.json"), empty_state).
Proof.
  exact (proj1 (save_needs_the_data_directory Json.dumps cached_posts empty_state
                  eq_refl eq_refl)).
Defined.

(** ** What a run leaves in place *)

Lemma stable_refl (m : gmap string node) : stable m m.
Proof. intros p. now split. Qed.

Lemma stable_trans (m1 m2 m3 : gmap string node) :
  stable m1 m2 -> stable m2 m3 -> stable m1 m3.
Proof.
  intros A B p. destruct (A p) as [A1 A2], (B p) as [B1 B2]. split; auto.
Qed.

Lemma is_Some_kind (m : gmap string node) (p : string) :
  is_Some (m !! p) <-> OS.is_dir m p = true \/ OS.is_file m p = true.
Proof.
  unfold OS.is_dir, OS.is_file. destruct (m !! p) as [[d|]|]; split.
  - now right.
  - intros _. now eexists.
  - now left.
  - intros _. now eexists.
  - intros [? ?]. discriminate.
  - intros [?|?]; discriminate.
Qed.

Lemma stable_is_Some (m m' : gmap string node) (p : string) :
  stable m m' -> is_Some (m !! p) -> is_Some (m' !! p).
Proof.
  intros S H. apply is_Some_kind. apply is_Some_kind in H.
  destruct (S p) as [D F]. destruct H; [left | right]; auto.
Qed.

Lemma stable_insert_dirs (m : gmap string node) (ds : list string) :
  Forall (fun d => OS.is_file m d = false) ds ->
  stable m (foldr (fun d m' => <[d := Dir]> m') m ds).
Proof.
  induction 1 as [|d ds Hd _ IH]; [apply stable_refl|].
  cbn [foldr]. intros p. destruct (IH p) as [ID IF].
  unfold OS.is_dir, OS.is_file in *.
  destruct (decide (d = p)) as [->|N].
  - rewrite lookup_insert_eq. split; [reflexivity|]. intros F. congruence.
  - rewrite lookup_insert_ne by exact N. now split.
Qed.

Lemma stable_insert_file (m : gmap string node) (p data : string) :
  OS.is_dir m p = false -> stable m (<[p := File data]> m).
Proof.
  intros H q. unfold OS.is_dir, OS.is_file in *.
  destruct (decide (p = q)) as [->|N].
  - rewrite lookup_insert_eq. split; [congruence | reflexivity].
  - rewrite lookup_insert_ne by exact N. now split.
Qed.

Lemma keeps_kinds_same_fs {A} (c : M A) :
  (forall st, fs (snd (c st)) = fs st) -> keeps_kinds c.
Proof. intros H st. rewrite H. apply stable_refl. Qed.

Lemma keeps_kinds_bind {A B} (c : M A) (k : A -> M B) :
  keeps_kinds c -> (forall a, keeps_kinds (k a)) -> keeps_kinds (c ≫= k).
Proof.
  intros Hc Hk st. rewrite run_bind. specialize (Hc st).
  destruct (c st) as [[a|e|] st1]; cbn [snd] in *; try exact Hc.
  eapply stable_trans; [exact Hc | apply Hk].
Qed.

Lemma keeps_kinds_for_each {A} (l : list A) (body : A -> M unit) :
  (forall x, keeps_kinds (body x)) -> keeps_kinds (for_each l body).
Proof.
  intros H. induction l as [|x l IH]; cbn [for_each].
  - now apply keeps_kinds_same_fs.
  - apply keeps_kinds_bind; [apply H | intros _; exact IH].
Qed.

Lemma keeps_kinds_makedirs (p : string) : keeps_kinds (OS.makedirs p).
Proof.
  intros st. unfold OS.makedirs.
  destruct (bool_decide (is_Some (fs st !! p))) eqn:E; [apply stable_refl|].
  destruct (existsb (OS.is_file (fs st)) (Path.ancestors p)) eqn:X;
    [apply stable_refl|]. cbn [snd fs].
  apply stable_insert_dirs. apply Forall_app. split.
  - apply List.Forall_forall. intros d Hd.
    destruct (OS.is_file (fs st) d) eqn:F; [|reflexivity].
    assert (existsb (OS.is_file (fs st)) (Path.ancestors p) = true)
      by (apply existsb_exists; eauto). congruence.
  - constructor; [|constructor]. apply bool_decide_eq_false_1 in E.
    unfold OS.is_file. destruct (fs st !! p); [|reflexivity].
    exfalso. apply E. now eexists.
Qed.

Lemma keeps_kinds_write_file (p data : string) : keeps_kinds (OS.write_file p data).
Proof.
  intros st. unfold OS.write_file.
  destruct (OS.is_dir (fs st) p) eqn:D; [apply stable_refl|].
  destruct (negb _); [apply stable_refl|]. cbn [snd fs].
  now apply stable_insert_file.
Qed.

Lemma keeps_kinds_ensure_dir (d : string) : keeps_kinds (ensure_dir d).
Proof.
  apply keeps_kinds_bind; [now apply keeps_kinds_same_fs|].
  intros []; [now apply keeps_kinds_same_fs | apply keeps_kinds_makedirs].
Qed.

Lemma keeps_kinds_download_image (up : upstream) (s : DailyAnimePost.t) (d : string) :
  keeps_kinds (download_image up s d).
Proof.
  apply keeps_kinds_bind; [now apply keeps_kinds_same_fs|].
  intros []; [now apply keeps_kinds_same_fs|].
  apply keeps_kinds_bind; [|intros; apply keeps_kinds_write_file].
  apply keeps_kinds_bind; [|intros]; now apply keeps_kinds_same_fs.
Qed.

Lemma keeps_kinds_save_comment (s : DailyAnimePost.t) (d : string) :
  keeps_kinds (save_comment s d).
Proof.
  unfold save_comment.
  destruct (DailyAnimePost.first_comment s) as [[|a c]|];
    [now apply keeps_kinds_same_fs | apply keeps_kinds_write_file
    | now apply keeps_kinds_same_fs].
Qed.

Lemma keeps_kinds_process (up : upstream) (s : DailyAnimePost.t) :
  keeps_kinds (process up s).
Proof.
  destruct (post_date s) as [dt|] eqn:D.
  - rewrite (process_run up s dt D).
    apply keeps_kinds_bind; [now apply keeps_kinds_same_fs | intros _].
    apply keeps_kinds_bind; [apply keeps_kinds_ensure_dir | intros _].
    apply keeps_kinds_bind; [apply keeps_kinds_ensure_dir | intros _].
    apply keeps_kinds_bind; [apply keeps_kinds_download_image | intros _].
    apply keeps_kinds_save_comment.
  - unfold process. unfold post_date in D. rewrite D.
    apply keeps_kinds_bind; [|intros _]; now apply keeps_kinds_same_fs.
Qed.

Lemma keeps_kinds_load (json_loads : string -> option json) :
  keeps_kinds (load_submissions_urls json_loads).
Proof.
  apply keeps_kinds_same_fs. intros st. rewrite load_submissions_urls_run.
  destruct (fs st !! submissions_urls_file) as [[text|]|]; try reflexivity.
  destruct (json_loads text); reflexivity.
Qed.

Lemma keeps_kinds_get_submissions (up : upstream) : keeps_kinds (get_submissions up).
Proof.
  apply keeps_kinds_same_fs. intros st. now rewrite get_submissions_returns.
Qed.

(** X12: no run of [main] removes anything.  Whatever the feed, the cache
    and the outcome of the run, every path that was a directory before is
    a directory afterwards and every path that was a file is a file. *)
Theorem main_removes_nothing
    (json_loads : string -> option json) (up : upstream) (st : state) (p : string) :
  (OS.is_dir (fs st) p = true -> OS.is_dir (fs (snd (main json_loads up st))) p = true)
  /\ (OS.is_file (fs st) p = true -> OS.is_file (fs (snd (main json_loads up st))) p = true)
  /\ (is_Some (fs st !! p) -> is_Some (fs (snd (main json_loads up st)) !! p)).
Proof.
  assert (K : keeps_kinds (main json_loads up)).
  { unfold main.
    apply keeps_kinds_bind; [now apply keeps_kinds_same_fs | intros e].
    apply keeps_kinds_bind;
      [destruct e; [now apply keeps_kinds_same_fs | apply keeps_kinds_makedirs]
      | intros _].
    apply keeps_kinds_bind; [now apply keeps_kinds_same_fs | intros c].
    apply keeps_kinds_bind;
      [destruct c; [apply keeps_kinds_load | apply keeps_kinds_get_submissions]
      | intros l].
    apply keeps_kinds_for_each. intros s. apply keeps_kinds_process. }
  destruct (K st p) as [D F]. split; [exact D | split; [exact F|]].
  apply stable_is_Some. apply K.
Qed.

(** ** Running again *)

Lemma lookup_insert_dirs (m : gmap string node) (ds : list string) (d : string) :
  In d ds -> foldr (fun d m' => <[d := Dir]> m') m ds !! d = Some Dir.
Proof.
  induction ds as [|x ds IH]; [contradiction|]. cbn [foldr].
  destruct (decide (x = d)) as [->|N]; [intros _; apply lookup_insert_eq|].
  intros [E|I]; [contradiction|]. rewrite lookup_insert_ne by exact N. now apply IH.
Qed.

Lemma ensure_dir_exists (d : string) (st st' : state) :
  ensure_dir d st = (Ok tt, st') -> is_Some (fs st' !! d).
Proof.
  unfold ensure_dir. rewrite run_bind. unfold OS.path_exists.
  destruct (bool_decide (is_Some (fs st !! d))) eqn:E; cbn [negb].
  - intros [= <-]. now apply bool_decide_eq_true_1 in E.
  - unfold OS.makedirs. rewrite E.
    destruct (existsb _ _); [discriminate|]. intros [= <-]. cbn [fs].
    rewrite lookup_insert_dirs; [now eexists|]. apply in_or_app. right. now left.
Qed.

Lemma ensure_dir_noop (d : string) (st : state) :
  is_Some (fs st !! d) -> ensure_dir d st = (Ok tt, st).
Proof.
  intros H. unfold ensure_dir. rewrite run_bind. unfold OS.path_exists.
  now rewrite bool_decide_eq_true_2 by exact H.
Qed.

Lemma download_image_exists (up : upstream) (s : DailyAnimePost.t) (d : string)
    (st st' : state) :
  download_image up s d st = (Ok tt, st') -> is_Some (fs st' !! image_filename d s).
Proof.
  rewrite download_image_run.
  destruct (fs st !! image_filename d s) as [n|] eqn:E.
  - intros [= <-]. rewrite E. now eexists.
  - cbn zeta. destruct (http up (DailyAnimePost.media_url s)); try discriminate.
    intros H. apply write_file_ok_inv in H. subst st'. cbn [fs].
    rewrite lookup_insert_eq. now eexists.
Qed.

Lemma keeps_kinds_run {A} (c : M A) (st st' : state) (r : result A) :
  keeps_kinds c -> c st = (r, st') -> stable (fs st) (fs st').
Proof. intros K E. specialize (K st). now rewrite E in K. Qed.

Lemma parent_ok_insert_file (m : gmap string node) (p data : string) :
  OS.is_dir m p = false -> OS.parent_ok m p = true ->
  OS.parent_ok (<[p := File data]> m) p = true.
Proof.
  unfold OS.parent_ok. intros D P. apply orb_true_iff in P as [P|P].
  - now rewrite P.
  - rewrite (proj1 (stable_insert_file m p data D (Path.parent p)) P).
    apply orb_true_r.
Qed.

Lemma settled_stable (m m' : gmap string node) (s : DailyAnimePost.t) :
  stable m m' -> settled m s -> settled m' s.
Proof.
  intros S (dt & D & A & B & C & E). exists dt.
  repeat (split; [eauto using stable_is_Some|]).
  destruct (DailyAnimePost.first_comment s) as [[|a c]|]; try exact I.
  destruct E as [F P]. split; [now apply S|].
  unfold OS.parent_ok in *. apply orb_true_iff in P as [P|P].
  - now rewrite P.
  - rewrite (proj1 (S _) P). apply orb_true_r.
Qed.

(** A post that was processed is archived. *)
Lemma process_settles (up : upstream) (s : DailyAnimePost.t) (st st' : state) :
  process up s st = (Ok tt, st') -> settled (fs st') s.
Proof.
  destruct (post_date s) as [dt|] eqn:D.
  - rewrite (process_run up s dt D). intros H.
    apply bind_ok_inv in H as (_ & sa & _ & H).
    apply bind_ok_inv in H as ([] & sb & Hb & H).
    apply bind_ok_inv in H as ([] & sc & Hc & H).
    apply bind_ok_inv in H as ([] & sd & Hd & H).
    pose proof (keeps_kinds_run _ _ _ _ (keeps_kinds_ensure_dir _) Hc) as Sbc.
    pose proof (keeps_kinds_run _ _ _ _ (keeps_kinds_download_image _ _ _) Hd) as Scd.
    pose proof (keeps_kinds_run _ _ _ _ (keeps_kinds_save_comment _ _) H) as Sde.
    exists dt. split; [exact D|].
    split; [|split; [|split]].
    + eapply stable_is_Some; [exact Sde|]. eapply stable_is_Some; [exact Scd|].
      eapply stable_is_Some; [exact Sbc|]. now apply ensure_dir_exists in Hb.
    + eapply stable_is_Some; [exact Sde|]. eapply stable_is_Some; [exact Scd|].
      now apply ensure_dir_exists in Hc.
    + eapply stable_is_Some; [exact Sde|]. now apply download_image_exists in Hd.
    + unfold save_comment in H.
      fold (comment_filename (day_dir_of dt) s) in H.
      destruct (DailyAnimePost.first_comment s) as [[|a c]|]; try exact I.
      unfold OS.write_file in H.
      destruct (OS.is_dir (fs sd) _) eqn:Dir; [discriminate|].
      destruct (OS.parent_ok (fs sd) _) eqn:P; [|discriminate]. cbn [negb] in H.
      injection H as <-. cbn [fs]. split.
      * unfold OS.is_file. now rewrite lookup_insert_eq.
      * now apply parent_ok_insert_file.
  - unfold process. unfold post_date in D. rewrite D, run_print. discriminate.
Qed.

(** Processing an archived post prints its line and, at most, writes its
    comment again. *)
Lemma process_settled (up : upstream) (s : DailyAnimePost.t) (st : state) :
  settled (fs st) s ->
  exists dt,
    post_date s = Some dt
    /\ process up s st
       = (Ok tt,
          mkstate match DailyAnimePost.first_comment s with
                  | Some (String a c) =>
                      <[comment_filename (day_dir_of dt) s := File (String a c)]> (fs st)
                  | _ => fs st
                  end
                  (trace st ++ [processing_notice s])).
Proof.
  intros (dt & D & A & B & C & E). exists dt. split; [exact D|].
  rewrite (process_run up s dt D), run_print.
  rewrite run_bind, ensure_dir_noop by exact A.
  rewrite run_bind, ensure_dir_noop by exact B.
  rewrite run_bind, download_image_run. cbn [logged fs].
  destruct C as [n ->]. unfold save_comment.
  fold (comment_filename (day_dir_of dt) s).
  destruct (DailyAnimePost.first_comment s) as [[|a c]|]; try reflexivity.
  destruct E as [F P]. rewrite write_file_run; [reflexivity| |exact P].
  cbn [logged fs]. unfold OS.is_file, OS.is_dir in *.
  now destruct (fs st !! comment_filename (day_dir_of dt) s) as [[?|]|].
Qed.

(** After the processing of a post with a comment, its comment file holds
    the comment. *)
Lemma comment_file_written_aux (up : upstream) (s : DailyAnimePost.t) (st st1 : state) :
  process up s st = (Ok tt, st1) ->
  exists dt,
    post_date s = Some dt
    /\ match DailyAnimePost.first_comment s with
       | Some (String a c) =>
           fs st1 !! comment_filename (day_dir_of dt) s = Some (File (String a c))
       | _ => True
       end.
Proof.
  intros H. apply process_ok_inv in H as (dt & st0 & sd & D & _ & C).
  exists dt. split; [exact D|]. unfold save_comment in C.
  fold (comment_filename (day_dir_of dt) s) in C.
  destruct (DailyAnimePost.first_comment s) as [[|a c]|]; try exact I.
  apply write_file_ok_inv in C. subst st1. cbn [fs]. apply lookup_insert_eq.
Qed.

(** X13: processing is idempotent.  After a post was processed, processing
    it again, with whatever upstream, returns, prints its line and leaves
    the file system exactly as it is: the directories are found, the image
    is found and not requested, the comment is written again unchanged. *)
Theorem process_is_idempotent
    (up up' : upstream) (s : DailyAnimePost.t) (st st1 : state) :
  process up s st = (Ok tt, st1) ->
  process up' s st1
  = (Ok tt, mkstate (fs st1) (trace st1 ++ [processing_notice s])).
Proof.
  intros H. pose proof (process_settles up s st st1 H) as S.
  destruct (process_settled up' s st1 S) as (dt & D & ->).
  destruct (comment_file_written_aux up s st st1 H) as (dt' & D' & W).
  rewrite D in D'. injection D' as <-.
  destruct (DailyAnimePost.first_comment s) as [[|a c]|]; try reflexivity.
  now rewrite insert_id by exact W.
Qed.

Lemma process_is_idempotent_witness :
  let st1 := snd (process upstream_example post_1700000000 stale_state) in
  process upstream_example post_1700000000 stale_state = (Ok tt, st1)
  /\ process (offline upstream_example) post_1700000000 st1
     = (Ok tt, mkstate (fs st1) (trace st1 ++ [processing_notice post_1700000000])).
Proof.
  intros st1.
  assert (P : process upstream_example post_1700000000 stale_state = (Ok tt, st1))
    by (vm_compute; reflexivity).
  split; [exact P|].
  exact (process_is_idempotent upstream_example (offline upstream_example)
           post_1700000000 stale_state st1 P).
Defined.

Lemma for_each_ok_inv {A} (x : A) (l : list A) (body : A -> M unit) (st st' : state) :
  for_each (x :: l) body st = (Ok tt, st') ->
  exists st1, body x st = (Ok tt, st1) /\ for_each l body st1 = (Ok tt, st').
Proof.
  cbn [for_each]. intros H. apply bind_ok_inv in H as ([] & st1 & B & R). eauto.
Qed.

(** After a pass over some posts that returned, they are all archived. *)
Lemma first_pass_settles (up : upstream) (l : list DailyAnimePost.t) :
  forall st st',
    for_each l (process up) st = (Ok tt, st') -> Forall (settled (fs st')) l.
Proof.
  induction l as [|s l IH]; intros st st' H; [constructor|].
  apply for_each_ok_inv in H as (st1 & B & R). constructor; [|eapply IH; exact R].
  eapply settled_stable; [|eapply process_settles; exact B].
  eapply keeps_kinds_run; [|exact R].
  apply keeps_kinds_for_each. intros x. apply keeps_kinds_process.
Qed.

(** A pass over archived posts returns and prints one line per post. *)
Lemma second_pass_prints (up : upstream) (l : list DailyAnimePost.t) :
  forall st,
    Forall (settled (fs st)) l ->
    exists st',
      for_each l (process up) st = (Ok tt, st')
      /\ trace st' = trace st ++ map processing_notice l
      /\ stable (fs st) (fs st').
Proof.
  induction l as [|s l IH]; intros st F.
  - exists st. cbn. rewrite app_nil_r. repeat split; apply stable_refl.
  - inversion F as [|? ? Hs Hl]; subst.
    destruct (process_settled up s st Hs) as (dt & D & P).
    pose proof (keeps_kinds_run _ _ _ _ (keeps_kinds_process up s) P) as S.
    cbn [fs] in S.
    match type of P with _ = (_, ?s1) => set (st1 := s1) in * end.
    assert (F1 : Forall (settled (fs st1)) l).
    { eapply Forall_impl; [exact Hl|]. intros x Hx.
      eapply settled_stable; [exact S | exact Hx]. }
    destruct (IH st1 F1) as (st' & R & T & S').
    exists st'. split; [|split].
    + cbn [for_each]. rewrite run_bind, P. exact R.
    + rewrite T. subst st1. cbn [trace map]. now rewrite <- app_assoc.
    + eapply stable_trans; [exact S | exact S'].
Qed.

Lemma count_http_get_notices (l : list DailyAnimePost.t) :
  count_events is_http_get (map processing_notice l) = 0%nat.
Proof. induction l as [|s l IH]; [reflexivity | exact IH]. Qed.

Lemma count_http_get_listing (l : list Praw.Submission) :
  count_events is_http_get (flat_map submission_events l) = 0%nat.
Proof.
  induction l as [|s l IH]; [reflexivity|]. cbn [flat_map].
  rewrite count_events_app, IH.
  now destruct (submission_events_counts s) as (_ & _ & _ & ->).
Qed.

Lemma count_listing_submissions (l : list Praw.Submission) :
  count_events is_listing (flat_map submission_events l) = 0%nat.
Proof.
  induction l as [|s l IH]; [reflexivity|]. cbn [flat_map].
  rewrite count_events_app, IH.
  now destruct (submission_events_counts s) as (_ & _ & -> & _).
Qed.

Lemma count_listing_notices (l : list DailyAnimePost.t) :
  count_events is_listing (map processing_notice l) = 0%nat.
Proof. induction l as [|s l IH]; [reflexivity | exact IH]. Qed.

(** X14: a run that follows a run fetches no image.  After a first run
    without cache that returned, a second run on what it left, over the
    same feed, returns as well and makes no image request at all: it would
    do with an image server that is down.  (It does ask for the feed
    again, since the first run left no cache.) *)
Theorem second_run_fetches_no_image
    (json_loads : string -> option json) (up : upstream) (st st1 : state) :
  fs st !! submissions_urls_file = None ->
  main json_loads up st = (Ok tt, st1) ->
  exists st2 evs,
    main json_loads (offline up) st1 = (Ok tt, st2)
    /\ trace st2 = trace st1 ++ evs
    /\ count_events is_http_get evs = 0%nat
    /\ count_events is_listing evs = 1%nat.
Proof.
  intros Hc H1.
  assert (Hc1 : fs st1 !! submissions_urls_file = None).
  { pose proof (main_never_creates_cache json_loads up st Hc) as N.
    now rewrite H1 in N. }
  rewrite (main_without_cache json_loads up st Hc) in H1.
  apply bind_ok_inv in H1 as ([] & sa & Ha & H1).
  apply bind_ok_inv in H1 as (posts & sb & Hb & H1).
  rewrite get_submissions_returns in Hb. injection Hb as <- <-.
  pose proof (first_pass_settles up _ _ _ H1) as F.
  pose proof (keeps_kinds_run _ _ _ _
                (keeps_kinds_for_each _ _ (keeps_kinds_process up)) H1) as S.
  cbn [logged fs] in S.
  assert (D : is_Some (fs st1 !! data_dir)).
  { exact (stable_is_Some _ _ _ S (ensure_dir_exists _ _ _ Ha)). }
  rewrite (main_without_cache json_loads (offline up) st1 Hc1).
  rewrite run_bind, (ensure_dir_noop _ _ D), run_bind, get_submissions_returns.
  cbn [offline listing].
  destruct (second_pass_prints (offline up) (posts_of_listing (listing up))
              (logged st1 (Listing reddit_username
                           :: flat_map submission_events (listing up))) F)
    as (st2 & R & T & _).
  exists st2, ((Listing reddit_username :: flat_map submission_events (listing up))
               ++ map processing_notice (posts_of_listing (listing up))).
  split; [exact R | split; [|split]].
  - rewrite T. cbn [logged trace]. now rewrite <- app_assoc.
  - change (Listing reddit_username :: ?l) with ([Listing reddit_username] ++ l).
    rewrite !count_events_app, count_http_get_listing, count_http_get_notices.
    reflexivity.
  - change (Listing reddit_username :: ?l) with ([Listing reddit_username] ++ l).
    rewrite !count_events_app.
    pose proof (count_listing_submissions (listing up)) as Z1.
    pose proof (count_listing_notices (posts_of_listing (listing up))) as Z2.
    rewrite Z1, Z2. reflexivity.
Qed.

Lemma second_run_fetches_no_image_witness :
  let st1 := snd (main Json.loads upstream_example empty_state) in
  main Json.loads upstream_example empty_state = (Ok tt, st1)
  /\ exists st2 evs,
       main Json.loads (offline upstream_example) st1 = (Ok tt, st2)
       /\ trace st2 = trace st1 ++ evs
       /\ count_events is_http_get evs = 0%nat
       /\ count_events is_listing evs = 1%nat.
Proof.
  intros st1.
  assert (P : main Json.loads upstream_example empty_state = (Ok tt, st1))
    by (vm_compute; reflexivity).
  split; [exact P|].
  exact (second_run_fetches_no_image Json.loads upstream_example empty_state st1
           eq_refl P).
Defined.

(** ** One post *)

(** X15: processing a post can only touch the directories of its date (with
    their ancestors), its image file and its comment file; every other
    path is left as it was, whatever the outcome.  A post whose timestamp
    has no date is given up with an exception after its line is printed,
    and nothing is written for it. *)
Theorem process_touches_only_its_paths
    (up : upstream) (s : DailyAnimePost.t) (st : state) :
  match post_date s with
  | Some dt =>
      forall q,
        ~ In q (directories_of dt) ->
        q <> image_filename (day_dir_of dt) s ->
        q <> comment_filename (day_dir_of dt) s ->
        fs (snd (process up s st)) !! q = fs st !! q
  | None =>
      exists e, process up s st = (Raise e, logged st [processing_notice s])
  end.
Proof.
  destruct (post_date s) as [dt|] eqn:D.
  - intros q N Hi Hc. rewrite (process_run up s dt D). unfold directories_of in N.
    revert st. change (preserves q
      (print ("Processing " +:+ DailyAnimePost.title s +:+ " - "
              +:+ DailyAnimePost.permalink s);;
       ensure_dir (month_dir_of dt);; ensure_dir (day_dir_of dt);;
       download_image up s (day_dir_of dt);; save_comment s (day_dir_of dt))).
    apply preserves_bind; [apply preserves_emit | intros _].
    apply preserves_bind; [|intros _].
    { apply preserves_ensure_dir. intros I. apply N.
      rewrite app_assoc. apply in_or_app. left. exact I. }
    apply preserves_bind; [|intros _].
    { apply preserves_ensure_dir. intros I. apply N.
      apply in_or_app. right. apply in_or_app. right. exact I. }
    apply preserves_bind; [|intros _].
    + apply preserves_download_image. congruence.
    + apply preserves_save_comment. congruence.
  - eexists. unfold process. unfold post_date in D. now rewrite D, run_print.
Qed.

(** X16: a failed download loses the post and stops the loop.  With the
    directories of the post in place and its image not there, a request
    that raises makes the processing raise the same exception, after the
    line of the post and the request and before any write: the file system
    is as before, the comment of the post is not written, and the posts
    behind it in the loop are not reached. *)
Theorem failed_download_stops_the_loop
    (up : upstream) (s : DailyAnimePost.t) (rest : list DailyAnimePost.t)
    (st : state) (dt : Calendar.datetime) (e : exn) :
  post_date s = Some dt ->
  is_Some (fs st !! month_dir_of dt) ->
  is_Some (fs st !! day_dir_of dt) ->
  fs st !! image_filename (day_dir_of dt) s = None ->
  http up (DailyAnimePost.media_url s) = Raise e ->
  process up s st
  = (Raise e, logged st [processing_notice s; HttpGet (DailyAnimePost.media_url s)])
  /\ for_each (s :: rest) (process up) st
     = (Raise e, logged st [processing_notice s; HttpGet (DailyAnimePost.media_url s)]).
Proof.
  intros D Hm Hd Hi Hh.
  assert (P : process up s st
              = (Raise e, logged st [processing_notice s;
                                     HttpGet (DailyAnimePost.media_url s)])).
  { rewrite (process_run up s dt D), run_print.
    rewrite run_bind, ensure_dir_noop by exact Hm.
    rewrite run_bind, ensure_dir_noop by exact Hd.
    rewrite run_bind, download_image_run. cbn [logged fs]. rewrite Hi, Hh.
    cbn zeta. now rewrite logged_logged. }
  split; [exact P|]. cbn [for_each]. now rewrite run_bind, P.
Qed.

Lemma failed_download_stops_the_loop_witness :
  for_each [post_1700000000; post_1700003600]
    (process (offline upstream_example)) archive_state
  = (Raise (Exn "ClientConnectorError" "cannot connect"),
     logged archive_state [processing_notice post_1700000000;
                           HttpGet "https://i.redd.it/pic.jpg"]).
Proof.
  assert (M : is_Some (fs archive_state !! "data/11_November"))
    by (eexists; vm_compute; reflexivity).
  assert (D : is_Some (fs archive_state !! "data/11_November/14"))
    by (eexists; vm_compute; reflexivity).
  assert (I : fs archive_state !! "data/11_November/14/abc123.jpg" = None)
    by (vm_compute; reflexivity).
  exact (proj2 (failed_download_stops_the_loop (offline upstream_example)
                  post_1700000000 [post_1700003600] archive_state
                  (Calendar.mkdatetime 2023 11 14 22 13 20)
                  (Exn "ClientConnectorError" "cannot connect")
                  eq_refl M D I eq_refl)).
Defined.

Lemma ancestors_from_app (s1 s2 acc : string) :
  Path.ancestors_from acc (s1 +:+ s2)
  = Path.ancestors_from acc s1 ++ Path.ancestors_from (acc +:+ s1) s2.
Proof.
  revert acc. induction s1 as [|c s1 IH]; intros acc.
  - now rewrite append_nil_r.
  - rewrite append_cons. cbn [Path.ancestors_from]. rewrite IH, <- app_assoc.
    now rewrite append_assoc.
Qed.

Lemma ancestors_from_slash_free (n acc : string) :
  has_char "/" n = false -> Path.ancestors_from acc n = [].
Proof.
  revert acc. induction n as [|c n IH]; intros acc; [reflexivity|].
  rewrite has_char_cons. intros H. apply orb_false_iff in H as [Hc Hn].
  cbn [Path.ancestors_from]. rewrite Hc, (IH _ Hn). reflexivity.
Qed.

(** A name without separator lies directly in the directory it is joined
    to. *)
Lemma parent_of_entry (d n : string) :
  d <> "" -> has_char "/" n = false -> Path.parent (d +:+ "/" +:+ n) = d.
Proof.
  intros Hd Hn. unfold Path.parent, Path.ancestors.
  rewrite ancestors_from_app. change ("" +:+ d) with d.
  change ("/" +:+ n) with (String "/"%char n). cbn [Path.ancestors_from].
  rewrite (ancestors_from_slash_free n _ Hn), app_nil_r.
  change (Ascii.eqb "/" "/") with true.
  destruct (String.eqb_spec d ""); [contradiction|]. cbn [andb negb].
  apply last_last.
Qed.

Lemma has_char_append (c : ascii) (a b : string) :
  has_char c (a +:+ b) = has_char c a || has_char c b.
Proof.
  induction a as [|x a IH]; [reflexivity|].
  now rewrite append_cons, !has_char_cons, IH, orb_assoc.
Qed.

(** ** Links without query *)

Lemma before_query_plain (url : string) :
  has_char "?" url = false -> has_char "#" url = false -> before_query url = url.
Proof.
  induction url as [|c s IH]; [reflexivity|].
  rewrite !has_char_cons. intros Hq Hf.
  apply orb_false_iff in Hq as [Hq1 Hq2]. apply orb_false_iff in Hf as [Hf1 Hf2].
  cbn [before_query]. rewrite Hq1, Hf1. cbn [orb]. now rewrite (IH Hq2 Hf2).
Qed.

Lemma after_first_Some (p s rest : string) :
  after_first p s = Some rest -> exists pre, s = pre +:+ p +:+ rest.
Proof.
  induction s as [|a s IH]; cbn [after_first].
  - destruct (Str.strip_prefix p "") as [r|] eqn:E; [|discriminate].
    intros [= <-]. exists "". exact (strip_prefix_Some _ _ _ E).
  - destruct (Str.strip_prefix p (String a s)) as [r|] eqn:E.
    + intros [= <-]. exists "". exact (strip_prefix_Some _ _ _ E).
    + intros H. destruct (IH H) as [pre ->]. now exists (String a pre).
Qed.

Lemma from_slash_spec (s : string) :
  from_slash s = ""
  \/ exists a t, s = a +:+ String "/" t /\ from_slash s = String "/" t.
Proof.
  induction s as [|c s IH]; [now left|]. cbn [from_slash].
  destruct (Ascii.eqb_spec c "/") as [->|N].
  - right. now exists "", s.
  - destruct IH as [E|(a & t & E & F)]; [now left|].
    right. exists (String c a), t. split; [now rewrite E | exact F].
Qed.

Lemma after_last_app_sep (c : ascii) (a t : string) :
  after_last c (a +:+ String c t) = after_last c t.
Proof.
  induction a as [|x a IH].
  - change ("" +:+ String c t) with (String c t).
    now rewrite after_last_cons, Ascii.eqb_refl.
  - rewrite append_cons, after_last_cons, has_char_append, has_char_cons.
    now rewrite Ascii.eqb_refl, !orb_true_r.
Qed.

(** The final segment of a link without query and fragment is what follows
    its last slash, unless the link has no path at all. *)
Lemma final_segment_plain (url : string) :
  has_char "?" url = false -> has_char "#" url = false ->
  final_segment url = after_last "/" url \/ final_segment url = "".
Proof.
  intros Hq Hf. unfold final_segment, url_path.
  rewrite (before_query_plain _ Hq Hf).
  destruct (after_first "//" url) as [rest|] eqn:E; [|now left].
  apply after_first_Some in E as [pre ->].
  destruct (from_slash_spec rest) as [->|(a & t & -> & ->)]; [now right|].
  left. transitivity (after_last "/" t).
  - exact (after_last_app_sep "/" "" t).
  - symmetry. rewrite <- !append_assoc. apply after_last_app_sep.
Qed.

(** Where the code meets C5: for a link without query and fragment whose
    final path segment has a dot, the extension the fetcher takes is the
    extension of that segment. *)
Lemma extension_of_plain_link (url : string) :
  has_char "?" url = false -> has_char "#" url = false ->
  has_char "." (final_segment url) = true ->
  Str.last (Str.split "." url) = after_last "." (final_segment url).
Proof.
  intros Hq Hf H. fold (after_last "." url).
  destruct (final_segment_plain url Hq Hf) as [E|E]; rewrite E in *.
  - now apply after_last_dot_after_last_slash.
  - discriminate H.
Qed.

Lemma ancestors_table :
  forallb (fun m => forallb (fun d =>
    let dt := Calendar.mkdatetime 0 m d 0 0 0 in
    bool_decide (Path.ancestors (month_dir_of dt) = [data_dir])
    && bool_decide (Path.ancestors (day_dir_of dt) = [data_dir; month_dir_of dt]))
    days) months = true.
Proof. vm_compute. reflexivity. Qed.

(** The directories of a date lie in the data directory, the day in the
    month. *)
Lemma ancestors_of_directories (t : Z) (dt : Calendar.datetime) :
  Calendar.utcfromtimestamp t = Some dt ->
  Path.ancestors (month_dir_of dt) = [data_dir]
  /\ Path.ancestors (day_dir_of dt) = [data_dir; month_dir_of dt].
Proof.
  intros H. destruct (utcfromtimestamp_range _ _ H) as [Hm Hd].
  pose proof ancestors_table as T.
  rewrite forallb_forall in T. specialize (T _ (in_months _ Hm)).
  rewrite forallb_forall in T. specialize (T _ (in_days _ Hd)).
  cbn zeta in T. apply andb_true_iff in T as [A B].
  apply bool_decide_eq_true_1 in A, B. now split.
Qed.

Lemma makedirs_run (p : string) (st : state) :
  fs st !! p = None ->
  Forall (fun d => OS.is_file (fs st) d = false) (Path.ancestors p) ->
  OS.makedirs p st
  = (Ok tt, mkstate (foldr (fun d m => <[d := Dir]> m) (fs st) (Path.ancestors p ++ [p]))
                    (trace st)).
Proof.
  intros N F. unfold OS.makedirs.
  rewrite bool_decide_eq_false_2 by (rewrite N; intros [? ?]; discriminate).
  assert (X : existsb (OS.is_file (fs st)) (Path.ancestors p) = false).
  { apply not_true_is_false. intros E. apply existsb_exists in E as (d & I & E).
    rewrite List.Forall_forall in F. specialize (F d I). congruence. }
  now rewrite X.
Qed.

(** Making sure of a directory whose path and ancestors hold no file
    returns, and the path is a directory then; no file appears. *)
Lemma ensure_dir_makes (d : string) (st : state) :
  OS.is_file (fs st) d = false ->
  Forall (fun a => OS.is_file (fs st) a = false) (Path.ancestors d) ->
  exists st',
    ensure_dir d st = (Ok tt, st')
    /\ trace st' = trace st
    /\ OS.is_dir (fs st') d = true
    /\ (forall q, OS.is_file (fs st') q = OS.is_file (fs st) q)
    /\ (forall q, ~ In q (Path.ancestors d ++ [d]) -> fs st' !! q = fs st !! q).
Proof.
  intros Hf Ha. unfold ensure_dir. rewrite run_bind. unfold OS.path_exists.
  destruct (fs st !! d) as [n|] eqn:E.
  - rewrite bool_decide_eq_true_2 by eauto. cbn [negb].
    exists st. repeat split. unfold OS.is_dir, OS.is_file in *. rewrite E in *.
    now destruct n.
  - rewrite bool_decide_eq_false_2 by (intros [? ?]; discriminate). cbn [negb].
    rewrite makedirs_run by assumption. eexists. split; [reflexivity|].
    cbn [fs trace]. split; [reflexivity|]. split; [|split].
    + unfold OS.is_dir. rewrite lookup_insert_dirs; [reflexivity|].
      apply in_or_app. right. now left.
    + intros q. assert (F : Forall (fun a => OS.is_file (fs st) a = false)
                              (Path.ancestors d ++ [d])).
      { apply Forall_app. split; [exact Ha|]. constructor; [exact Hf | constructor]. }
      induction F as [|a l Fa _ IH]; [reflexivity|]. cbn [foldr].
      unfold OS.is_file in *. destruct (decide (a = q)) as [->|N].
      * rewrite lookup_insert_eq. now rewrite Fa.
      * now rewrite lookup_insert_ne.
    + intros q N. induction (Path.ancestors d ++ [d]) as [|a l IH]; [reflexivity|].
      cbn [foldr]. rewrite lookup_insert_ne.
      * apply IH. intros I. apply N. now right.
      * intros ->. apply N. now left.
Qed.

Lemma directories_length_table :
  forallb (fun m => forallb (fun d =>
    let dt := Calendar.mkdatetime 0 m d 0 0 0 in
    forallb (fun q => (String.length q <=? String.length (day_dir_of dt))%nat)
      (directories_of dt))
    days) months = true.
Proof. vm_compute. reflexivity. Qed.

(** No directory of a date has a longer path than its day directory. *)
Lemma directories_are_short (t : Z) (dt : Calendar.datetime) (q : string) :
  Calendar.utcfromtimestamp t = Some dt ->
  In q (directories_of dt) ->
  (String.length q <= String.length (day_dir_of dt))%nat.
Proof.
  intros H I. destruct (utcfromtimestamp_range _ _ H) as [Hm Hd].
  pose proof directories_length_table as T.
  rewrite forallb_forall in T. specialize (T _ (in_months _ Hm)).
  rewrite forallb_forall in T. specialize (T _ (in_days _ Hd)).
  cbn zeta in T. rewrite forallb_forall in T.
  rewrite directories_of_month_day in I. specialize (T q I).
  apply Nat.leb_le in T. rewrite day_dir_of_month_day. exact T.
Qed.

Lemma entry_is_no_directory (t : Z) (dt : Calendar.datetime) (n : string) :
  Calendar.utcfromtimestamp t = Some dt ->
  ~ In (day_dir_of dt +:+ "/" +:+ n) (directories_of dt).
Proof.
  intros H I. apply (directories_are_short t dt _ H) in I.
  rewrite !length_append in I. cbn [String.length] in I. lia.
Qed.

Lemma directories_relative_table :
  forallb (fun m => forallb (fun d =>
    forallb (fun q => negb (Str.startswith q "/"))
      (directories_of (Calendar.mkdatetime 0 m d 0 0 0)))
    days) months = true.
Proof. vm_compute. reflexivity. Qed.

(** No directory of a date is an absolute path. *)
Lemma directories_are_relative (t : Z) (dt : Calendar.datetime) (q : string) :
  Calendar.utcfromtimestamp t = Some dt ->
  In q (directories_of dt) ->
  Str.startswith q "/" = false.
Proof.
  intros H I. destruct (utcfromtimestamp_range _ _ H) as [Hm Hd].
  pose proof directories_relative_table as T.
  rewrite forallb_forall in T. specialize (T _ (in_months _ Hm)).
  rewrite forallb_forall in T. specialize (T _ (in_days _ Hd)).
  rewrite forallb_forall in T.
  rewrite directories_of_month_day in I. specialize (T q I).
  apply negb_true_iff in T. exact T.
Qed.

(** Whatever is joined to the day directory of a date is none of the
    directories of that date. *)
Lemma joined_is_no_directory (t : Z) (dt : Calendar.datetime) (n : string) :
  Calendar.utcfromtimestamp t = Some dt ->
  ~ In (Path.join (day_dir_of dt) n) (directories_of dt).
Proof.
  intros H. destruct (Str.startswith n "/") eqn:E.
  - unfold Path.join. rewrite E. intros I.
    apply (directories_are_relative t dt n H) in I. congruence.
  - destruct (day_dir_of_shape _ _ H) as [Hn He].
    rewrite (join_relative _ _ Hn He E). exact (entry_is_no_directory t dt n H).
Qed.

Lemma join_append (a b c : string) :
  Str.startswith c "/" = false ->
  Path.join a (b +:+ c) = Path.join a b +:+ c.
Proof.
  intros Hc. unfold Path.join. destruct b as [|x b].
  - change ("" +:+ c) with c. rewrite Hc.
    change (Str.startswith "" "/") with false.
    destruct (String.eqb a "" || Str.endswith a "/").
    + now rewrite append_nil_r.
    + now rewrite !append_assoc.
  - rewrite append_cons.
    assert (E : Str.startswith (String x (b +:+ c)) "/" = Str.startswith (String x b) "/").
    { unfold Str.startswith. cbn [String.prefix].
      destruct (ascii_dec "/" x); [|reflexivity].
      destruct b; [now destruct c | reflexivity]. }
    rewrite E. destruct (Str.startswith (String x b) "/"); [reflexivity|].
    destruct (String.eqb a "" || Str.endswith a "/");
      now rewrite <- ?append_cons, !append_assoc.
Qed.

Lemma append_inv_head (a b c : string) : a +:+ b = a +:+ c -> b = c.
Proof.
  induction a as [|x a IH]; [intros H; exact H|].
  rewrite !append_cons. intros [= H]. exact (IH H).
Qed.

(** The image file and the comment file of a post are one path only for a
    link whose extension is [txt]. *)
Lemma image_is_not_comment (d : string) (s : DailyAnimePost.t) :
  after_last "." (DailyAnimePost.media_url s) <> "txt" ->
  image_filename d s <> comment_filename d s.
Proof.
  intros N E. apply N. unfold image_filename, comment_filename in E.
  fold (after_last "." (DailyAnimePost.media_url s)) in E.
  rewrite (join_append d (DailyAnimePost.id s) ".txt" eq_refl) in E.
  apply append_inv_head in E. now injection E.
Qed.

(** Without a comment to write, and unless the extension of the link is
    [txt], nothing in the processing of a post touches its comment path,
    whatever the outcome. *)
Lemma no_comment_no_txt (up : upstream) (s : DailyAnimePost.t) (dt : Calendar.datetime) :
  post_date s = Some dt ->
  DailyAnimePost.first_comment s = None \/ DailyAnimePost.first_comment s = Some "" ->
  after_last "." (DailyAnimePost.media_url s) <> "txt" ->
  preserves (comment_filename (day_dir_of dt) s) (process up s).
Proof.
  intros D E N. rewrite (process_run up s dt D).
  pose proof (joined_is_no_directory _ dt (DailyAnimePost.id s +:+ ".txt") D) as J.
  fold (comment_filename (day_dir_of dt) s) in J. unfold directories_of in J.
  apply preserves_bind; [apply preserves_emit | intros _].
  apply preserves_bind; [|intros _].
  { apply preserves_ensure_dir. intros I. apply J.
    rewrite app_assoc. apply in_or_app. left. exact I. }
  apply preserves_bind; [|intros _].
  { apply preserves_ensure_dir. intros I. apply J.
    apply in_or_app. right. apply in_or_app. right. exact I. }
  apply preserves_bind; [|intros _].
  - apply preserves_download_image. exact (image_is_not_comment _ s N).
  - unfold save_comment. destruct E as [-> | ->]; apply preserves_ret.
Qed.

(** C9 (as amended).  When the processing of a post returns, its last step
    was the comment step, taken in the directory of the post after the
    image step.  A non-empty first comment is then in
    [{directory}/{id}.txt], verbatim, in place of whatever that path held.
    With no first comment, or an empty one, the comment step changed
    nothing; and unless the extension of the link is [txt], which makes
    the image step write to that very path, [{directory}/{id}.txt] is
    after the processing what it was before, whether the processing
    returned or not: no such file is written. *)
Theorem comment_file_written
    (up : upstream) (s : DailyAnimePost.t) (st : state) :
  (forall st',
     process up s st = (Ok tt, st') ->
     exists dt st0 st1,
       post_date s = Some dt
       /\ download_image up s (day_dir_of dt) st0 = (Ok tt, st1)
       /\ save_comment s (day_dir_of dt) st1 = (Ok tt, st')
       /\ match DailyAnimePost.first_comment s with
          | Some (String a c) =>
              st' = mkstate (<[comment_filename (day_dir_of dt) s
                              := File (String a c)]> (fs st1))
                            (trace st1)
          | Some EmptyString | None => st' = st1
          end
       /\ (Str.startswith (DailyAnimePost.id s) "/" = false ->
           comment_filename (day_dir_of dt) s
           = day_dir_of dt +:+ "/" +:+ DailyAnimePost.id s +:+ ".txt")
       /\ match DailyAnimePost.first_comment s with
          | Some (String a c) =>
              fs st' !! comment_filename (day_dir_of dt) s = Some (File (String a c))
          | Some EmptyString | None =>
              after_last "." (DailyAnimePost.media_url s) <> "txt" ->
              fs st' !! comment_filename (day_dir_of dt) s
              = fs st !! comment_filename (day_dir_of dt) s
          end)
  /\ (forall dt,
        post_date s = Some dt ->
        DailyAnimePost.first_comment s = None
        \/ DailyAnimePost.first_comment s = Some "" ->
        after_last "." (DailyAnimePost.media_url s) <> "txt" ->
        fs (snd (process up s st)) !! comment_filename (day_dir_of dt) s
        = fs st !! comment_filename (day_dir_of dt) s).
Proof.
  split; [|intros dt D E N; exact (no_comment_no_txt up s dt D E N st)].
  intros st' H. pose proof H as H0.
  apply process_ok_inv in H0 as (dt & st0 & st1 & D & I & C).
  exists dt, st0, st1. split; [exact D | split; [exact I | split; [exact C|]]].
  set (cf := comment_filename (day_dir_of dt) s).
  assert (W : match DailyAnimePost.first_comment s with
              | Some (String a c) =>
                  st' = mkstate (<[cf := File (String a c)]> (fs st1)) (trace st1)
              | Some EmptyString | None => st' = st1
              end).
  { unfold save_comment in C. fold (comment_filename (day_dir_of dt) s) in C.
    fold cf in C.
    destruct (DailyAnimePost.first_comment s) as [[|a c]|].
    - now inversion C.
    - now apply write_file_ok_inv in C.
    - now inversion C. }
  split; [exact W | split].
  - intros Hi. destruct (day_dir_of_shape _ _ D) as [Hn He].
    unfold cf, comment_filename. apply join_relative; [exact Hn | exact He|].
    apply startswith_append; [exact Hi | reflexivity].
  - pose proof (fun E N => no_comment_no_txt up s dt D E N st) as K.
    rewrite H in K. cbn [snd] in K. fold cf in K.
    destruct (DailyAnimePost.first_comment s) as [[|a c]|].
    + intros N. apply K; [now right | exact N].
    + rewrite W. cbn [fs]. apply lookup_insert_eq.
    + intros N. apply K; [now left | exact N].
Qed.

Lemma comment_file_written_witness :
  let st' := snd (process upstream_example post_1700000000 stale_state) in
  process upstream_example post_1700000000 stale_state = (Ok tt, st')
  /\ fs stale_state !! "data/11_November/14/abc123.txt" = Some (File "old")
  /\ fs st' !! "data/11_November/14/abc123.txt" = Some (File "{source}")
  /\ (exists dt st0 st1,
       post_date post_1700000000 = Some dt
       /\ download_image upstream_example post_1700000000 (day_dir_of dt) st0 = (Ok tt, st1)
       /\ save_comment post_1700000000 (day_dir_of dt) st1 = (Ok tt, st')
       /\ st' = mkstate (<[comment_filename (day_dir_of dt) post_1700000000
                          := File "{source}"]> (fs st1))
                        (trace st1)
       /\ comment_filename (day_dir_of dt) post_1700000000
          = day_dir_of dt +:+ "/abc123.txt"
       /\ fs st' !! comment_filename (day_dir_of dt) post_1700000000
          = Some (File "{source}"))
  /\ fs (snd (process upstream_example post_1700003600 stale_state))
       !! comment_filename (day_dir_of (Calendar.mkdatetime 2023 11 14 23 13 20))
            post_1700003600
     = fs stale_state
       !! comment_filename (day_dir_of (Calendar.mkdatetime 2023 11 14 23 13 20))
            post_1700003600.
Proof.
  intros st'.
  assert (P : process upstream_example post_1700000000 stale_state = (Ok tt, st'))
    by (vm_compute; reflexivity).
  split; [exact P | split; [vm_compute; reflexivity | split; [vm_compute; reflexivity|]]].
  split.
  - destruct (proj1 (comment_file_written upstream_example post_1700000000 stale_state)
                st' P)
      as (dt & st0 & st1 & D & I & C & W & T & F).
    exists dt, st0, st1. repeat (split; [assumption|]).
    split; [exact (T eq_refl) | exact F].
  - assert (N : after_last "." (DailyAnimePost.media_url post_1700003600) <> "txt")
      by discriminate.
    exact (proj2 (comment_file_written upstream_example post_1700003600 stale_state)
             (Calendar.mkdatetime 2023 11 14 23 13 20) eq_refl (or_introl eq_refl) N).
Defined.

(** C9 fails as stated: a cached record with no comment and a link that
    ends in [.txt] is processed, and [{directory}/{id}.txt] is written all
    the same, by the image step, with the body served for the link; and
    the comment of a post whose download fails is not written. *)
Lemma txt_link_is_written_to_the_comment_path :
  let st' := snd (main Json.loads upstream_example txt_cache_state) in
  let failed := process (offline upstream_example) post_1700000000 archive_state in
  DailyAnimePost.first_comment post_txt_link = None
  /\ comment_filename "data/11_November/14" post_txt_link
     = "data/11_November/14/abc127.txt"
  /\ fs txt_cache_state !! "data/11_November/14/abc127.txt" = None
  /\ fst (main Json.loads upstream_example txt_cache_state) = Ok tt
  /\ fs st' !! "data/11_November/14/abc127.txt"
     = Some (File "bytes of https://example.com/notes.txt")
  /\ DailyAnimePost.first_comment post_1700000000 = Some "{source}"
  /\ fst failed = Raise (Exn "ClientConnectorError" "cannot connect")
  /\ fs (snd failed) !! "data/11_November/14/abc123.txt" = None.
Proof. vm_compute. repeat split; reflexivity. Qed.

Lemma last_char_extension (url : string) :
  is_image_url url = true ->
  last_char (after_last "." url) = Some "g"%char
  \/ last_char (after_last "." url) = Some "f"%char.
Proof.
  unfold is_image_url. cbn [existsb]. rewrite orb_false_r. intros H.
  repeat (apply orb_true_iff in H as [H|H]);
    apply endswith_append in H as [a ->];
    [left | left | left | right];
    (apply last_char_after_last; [now rewrite last_char_append by discriminate
                                 | discriminate]).
Qed.

(** X17: a post of the filter is archived in its day directory.  For a post
    with an image link whose id and extension hold no separator, on a file
    system where no file is in the way of its directories and its image is
    not there yet, and with a request that succeeds, the processing
    returns after one request; the directories of its date are there, the
    image holds the body that was served, and the comment file holds the
    comment, if the post has one. *)
Theorem process_archives_post
    (up : upstream) (s : DailyAnimePost.t) (st : state) (dt : Calendar.datetime)
    (image_data : string) :
  let image := day_dir_of dt +:+ "/" +:+ DailyAnimePost.id s +:+ "."
               +:+ after_last "." (DailyAnimePost.media_url s) in
  let comment := day_dir_of dt +:+ "/" +:+ DailyAnimePost.id s +:+ ".txt" in
  post_date s = Some dt ->
  is_image_url (DailyAnimePost.media_url s) = true ->
  has_char "/" (DailyAnimePost.id s) = false ->
  has_char "/" (after_last "." (DailyAnimePost.media_url s)) = false ->
  Forall (fun d => OS.is_file (fs st) d = false)
    [data_dir; month_dir_of dt; day_dir_of dt] ->
  fs st !! image = None ->
  OS.is_dir (fs st) comment = false ->
  http up (DailyAnimePost.media_url s) = Ok image_data ->
  exists st',
    process up s st = (Ok tt, st')
    /\ trace st' = trace st ++ [processing_notice s;
                                HttpGet (DailyAnimePost.media_url s)]
    /\ OS.is_dir (fs st') (month_dir_of dt) = true
    /\ OS.is_dir (fs st') (day_dir_of dt) = true
    /\ fs st' !! image = Some (File image_data)
    /\ match DailyAnimePost.first_comment s with
       | Some (String a c) => fs st' !! comment = Some (File (String a c))
       | Some EmptyString | None => fs st' !! comment = fs st !! comment
       end.
Proof.
  intros image comment D Himg Hid Hext Hfiles Hi Hc Hh.
  inversion Hfiles as [|? ? Fd Hf1]; subst. inversion Hf1 as [|? ? Fm Hf2]; subst.
  inversion Hf2 as [|? ? Fy _]; subst. clear Hfiles Hf1 Hf2.
  destruct (ancestors_of_directories _ _ D) as [Am Ay].
  destruct (day_dir_of_shape _ _ D) as [Hne Hnt].
  assert (Ei : image_filename (day_dir_of dt) s = image).
  { unfold image_filename, image. fold (after_last "." (DailyAnimePost.media_url s)).
    rewrite join_entry by assumption. now rewrite !append_assoc. }
  assert (Ec : comment_filename (day_dir_of dt) s = comment).
  { unfold comment_filename, comment. apply join_relative; [assumption ..|].
    apply startswith_append; [now apply startswith_slash_free | reflexivity]. }
  assert (Pi : Path.parent image = day_dir_of dt).
  { apply parent_of_entry; [exact Hne|].
    rewrite !has_char_append, Hid, Hext. reflexivity. }
  assert (Pc : Path.parent comment = day_dir_of dt).
  { apply parent_of_entry; [exact Hne|]. rewrite has_char_append, Hid. reflexivity. }
  assert (Ni : ~ In image (directories_of dt))
    by exact (entry_is_no_directory _ dt _ D).
  assert (Nc : ~ In comment (directories_of dt))
    by exact (entry_is_no_directory _ dt _ D).
  assert (Nic : image <> comment).
  { intros E. apply (f_equal last_char) in E. unfold image, comment in E.
    rewrite !(last_char_append (day_dir_of dt)) in E by discriminate.
    rewrite !(last_char_append "/") in E
      by (destruct (DailyAnimePost.id s); discriminate).
    rewrite (last_char_append _ ".txt") in E by discriminate.
    destruct (last_char_extension _ Himg) as [L|L];
      rewrite (last_char_append _ ("." +:+ _)) in E by discriminate;
      rewrite (last_char_append ".") in E
        by (eapply last_char_Some_nonempty; exact L);
      rewrite L in E; discriminate. }
  unfold directories_of in Ni, Nc.
  rewrite (process_run up s dt D), run_print.
  change (Print _) with (processing_notice s).
  (* the month directory *)
  destruct (ensure_dir_makes (month_dir_of dt) (logged st [processing_notice s]))
    as (sb & Rb & Tb & Db & Fb & Ob).
  { exact Fm. } { rewrite Am. constructor; [exact Fd | constructor]. }
  rewrite run_bind, Rb.
  (* the day directory *)
  destruct (ensure_dir_makes (day_dir_of dt) sb) as (sc & Rc & Tc & Dc & Fc & Oc).
  { rewrite Fb. exact Fy. }
  { rewrite Ay. constructor; [rewrite Fb; exact Fd|].
    constructor; [rewrite Fb; exact Fm | constructor]. }
  rewrite run_bind, Rc.
  assert (Sbc : stable (fs sb) (fs sc))
    by exact (keeps_kinds_run _ _ _ _ (keeps_kinds_ensure_dir _) Rc).
  assert (Keep : forall q, ~ In q (Path.ancestors (month_dir_of dt) ++ [month_dir_of dt]
                                   ++ Path.ancestors (day_dir_of dt) ++ [day_dir_of dt]) ->
                           fs sc !! q = fs st !! q).
  { intros q N. rewrite Oc, Ob; [reflexivity | |].
    - intros I. apply N. rewrite app_assoc. apply in_or_app. left. exact I.
    - intros I. apply N. apply in_or_app. right. apply in_or_app. right. exact I. }
  (* the image *)
  rewrite run_bind, download_image_run, Ei, (Keep image Ni), Hi, Hh. cbn zeta.
  rewrite write_file_run.
  2: { cbn [logged fs]. unfold OS.is_dir. now rewrite (Keep image Ni), Hi. }
  2: { cbn [logged fs]. unfold OS.parent_ok. rewrite Pi, Dc. apply orb_true_r. }
  cbn [logged fs trace].
  assert (Sd : stable (fs sc) (<[image := File image_data]> (fs sc))).
  { apply stable_insert_file. unfold OS.is_dir. now rewrite (Keep image Ni), Hi. }
  (* the comment *)
  unfold save_comment. fold (comment_filename (day_dir_of dt) s). rewrite Ec.
  assert (T : trace sc ++ [HttpGet (DailyAnimePost.media_url s)]
              = trace st ++ [processing_notice s; HttpGet (DailyAnimePost.media_url s)]).
  { rewrite Tc, Tb. cbn [logged trace]. now rewrite <- app_assoc. }
  destruct (DailyAnimePost.first_comment s) as [[|a c]|].
  - eexists. split; [reflexivity|]. cbn [fs trace].
    split; [exact T|]. split; [apply Sd, Sbc, Db|]. split; [apply Sd, Dc|].
    split; [apply lookup_insert_eq|].
    rewrite lookup_insert_ne by exact Nic. apply (Keep comment Nc).
  - rewrite write_file_run; cbn [fs].
    + eexists. split; [reflexivity|]. cbn [fs trace].
      assert (Se : stable (<[image := File image_data]> (fs sc))
                     (<[comment := File (String a c)]>
                        (<[image := File image_data]> (fs sc)))).
      { apply stable_insert_file. unfold OS.is_dir.
        rewrite lookup_insert_ne by exact Nic. rewrite (Keep comment Nc).
        exact Hc. }
      split; [exact T|]. split; [apply Se, Sd, Sbc, Db|]. split; [apply Se, Sd, Dc|].
      split; [|apply lookup_insert_eq].
      rewrite lookup_insert_ne by congruence. apply lookup_insert_eq.
    + unfold OS.is_dir. rewrite lookup_insert_ne by exact Nic.
      rewrite (Keep comment Nc). exact Hc.
    + unfold OS.parent_ok. rewrite Pc, (proj1 (Sd _) Dc). apply orb_true_r.
  - eexists. split; [reflexivity|]. cbn [fs trace].
    split; [exact T|]. split; [apply Sd, Sbc, Db|]. split; [apply Sd, Dc|].
    split; [apply lookup_insert_eq|].
    rewrite lookup_insert_ne by exact Nic. apply (Keep comment Nc).
Qed.

Lemma process_archives_post_witness :
  exists st',
    process upstream_example post_1700000000 empty_state = (Ok tt, st')
    /\ trace st' = [processing_notice post_1700000000;
                    HttpGet "https://i.redd.it/pic.jpg"]
    /\ OS.is_dir (fs st') "data/11_November" = true
    /\ OS.is_dir (fs st') "data/11_November/14" = true
    /\ fs st' !! "data/11_November/14/abc123.jpg"
       = Some (File "bytes of https://i.redd.it/pic.jpg")
    /\ fs st' !! "data/11_November/14/abc123.txt" = Some (File "{source}").
Proof.
  assert (F : Forall (fun d => OS.is_file (fs empty_state) d = false)
                [data_dir; "data/11_November"; "data/11_November/14"])
    by (repeat constructor).
  exact (process_archives_post upstream_example post_1700000000 empty_state
           (Calendar.mkdatetime 2023 11 14 22 13 20)
           "bytes of https://i.redd.it/pic.jpg"
           eq_refl eq_refl eq_refl eq_refl F eq_refl eq_refl eq_refl).
Defined.

(** ** The audit reads and prints *)

Lemma scan_events {A} (P : event -> Prop) (f : A -> result unit * list event)
    (l : list A) :
  (forall x, Forall P (snd (f x))) -> Forall P (snd (scan f l)).
Proof.
  intros H. induction l as [|x l IH]; cbn [scan]; [constructor|].
  specialize (H x). destruct (f x) as [[[]|e|] evs]; cbn [snd] in *; try exact H.
  destruct (scan f l) as [r evs']. cbn [snd] in *.
  apply Forall_app. split; assumption.
Qed.

Lemma audit_line_empty_notice (d : string) : audit_line (empty_notice d) = true.
Proof.
  unfold empty_notice, audit_line. apply orb_true_iff. right.
  unfold Str.startswith. destruct d; reflexivity.
Qed.

Lemma audit_month_events (m : gmap string node) (month : string) :
  Forall (fun ev => exists d, ev = empty_notice d) (snd (audit_month m month)).
Proof.
  unfold audit_month. cbn zeta.
  destruct (OS.is_dir m (Path.join data_dir month)); [|constructor].
  apply scan_events. intros d. unfold audit_day.
  destruct (m !! d) as [[data|]|]; cbn [snd]; try constructor.
  destruct (is_empty_dir m d); constructor; [now exists d | constructor].
Qed.

(** X18: the audit only reads and prints.  Whatever the file system, the
    audit leaves it as it is and adds nothing to the trace but printed
    lines, each the notice of an empty directory or the closing line: no
    request is made.  The closing line is among them exactly when the
    audit returns. *)
Theorem audit_only_reads_and_prints (st : state) :
  exists evs,
    snd (perform_audit st) = logged st evs
    /\ Forall (fun ev => is_print ev = true /\ audit_line ev = true) evs
    /\ (In (Print "Audit complete") evs <-> fst (perform_audit st) = Ok tt).
Proof.
  assert (L : forall evs, Forall (fun ev => exists d, ev = empty_notice d) evs ->
                Forall (fun ev => is_print ev = true /\ audit_line ev = true) evs).
  { intros evs F. eapply Forall_impl; [exact F|]. intros ev [d ->].
    split; [reflexivity | apply audit_line_empty_notice]. }
  rewrite perform_audit_run.
  destruct (fs st !! data_dir) as [[data|]|].
  - exists []. rewrite logged_nil. repeat split; try constructor.
    + intros [].
    + discriminate.
  - pose proof (scan_events _ (audit_month (fs st)) (OS.entries (fs st) data_dir)
                  (audit_month_events (fs st))) as N.
    destruct (scan (audit_month (fs st)) (OS.entries (fs st) data_dir))
      as [[[]|e|] evs]; cbn [snd fst] in *.
    + exists (evs ++ [Print "Audit complete"]). split; [reflexivity|]. split.
      * apply Forall_app. split; [exact (L _ N) | repeat constructor].
      * split; [reflexivity|]. intros _. apply in_or_app. right. now left.
    + exists evs. split; [reflexivity|]. split; [exact (L _ N)|].
      split; [|discriminate]. intros I.
      rewrite List.Forall_forall in N. destruct (N _ I) as [d E]. discriminate E.
    + exists evs. split; [reflexivity|]. split; [exact (L _ N)|].
      split; [|discriminate]. intros I.
      rewrite List.Forall_forall in N. destruct (N _ I) as [d E]. discriminate E.
  - exists []. rewrite logged_nil. repeat split; try constructor.
    + intros [].
    + discriminate.
Qed.

(** X19: the audit needs the data root.  Its first listing is of the data
    root: when that is missing or is a regular file the audit raises the
    error of the listing, and nothing is printed, the closing line
    included. *)
Theorem audit_needs_the_data_directory (st : state) :
  OS.is_dir (fs st) data_dir = false ->
  perform_audit st
  = (Raise (if OS.is_file (fs st) data_dir
            then OS.NotADirectoryError data_dir
            else OS.FileNotFoundError data_dir), st).
Proof.
  intros H. rewrite perform_audit_run. unfold OS.is_dir, OS.is_file in *.
  destruct (fs st !! data_dir) as [[data|]|]; (reflexivity || discriminate).
Qed.

Lemma audit_needs_the_data_directory_witness :
  perform_audit empty_state = (Raise (OS.FileNotFoundError "data"), empty_state)
  /\ perform_audit (mkstate {["data" := File "text"]} [])
     = (Raise (OS.NotADirectoryError "data"), mkstate {["data" := File "text"]} []).
Proof.
  split.
  - exact (audit_needs_the_data_directory empty_state eq_refl).
  - exact (audit_needs_the_data_directory (mkstate {["data" := File "text"]} [])
             eq_refl).
Defined.

(** ** A run holds no audit *)

Lemma emits_process_line (P : event -> Prop) (up : upstream) (s : DailyAnimePost.t) :
  (forall url, P (HttpGet url)) -> P (processing_notice s) ->
  emits P (process up s).
Proof.
  intros Hg Hp. unfold process.
  apply emits_bind; [apply emits_emit; exact Hp | intros _].
  destruct (Calendar.utcfromtimestamp _); [|apply emits_raise].
  apply emits_bind; [apply emits_path_exists | intros e].
  apply emits_bind;
    [destruct e; [apply emits_ret | apply emits_makedirs] | intros _].
  apply emits_bind; [apply emits_path_exists | intros e'].
  apply emits_bind;
    [destruct e'; [apply emits_ret | apply emits_makedirs] | intros _].
  apply emits_bind; [now apply emits_download_image | intros _].
  apply emits_save_comment.
Qed.

Lemma submission_events_no_audit_line (s : Praw.Submission) :
  Forall (fun ev => audit_line ev = false) (submission_events s).
Proof.
  unfold submission_events.
  destruct (negb (has_date_indicator _)); [repeat constructor|].
  destruct (negb (is_image_url _)); [repeat constructor|].
  apply Forall_app. split; [repeat constructor|].
  destruct (comment_outcome _) as [[c|]|e|]; repeat constructor.
Qed.

Lemma emits_get_submissions_no_audit_line (up : upstream) :
  emits (fun ev => audit_line ev = false) (get_submissions up).
Proof.
  intros st. rewrite get_submissions_returns. cbn [snd logged trace].
  eexists. split; [reflexivity|]. constructor; [reflexivity|].
  induction (listing up) as [|s l IH]; cbn [flat_map]; [constructor|].
  apply Forall_app. split; [apply submission_events_no_audit_line | exact IH].
Qed.

(** X20: a run holds no audit.  The audit is a pass of its own: whatever
    the feed, the cache and the outcome, [main] prints neither the notice
    of an empty directory nor the closing line of the audit. *)
Theorem main_prints_no_audit_line
    (json_loads : string -> option json) (up : upstream) (st : state) :
  exists evs,
    trace (snd (main json_loads up st)) = trace st ++ evs
    /\ Forall (fun ev => audit_line ev = false) evs.
Proof.
  rewrite main_run.
  refine (emits_bind _ _ _ (emits_ensure_dir _ _) _ st). intros _.
  apply emits_bind; [apply emits_path_exists | intros c].
  apply emits_bind.
  - destruct c; [apply emits_load_submissions_urls
                | apply emits_get_submissions_no_audit_line].
  - intros l. apply emits_for_each. intros s.
    apply emits_process_line; [reflexivity.. ].
Qed.
